(** * Job orchestration layer of the multi-perspective image service

    A shallow embedding of
    - [backend/workflow_template.py]  (the template builder),
    - [backend/workflow_executor.py]  (the parameter injector and the
      parameter validator),
    - [backend/comfyui_modal.py]      ([_execute_workflow_via_api],
      [infer_single] and the batch endpoint [generate]),
    followed by the properties of the specification, each stated on these
    definitions.

    Conventions of the embedding.
    - A Python value that travels through JSON is a [value]; Python floats
      are IEEE binary64 numbers, so they are primitive floats here and keep
      their comparison semantics (a NaN compares false with everything).
    - A workflow is a dictionary from node identifier to node; a node has a
      class name and a dictionary of inputs.  Dictionaries are finite maps.
      The injector works on a deep copy of its argument and the helpers
      update that copy in place; with persistent maps the copy is the
      identity and every helper returns the updated map.
    - A [str] is the string of the bytes of its UTF-8 encoding; [isdigit]
      and [int] decode it and classify its characters as the interpreter
      does, and [int] has the interpreter's limit on the length of a
      numeral.
    - An exception is a value of [exn]; a pure computation that can raise
      returns a [result].  An exception that the source does not catch
      leaves the call: the [TypeError] of [enumerate] on a value that is no
      collection, the [ValueError] of a response whose content does not
      render as JSON.
    - The engine, the clock, the file system and the random generator are
      the environment: their answers are read from an explicit record.
      A computation that talks to the engine returns, next to its outcome,
      the log of the jobs it started and of the graphs it posted.
    - Printing and logging are left out. *)

From Stdlib Require Import ZArith NArith Floats Ascii String List Lia.
From Stdlib Require Import DecimalString DecimalNat.
From stdpp Require Import gmap strings list.

Set Warnings "-register-all".
Local Open Scope Z_scope.

(** ** Values *)

Inductive value : Type :=
| VNone
| VBool (b : bool)
| VInt (z : Z)
| VFloat (f : float)
| VStr (s : string)
| VList (l : list value).

(** Python's truth value of an object ([if x], [not x], [x or y]). *)
Definition truthy (v : value) : bool :=
  match v with
  | VNone => false
  | VBool b => b
  | VInt z => negb (z =? 0)
  | VFloat f => negb (PrimFloat.eqb f 0%float)
  | VStr s => negb (String.eqb s "")
  | VList l => match l with [] => false | _ => true end
  end.

(** [isinstance(v, int)]: [bool] is a subclass of [int]. *)
Definition isinstance_int (v : value) : bool :=
  match v with VBool _ | VInt _ => true | _ => false end.

(** [isinstance(v, (int, float))]. *)
Definition isinstance_number (v : value) : bool :=
  match v with VBool _ | VInt _ | VFloat _ => true | _ => false end.

Definition isinstance_str (v : value) : bool :=
  match v with VStr _ => true | _ => false end.

(** [v < a or v > b] for a number [v] and the bounds [a], [b] of the source
    (4 and 8, 1.0 and 5.0, all integral and exact as floats); an integer is
    compared exactly, a float by the IEEE comparison. *)
Definition outside (a b : Z) (v : value) : bool :=
  match v with
  | VBool c => let z := (if c then 1 else 0) in (z <? a) || (b <? z)
  | VInt z => (z <? a) || (b <? z)
  | VFloat f =>
      PrimFloat.ltb f (PrimFloat.of_uint63 (Uint63.of_Z a))
      || PrimFloat.ltb (PrimFloat.of_uint63 (Uint63.of_Z b)) f
  | _ => false
  end.

(** ** Strings

    A Python [str] is modelled by the string of the bytes of its UTF-8
    encoding; the strings of the model are thus the [str] values that can be
    encoded (those without a lone surrogate).  The two character-level
    primitives that the injector uses, [str.isdigit] and [int], work on
    code points: the bytes are decoded, and a character is classified by
    the tables of the interpreter's Unicode database (Python 3.11, as the
    image of the service pins it: Unicode 14.0). *)

(** The payload of a continuation byte. *)
Definition continuation (c : ascii) : option N :=
  let n := N_of_ascii c in
  if ((128 <=? n) && (n <? 192))%N then Some (n - 128)%N else None.

(** The code points of a string, or [None] for bytes that are not a UTF-8
    encoding (a stray or missing continuation byte, an overlong form, a
    surrogate, a value above U+10FFFF). *)
Fixpoint decode_utf8 (s : string) : option (list N) :=
  match s with
  | EmptyString => Some []
  | String c0 s0 =>
      let b0 := N_of_ascii c0 in
      if (b0 <? 128)%N then cons b0 <$> decode_utf8 s0
      else if ((194 <=? b0) && (b0 <? 224))%N then
        match s0 with
        | String c1 s1 =>
            match continuation c1 with
            | Some x1 => cons ((b0 - 192) * 64 + x1)%N <$> decode_utf8 s1
            | None => None
            end
        | EmptyString => None
        end
      else if ((224 <=? b0) && (b0 <? 240))%N then
        match s0 with
        | String c1 (String c2 s2) =>
            match continuation c1, continuation c2 with
            | Some x1, Some x2 =>
                let cp := ((b0 - 224) * 4096 + x1 * 64 + x2)%N in
                if ((2048 <=? cp) && negb ((55296 <=? cp) && (cp <? 57344)))%N
                then cons cp <$> decode_utf8 s2
                else None
            | _, _ => None
            end
        | _ => None
        end
      else if ((240 <=? b0) && (b0 <? 245))%N then
        match s0 with
        | String c1 (String c2 (String c3 s3)) =>
            match continuation c1, continuation c2, continuation c3 with
            | Some x1, Some x2, Some x3 =>
                let cp := ((b0 - 240) * 262144 + x1 * 4096 + x2 * 64 + x3)%N in
                if ((65536 <=? cp) && (cp <? 1114112))%N
                then cons cp <$> decode_utf8 s3
                else None
            | _, _, _ => None
            end
        | _ => None
        end
      else None
  end.

(** The characters of the string ([len(s)] is their number). *)
Definition code_points (s : string) : list N := default [] (decode_utf8 s).

(** The decimal digits of Unicode come in runs of ten, from the digit zero
    of a script to its digit nine: the code points of the zeros. *)
Definition decimal_zeros : list N :=
  [ 48; 1632; 1776; 1984; 2406; 2534; 2662; 2790;
    2918; 3046; 3174; 3302; 3430; 3558; 3664; 3792;
    3872; 4160; 4240; 6112; 6160; 6470; 6608; 6784;
    6800; 6992; 7088; 7232; 7248; 42528; 43216; 43264;
    43472; 43504; 43600; 44016; 65296; 66720; 68912; 69734;
    69872; 69942; 70096; 70384; 70736; 70864; 71248; 71360;
    71472; 71904; 72016; 72784; 73040; 73120; 92768; 92864;
    93008; 120782; 120792; 120802; 120812; 120822; 123200; 123632;
    125264; 130032 ]%N.

(** The other characters with a digit value (superscripts, circled digits
    and the like), as ranges: digits for [isdigit], but not decimal. *)
Definition other_digits : list (N * N) :=
  [ (178, 179); (185, 185); (4969, 4977); (6618, 6618); (8304, 8304);
    (8308, 8313); (8320, 8329); (9312, 9320); (9332, 9340); (9352, 9360);
    (9450, 9450); (9461, 9469); (9471, 9471); (10102, 10110); (10112, 10120);
    (10122, 10130); (68160, 68163); (69216, 69224); (69714, 69722); (127232, 127242) ]%N.

(** The value of a decimal digit ([unicodedata.decimal]). *)
Definition char_decimal (cp : N) : option Z :=
  (fun zero => Z.of_N (cp - zero))
    <$> List.find (fun zero => (zero <=? cp) && (cp <? zero + 10))%N decimal_zeros.

(** [c.isdigit()] for one character. *)
Definition char_isdigit (cp : N) : bool :=
  match char_decimal cp with
  | Some _ => true
  | None => existsb (fun '(lo, hi) => (lo <=? cp) && (cp <=? hi))%N other_digits
  end.

(** [s.isdigit()]: at least one character, and all of them digits. *)
Definition str_isdigit (s : string) : bool :=
  match decode_utf8 s with
  | Some (c :: cs) => forallb char_isdigit (c :: cs)
  | _ => false
  end.

(** [s.isdecimal()]: at least one character, and all of them decimal. *)
Definition str_isdecimal (s : string) : bool :=
  match decode_utf8 s with
  | Some (c :: cs) => forallb (fun cp => bool_decide (is_Some (char_decimal cp))) (c :: cs)
  | _ => false
  end.

(** The values of the decimal digits at the head of a string. *)
Fixpoint leading_digits (cps : list N) : list Z :=
  match cps with
  | [] => []
  | c :: rest =>
      match char_decimal c with
      | Some d => d :: leading_digits rest
      | None => []
      end
  end.

Definition digits_value (ds : list Z) : Z := fold_left (fun acc d => 10 * acc + d) ds 0.

(** The integer written by the decimal digits at the head of a string. *)
Definition str_decimal_value (s : string) : Z := digits_value (leading_digits (code_points s)).




Fixpoint ascii_only (s : string) : bool :=
  match s with
  | EmptyString => true
  | String c s' => (N_of_ascii c <? 128)%N && ascii_only s'
  end.



(** [str(n)] for a natural number. *)
Definition str_of_nat (n : nat) : string := NilZero.string_of_uint (Nat.to_uint n).

(** ** Exceptions *)

Inductive exn_class := TimeoutError | RuntimeError | ValueError | OtherError.

Record exn := Exn { exn_kind : exn_class; exn_text : string }.

Inductive result (A : Type) : Type :=
| Ok (a : A)
| Raise (e : exn).
Arguments Ok {A} a.
Arguments Raise {A} e.

Definition rbind {A B} (r : result A) (k : A -> result B) : result B :=
  match r with
  | Ok a => k a
  | Raise e => Raise e
  end.

(** The longest numeral that [int] converts
    ([sys.int_info.default_max_str_digits]). *)
Definition INT_MAX_STR_DIGITS : nat := 4300.

(** [int(s)] for a [str] all of whose characters are digits in the sense of
    [isdigit], the only strings that the source passes to it (so no sign,
    blank or underscore is met).  The interpreter reads the decimal digits
    at the head of the string: more of them than the limit is a
    [ValueError]; then a character that is not decimal is a [ValueError],
    and so is the empty string; else the value is returned. *)
Definition py_int (s : string) : result Z :=
  let invalid :=
    Raise (Exn ValueError ("invalid literal for int() with base 10: '" +:+ s +:+ "'")) in
  match decode_utf8 s with
  | None => invalid
  | Some cps =>
      let digits := leading_digits cps in
      if (INT_MAX_STR_DIGITS <? length digits)%nat
      then Raise (Exn ValueError
                    ("Exceeds the limit (4300 digits) for integer string conversion: "
                     +:+ "value has " +:+ str_of_nat (length digits)
                     +:+ " digits; use sys.set_int_max_str_digits() to increase the limit"))
      else if (0 <? length digits)%nat && (length digits =? length cps)%nat
      then Ok (digits_value digits)
      else invalid
  end.

(** [random.randint(a, b)]: an integer [n] with [a <= n <= b], here read off
    a word of entropy supplied by the environment. *)
Definition randint (a b : Z) (entropy : N) : Z := a + Z.of_N entropy mod (b - a + 1).

(** ** The template builder ([workflow_template.py]) *)

Record node := Node { class_type : string; inputs : gmap string value }.

Definition INPUT_IMAGE_PLACEHOLDER : string := "__INPUT_IMAGE__".
Definition PROMPT_PLACEHOLDER : string := "__PROMPT__".
Definition SEED_PLACEHOLDER : string := "__SEED__".
Definition STEPS_PLACEHOLDER : string := "__STEPS__".
Definition CFG_PLACEHOLDER : string := "__CFG__".
Definition OUTPUT_PREFIX_PLACEHOLDER : string := "__OUTPUT_PREFIX__".

Definition DEFAULT_STEPS : value := VInt 8.
Definition DEFAULT_CFG : value := VFloat 3%float.
Definition DEFAULT_SEED : value := VNone.
Definition DEFAULT_OUTPUT_PREFIX : string := "ComfyUI".

(** A reference to the output slot of another node: the list [[id, slot]]. *)
Definition ref (producer : string) (slot : Z) : value := VList [VStr producer; VInt slot].

Definition is_ref (v : value) : bool :=
  match v with
  | VList [VStr _; VInt _] => true
  | _ => false
  end.

Definition mk_node (cls : string) (ins : list (string * value)) : node :=
  Node cls (list_to_map ins).

Definition template_nodes : list (string * node) :=
  [ ("22", mk_node "VAELoader" [("vae_name", VStr "qwen_image_vae.safetensors")]);
    ("76", mk_node "CLIPLoader"
             [("clip_name", VStr "qwen_2.5_vl_7b.safetensors");
              ("type", VStr "stable_diffusion");
              ("device", VStr "default")]);
    ("77", mk_node "UNETLoader"
             [("unet_name", VStr "Qwen-Image-Edit-2511.safetensors");
              ("weight_dtype", VStr "default")]);
    ("125", mk_node "LoraLoaderModelOnly"
             [("model", ref "77" 0);
              ("lora_name", VStr "Qwen-Image-Lightning-4steps-V1.0.safetensors");
              ("strength_model", VFloat 0x1.999999999999ap-1%float)]);
    ("20", mk_node "LoraLoaderModelOnly"
             [("model", ref "125" 0);
              ("lora_name", VStr "Qwen-Image-Lightning-8steps-V1.0.safetensors");
              ("strength_model", VFloat 1%float)]);
    ("31", mk_node "LoadImage"
             [("image", VStr INPUT_IMAGE_PLACEHOLDER);
              ("upload", VStr "image")]);
    ("39", mk_node "ImageScaleToTotalPixels"
             [("image", ref "31" 0);
              ("upscale_method", VStr "lanczos");
              ("megapixels", VInt 1);
              ("resolution_steps", VInt 1)]);
    ("10", mk_node "VAEEncode"
             [("pixels", ref "39" 0);
              ("vae", ref "22" 0)]);
    ("115", mk_node "TextEncodeQwenImageEditPlus"
             [("clip", ref "76" 0);
              ("vae", ref "22" 0);
              ("image1", ref "39" 0);
              ("text", VStr PROMPT_PLACEHOLDER)]);
    ("3", mk_node "TextEncodeQwenImageEditPlus"
             [("clip", ref "76" 0);
              ("vae", ref "22" 0);
              ("image1", ref "39" 0);
              ("text", VStr "")]);
    ("2", mk_node "ModelSamplingAuraFlow"
             [("model", ref "20" 0);
              ("shift", VInt 3)]);
    ("1", mk_node "CFGNorm"
             [("model", ref "2" 0);
              ("strength", VInt 1)]);
    ("14", mk_node "KSampler"
             [("model", ref "1" 0);
              ("positive", ref "115" 0);
              ("negative", ref "3" 0);
              ("latent_image", ref "10" 0);
              ("seed", VStr SEED_PLACEHOLDER);
              ("control_after_generate", VStr "randomize");
              ("steps", VStr STEPS_PLACEHOLDER);
              ("cfg", VStr CFG_PLACEHOLDER);
              ("sampler_name", VStr "euler");
              ("scheduler", VStr "simple");
              ("denoise", VFloat 1%float)]);
    ("12", mk_node "VAEDecode"
             [("samples", ref "14" 0);
              ("vae", ref "22" 0)]);
    ("80", mk_node "SaveImage"
             [("images", ref "12" 0);
              ("filename_prefix", VStr OUTPUT_PREFIX_PLACEHOLDER)]) ].

Definition get_workflow_template : gmap string node := list_to_map template_nodes.

(** ** The parameter injector ([workflow_executor.py]) *)

(** [workflow[id]["inputs"][key] = v], for a node that is present. *)
Definition store_input (id key : string) (v : value) (workflow : gmap string node)
  : gmap string node :=
  alter (fun n => Node (class_type n) (<[key := v]> (inputs n))) id workflow.

(** [workflow[id]["inputs"].get(key)] *)
Definition input_of (workflow : gmap string node) (id key : string) : option value :=
  n ← workflow !! id; inputs n !! key.

Definition _inject_input_image (workflow : gmap string node) (input_image : string)
  : gmap string node :=
  if workflow !! "31" is Some _
  then store_input "31" "image" (VStr input_image) workflow
  else workflow.

Definition _inject_prompt (workflow : gmap string node) (prompt : string)
  : gmap string node :=
  if workflow !! "115" is Some _
  then store_input "115" "text" (VStr prompt) workflow
  else workflow.

Definition _inject_ksampler_params (workflow : gmap string node) (steps cfg seed : value)
  : gmap string node :=
  if workflow !! "14" is Some _
  then store_input "14" "seed" seed
         (store_input "14" "cfg" cfg
            (store_input "14" "steps" steps workflow))
  else workflow.

Definition _inject_output_prefix (workflow : gmap string node) (output_prefix : string)
  : gmap string node :=
  if workflow !! "80" is Some _
  then store_input "80" "filename_prefix" (VStr output_prefix) workflow
  else workflow.

(** The seed handling at the head of [inject_workflow_parameters]. *)
Definition resolve_seed (seed : value) (entropy : N) : result value :=
  match seed with
  | VNone => Ok (VInt (randint 0 (2 ^ 63 - 1) entropy))
  | VStr s =>
      if str_isdigit s
      then rbind (py_int s) (fun z => Ok (VInt z))
      else Ok (VInt (randint 0 (2 ^ 63 - 1) entropy))
  | _ => Ok seed
  end.

Definition inject_workflow_parameters
    (workflow : gmap string node) (input_image prompt : string)
    (steps cfg seed : value) (output_prefix : string) (entropy : N)
  : result (gmap string node) :=
  let result0 := workflow in
  rbind (resolve_seed seed entropy) (fun seed_value =>
  let result1 := _inject_input_image result0 input_image in
  let result2 := _inject_prompt result1 prompt in
  let result3 := _inject_ksampler_params result2 steps cfg seed_value in
  let result4 := _inject_output_prefix result3 output_prefix in
  Ok result4).

Definition create_workflow
    (input_image prompt : string) (steps cfg seed : value)
    (output_prefix : string) (entropy : N)
  : result (gmap string node) :=
  let template := get_workflow_template in
  inject_workflow_parameters template input_image prompt steps cfg seed output_prefix entropy.

(** [type(v).__name__] *)
Definition type_name (v : value) : string :=
  match v with
  | VNone => "NoneType"
  | VBool _ => "bool"
  | VInt _ => "int"
  | VFloat _ => "float"
  | VStr _ => "str"
  | VList _ => "list"
  end.

(** A message built by an f-string: its text, and, where the f-string ends
    in the printed form of a value ([", got {steps}"]), that value. *)
Inductive message :=
| Message (text : string)
| MessageGot (text : string) (got : value).

(** [validate_workflow_parameters]: the pair (valid, message). *)
Definition validate_workflow_parameters (steps cfg seed : value) : bool * message :=
  if negb (isinstance_int steps) || outside 4 8 steps
  then (false, MessageGot "steps must be an integer between 4 and 8, got " steps)
  else if negb (isinstance_number cfg) || outside 1 5 cfg
  then (false, MessageGot "cfg must be a number between 1.0 and 5.0, got " cfg)
  else
    match seed with
    | VNone => (true, Message "")
    | VStr s =>
        if truthy seed && negb (str_isdigit s)
        then (false, Message ("seed must be a numeric string, got '" +:+ s +:+ "'"))
        else (true, Message "")
    | _ =>
        if negb (isinstance_int seed)
        then (false, Message ("seed must be an integer or numeric string, got "
                              +:+ type_name seed))
        else (true, Message "")
    end.


(** The six stores an injection amounts to, in the order of the source. *)
Definition injected (workflow : gmap string node) (input_image prompt : string) (steps cfg seed_value : value)
    (output_prefix : string) : gmap string node :=
  store_input "80" "filename_prefix" (VStr output_prefix)
    (store_input "14" "seed" seed_value
       (store_input "14" "cfg" cfg
          (store_input "14" "steps" steps
             (store_input "115" "text" (VStr prompt)
                (store_input "31" "image" (VStr input_image) workflow))))).

(** The slots the injector writes. *)
Definition designated (id key : string) : bool :=
  bool_decide ((id, key) ∈ [ ("31", "image"); ("115", "text"); ("14", "steps");
                              ("14", "cfg"); ("14", "seed"); ("80", "filename_prefix") ]).

(** ** Effects: a log of engine interactions, exceptions, and the budget of
    the polling loop *)

Definition bytes := list Byte.byte.

(** What the outside world can observe of a batch call: which per-perspective
    jobs were started, and which job graphs were posted to the engine. *)
Inductive event :=
| EvInfer (index : nat) (prompt output_prefix : string)
| EvPost (client_id : string) (workflow : gmap string node).

(** [Diverged] marks a polling loop cut off by the recursion budget of the
    model; [execute_never_diverges] shows it is never produced. *)
Inductive outcome (A : Type) : Type :=
| Returned (a : A)
| Raised (e : exn)
| Diverged.
Arguments Returned {A} a.
Arguments Raised {A} e.
Arguments Diverged {A}.

Definition M (A : Type) : Type := (list event * outcome A)%type.

#[global] Instance M_ret : MRet M := fun A a => ([], Returned a).

#[global] Instance M_bind : MBind M := fun A B k m =>
  match m with
  | (l, Returned a) => let '(l', o) := k a in (l ++ l', o)
  | (l, Raised e) => (l, Raised e)
  | (l, Diverged) => (l, Diverged)
  end.

Definition raise {A} (e : exn) : M A := ([], Raised e).

Definition tell (ev : event) : M unit := ([ev], Returned tt).

(** [try: m  except ... as e: h e] *)
Definition try_except {A} (m : M A) (h : exn -> M A) : M A :=
  match m with
  | (l, Raised e) => let '(l', o) := h e in (l ++ l', o)
  | _ => m
  end.

Definition lift {A} (r : result A) : M A :=
  match r with
  | Ok a => mret a
  | Raise e => raise e
  end.

(** ** The engine as seen by one job *)

(** The answer to [POST /prompt]. *)
Inductive submit_reply :=
| SubmitURLError (text : string)
    (* urllib.error.URLError, which includes HTTPError *)
| SubmitRaises (e : exn)
    (* any other exception of the request or of the JSON decoding *)
| SubmitJSON (prompt_id : option string) (error : option string).
    (* the decoded body: result.get("prompt_id"), and result["error"] if present *)

Record image_info := ImageInfo { filename : option string; subfolder : option string }.

(** An entry of the history: [status.status_str], [status.messages], and for
    each node of [outputs] its list of images (empty when absent). *)
Record history_entry := HistoryEntry {
  status_str : option string;
  messages : list string;
  outputs : gmap string (list image_info)
}.

(** The answer to [GET /history/{prompt_id}]. *)
Inductive poll_reply :=
| PollHTTPError (code : Z)
| PollRaises (e : exn)
| PollHistory (entry : option history_entry).
    (* the decoded body, looked up at prompt_id *)

Record job_env := JobEnv {
  je_healthy : bool;                 (* _check_server_health() *)
  je_client_id : string;             (* uuid.uuid4().hex[:8] *)
  je_write_input : result unit;      (* writing the input image file *)
  je_entropy : N;                    (* the generator behind random.randint *)
  je_save_workflow : result unit;    (* save_workflow_to_file *)
  je_submit : submit_reply;
  je_poll : nat -> poll_reply;       (* the k-th poll of the history *)
  je_lap : nat -> N;                 (* milliseconds the k-th iteration takes
                                        on top of time.sleep(1) *)
  je_view : option string -> string -> result bytes
                                     (* _get_image_from_comfyui *)
}.

Definition str_of_Z (z : Z) : string := NilZero.string_of_int (Z.to_int z).

(** The body of the [try] inside the polling loop: [Ok (Some b)] when the
    function returns [b], [Ok None] when the body falls through. *)
Definition poll_once (je : job_env) (k : nat) : result (option bytes) :=
  match je_poll je k with
  | PollHTTPError code =>
      Raise (Exn OtherError ("HTTP Error " +:+ str_of_Z code))
  | PollRaises e => Raise e
  | PollHistory None => Ok None
  | PollHistory (Some h) =>
      if bool_decide (status_str h = Some "error")
      then Raise (Exn RuntimeError "ComfyUI workflow failed")
      else
        match outputs h !! "80" with
        | Some (image_info :: _) =>
            rbind (je_view je (filename image_info) (default "" (subfolder image_info)))
                  (fun b => Ok (Some b))
        | _ => Ok None
        end
  end.

(** The two handlers of that [try] ([except urllib.error.HTTPError] and
    [except Exception]) only log: whatever the body raised, the loop goes
    on to [time.sleep(1)]. *)
Definition poll_guarded (je : job_env) (k : nat) : option bytes :=
  match poll_once je k with
  | Ok r => r
  | Raise _ => None
  end.

(** [while time.time() - start_time < timeout: ...] with the elapsed time in
    milliseconds; [k] counts the polls. *)
Fixpoint poll_loop (je : job_env) (timeout : Z) (fuel k : nat) (elapsed : N)
  : outcome bytes :=
  match fuel with
  | O => Diverged
  | S fuel' =>
      if Z.of_N elapsed <? 1000 * timeout
      then
        match poll_guarded je k with
        | Some image => Returned image
        | None => poll_loop je timeout fuel' (S k) (elapsed + 1000 + je_lap je k)
        end
      else
        Raised (Exn TimeoutError
                  ("Workflow execution timed out after " +:+ str_of_Z timeout +:+ " seconds"))
  end.

Definition _execute_workflow_via_api
    (je : job_env) (workflow : gmap string node) (client_id output_prefix : string)
    (timeout : Z) : M bytes :=
  tell (EvPost client_id workflow);;
  match je_submit je with
  | SubmitURLError text =>
      raise (Exn RuntimeError ("Failed to submit workflow to ComfyUI: " +:+ text))
  | SubmitRaises e => raise e
  | SubmitJSON prompt_id (Some err) =>
      raise (Exn RuntimeError ("ComfyUI rejected workflow: " +:+ err))
  | SubmitJSON prompt_id None =>
      ([], poll_loop je timeout (S (Z.to_nat timeout)) 0 0)
  end.

(** ** The endpoint ([comfyui_modal.py]) *)

Record image_entry := ImageEntry {
  perspective_id : string;
  perspective_name : string;
  image : string;
  seed_used : value
}.

(** The JSON body of a response: the error object, or the result object. *)
Inductive body :=
| ErrorBody (error message : string)
| ImagesBody (images : list image_entry) (total_time : float) (original_image : value).

Record response := JSONResponse { status_code : Z; content : body }.

Definition body_images (b : body) : list image_entry :=
  match b with
  | ErrorBody _ _ => []
  | ImagesBody images _ _ => images
  end.

(** An element of the list [perspectives]: something that is not an object,
    or an object whose fields [id], [name] and [prompt], when present, are
    strings (as [types.Perspective] declares them).  The code reads the
    fields with [.get], so absence is kept. *)
Inductive perspective :=
| PNotObject
| PObject (id name prompt : option string).

(** A JSON value that cannot be iterated: null, a boolean or a number. *)
Inductive scalar :=
| ScNone
| ScBool (b : bool)
| ScInt (z : Z)
| ScFloat (f : float).

Definition scalar_value (s : scalar) : value :=
  match s with
  | ScNone => VNone
  | ScBool b => VBool b
  | ScInt z => VInt z
  | ScFloat f => VFloat f
  end.

(** The value of the key [perspectives]: the body is a raw dictionary, so
    it need not be a list.  A string or an object given there is walked by
    [enumerate] character by character or key by key; none of these is an
    object, so it stands here as the list of as many [PNotObject]. *)
Inductive perspectives_value :=
| PerspectivesList (items : list perspective)
| PerspectivesScalar (s : scalar).

(** The request body.  [steps] and [cfg_scale] are read with a default, so
    an absent key differs from a null; [image] and [seed] are read with
    [.get], where an absent key is [None]; an absent [perspectives] is the
    empty list. *)
Record request := Request {
  req_image : value;
  req_perspectives_value : perspectives_value;
  req_steps : option value;
  req_cfg_scale : option value;
  req_seed : value
}.

(** The elements that [enumerate(perspectives)] yields; a value that cannot
    be iterated has none. *)
Definition req_perspectives (request : request) : list perspective :=
  match req_perspectives_value request with
  | PerspectivesList items => items
  | PerspectivesScalar _ => []
  end.

(** [not perspectives] is false. *)
Definition perspectives_truthy (v : perspectives_value) : bool :=
  match v with
  | PerspectivesList [] => false
  | PerspectivesList (_ :: _) => true
  | PerspectivesScalar s => truthy (scalar_value s)
  end.

(** [JSONResponse(content=...)] renders its content when it is built, with
    [json.dumps(..., allow_nan=False)]: a float that is a NaN or an
    infinity, anywhere in the content, raises [ValueError]. *)
Fixpoint json_compliant (v : value) : bool :=
  match v with
  | VFloat f => is_finite f
  | VList l => forallb json_compliant l
  | _ => true
  end.

Definition body_renders (b : body) : bool :=
  match b with
  | ErrorBody _ _ => true
  | ImagesBody images total_time original_image =>
      forallb (fun entry => json_compliant (seed_used entry)) images
      && is_finite total_time
      && json_compliant original_image
  end.

(** The environment of one call of [generate]: the answer of the first
    health check, the environment met by the [i]-th call of [infer_single],
    and the measured, rounded duration. *)
Record gen_env := GenEnv {
  ge_healthy : bool;
  ge_job : nat -> job_env;
  ge_total_time : float
}.

(** ** More of the template and of the injector *)

Definition placeholders : list string :=
  [ INPUT_IMAGE_PLACEHOLDER; PROMPT_PLACEHOLDER; SEED_PLACEHOLDER;
    STEPS_PLACEHOLDER; CFG_PLACEHOLDER; OUTPUT_PREFIX_PLACEHOLDER ].

Definition is_placeholder (v : value) : bool :=
  match v with
  | VStr s => bool_decide (s ∈ placeholders)
  | _ => false
  end.

(** The position of a node in the template, in the order of the source. *)
Fixpoint index_of (id : string) (ids : list string) : option nat :=
  match ids with
  | [] => None
  | id' :: rest => if String.eqb id id' then Some 0%nat else S <$> index_of id rest
  end.

Definition template_rank (id : string) : option nat := index_of id (template_nodes.*1).

(** A check of every input of every node of the template. *)
Definition template_check (f : string -> string -> value -> bool) : bool :=
  forallb (fun '(id, n) => forallb (fun '(key, v) => f id key v) (map_to_list (inputs n)))
    (map_to_list get_workflow_template).

(** The inputs of a node after an injection, by the identifier of the node. *)
Definition injected_inputs (id : string) (input_image prompt : string)
    (steps cfg seed_value : value) (output_prefix : string) (ins : gmap string value)
  : gmap string value :=
  if String.eqb id "31" then <["image" := VStr input_image]> ins
  else if String.eqb id "115" then <["text" := VStr prompt]> ins
  else if String.eqb id "14"
  then <["seed" := seed_value]> (<["cfg" := cfg]> (<["steps" := steps]> ins))
  else if String.eqb id "80" then <["filename_prefix" := VStr output_prefix]> ins
  else ins.


(** The checks behind two properties of the template: outside the
    designated slots no input is a placeholder, and every reference names a
    node of the template that stands earlier in the order of the source. *)
Definition placeholder_only_designated (id key : string) (v : value) : bool :=
  negb (is_placeholder v) || designated id key.

Definition reference_goes_back (id key : string) (v : value) : bool :=
  match v with
  | VList [VStr producer; VInt _] =>
      match template_rank producer, template_rank id with
      | Some r, Some r' => (r <? r')%nat
      | _, _ => false
      end
  | _ => true
  end.

(** The seeds [validate_workflow_parameters] lets through. *)
Definition seed_accepted (seed : value) : Prop :=
  match seed with
  | VNone | VBool _ | VInt _ => True
  | VStr s => s = "" \/ str_isdigit s = true
  | _ => False
  end.


(** ** Time of the polls *)

(** The elapsed time, in milliseconds, at which the loop tests its condition
    before the [k]-th poll: every earlier iteration took its second of sleep
    and its lap. *)
Fixpoint elapsed_before (je : job_env) (k : nat) : N :=
  match k with
  | O => 0%N
  | S k' => (elapsed_before je k' + 1000 + je_lap je k')%N
  end.

(** The [k]-th poll shows the image [image_info]: the history has the entry,
    its status is not an error, and [image_info] is the first image of the
    save node "80". *)
Definition shows_image (je : job_env) (k : nat) (image_info : image_info) : Prop :=
  exists h rest,
    je_poll je k = PollHistory (Some h)
    /\ status_str h <> Some "error"
    /\ outputs h !! "80" = Some (image_info :: rest).


(** ** Start-up of the server ([comfyui_modal.py]) *)

(** The answer to one probe of [/system_stats]. *)
Inductive probe_reply :=
| ProbeStatus (status : Z)
| ProbeURLError        (* urllib.error.URLError or HTTPError *)
| ProbeRaises.         (* any other exception *)

(** [_poll_server_health], from the attempt [i] on with [remaining]
    attempts left: the number of calls of [time.sleep] and the outcome.
    [seconds] is the text of [max_retries * delay] in the message. *)
Fixpoint poll_server_health_from (probe : nat -> probe_reply) (seconds : string)
    (remaining i : nat) : nat * result bool :=
  match remaining with
  | O => (0%nat,
          Raise (Exn RuntimeError
                   ("ComfyUI server failed to start after " +:+ seconds +:+ " seconds")))
  | S remaining' =>
      let retry :=
        let '(sleeps, r) := poll_server_health_from probe seconds remaining' (S i) in
        (S sleeps, r) in
      match probe i with
      | ProbeStatus status => if status =? 200 then (0%nat, Ok true) else retry
      | ProbeURLError => retry
      | ProbeRaises => retry
      end
  end.

(** [for i in range(max_retries)] *)
Definition _poll_server_health (probe : nat -> probe_reply)
    (max_retries : Z) (seconds : string) : nat * result bool :=
  poll_server_health_from probe seconds (Z.to_nat max_retries) 0.

(** [_check_server_health]: one probe, any exception is a [False]. *)
Definition _check_server_health (reply : probe_reply) : bool :=
  match reply with
  | ProbeStatus status => status =? 200
  | _ => false
  end.

(** The file system as [_setup_model_symlinks] meets it.  The paths that
    the function asks about and acts on are pairwise different and each is
    asked about before it is acted on, so each answer is the state of the
    file system at the time of the call. *)
Record fs_env := FsEnv {
  fs_exists : string -> bool;                     (* Path.exists() *)
  fs_is_symlink : string -> bool;                 (* Path.is_symlink() *)
  fs_mkdir : string -> result unit;               (* Path.mkdir(parents=True, exist_ok=True) *)
  fs_unlink : string -> result unit;              (* Path.unlink() *)
  fs_symlink : string -> string -> result unit    (* os.symlink(src, dst), raising OSError *)
}.

Inductive fs_action :=
| Mkdir (dir : string)
| Unlink (file : string)
| Symlink (src dst : string).

(** [Path / name] *)
Definition path_join (dir name : string) : string := dir +:+ "/" +:+ name.

Definition COMFYUI_ROOT : string := "/root/comfy/ComfyUI".
Definition CACHE_ROOT : string := "/cache".

(** [MODEL_PATHS]: for each model type its cache directory and its ComfyUI
    directory, in the order of the dictionary. *)
Definition MODEL_PATHS : list (string * (string * string)) :=
  [ ("vae", (path_join (path_join CACHE_ROOT "models") "vae",
             path_join (path_join COMFYUI_ROOT "models") "vae"));
    ("clip", (path_join (path_join CACHE_ROOT "models") "clip",
              path_join (path_join COMFYUI_ROOT "models") "clip"));
    ("unet", (path_join (path_join CACHE_ROOT "models") "unet",
              path_join (path_join COMFYUI_ROOT "models") "diffusion_models"));
    ("loras", (path_join (path_join CACHE_ROOT "models") "loras",
               path_join (path_join COMFYUI_ROOT "models") "loras")) ].

(** [MODELS] *)
Definition MODELS : list (string * list string) :=
  [ ("vae", ["qwen_image_vae.safetensors"]);
    ("clip", ["qwen_2.5_vl_7b.safetensors"]);
    ("unet", ["Qwen-Image-Edit-2511.safetensors"]);
    ("loras", ["Qwen-Image-Lightning-4steps-V1.0.safetensors";
               "Qwen-Image-Lightning-8steps-V1.0.safetensors"]) ].

(** [MODELS.get(model_type, [])] *)
Fixpoint models_get (models : list (string * list string)) (model_type : string)
  : list string :=
  match models with
  | [] => []
  | (key, files) :: rest =>
      if String.eqb key model_type then files else models_get rest model_type
  end.

(** The actions made so far, and the value or the exception. *)
Definition fs_run (A : Type) : Type := list fs_action * result A.

Definition fs_ret {A} (a : A) : fs_run A := ([], Ok a).

Definition fs_bind {A B} (m : fs_run A) (k : A -> fs_run B) : fs_run B :=
  match m with
  | (actions, Ok a) => let '(actions', r) := k a in (actions ++ actions', r)
  | (actions, Raise e) => (actions, Raise e)
  end.

(** A call that acts on the file system unless it raises. *)
Definition fs_do (a : fs_action) (r : result unit) : fs_run unit :=
  match r with
  | Ok _ => ([a], Ok tt)
  | Raise e => ([], Raise e)
  end.

(** The inner loop of [_setup_model_symlinks] over the files of one type,
    with the list [missing_models] as it stands. *)
Fixpoint link_files (fs : fs_env) (model_type cache_dir comfyui_dir : string)
    (files : list string) (missing_models : list string) : fs_run (list string) :=
  match files with
  | [] => fs_ret missing_models
  | model_file :: rest =>
      let cache_file := path_join cache_dir model_file in
      let comfyui_file := path_join comfyui_dir model_file in
      if negb (fs_exists fs cache_file)
      then link_files fs model_type cache_dir comfyui_dir rest
             (missing_models ++ [path_join model_type model_file])
      else
        fs_bind (if fs_exists fs comfyui_file || fs_is_symlink fs comfyui_file
                 then fs_do (Unlink comfyui_file) (fs_unlink fs comfyui_file)
                 else fs_ret tt) (fun _ =>
        fs_bind (match fs_symlink fs cache_file comfyui_file with
                 | Ok _ => ([Symlink cache_file comfyui_file], Ok tt)
                 | Raise e =>
                     ([], Raise (Exn RuntimeError
                                   ("创建符号链接失败 " +:+ model_file +:+ ": "
                                      +:+ exn_text e)))
                 end) (fun _ =>
        link_files fs model_type cache_dir comfyui_dir rest missing_models))
  end.

(** The outer loop, over the types of [MODEL_PATHS]. *)
Fixpoint link_types (fs : fs_env) (paths : list (string * (string * string)))
    (missing_models : list string) : fs_run (list string) :=
  match paths with
  | [] => fs_ret missing_models
  | (model_type, (cache_dir, comfyui_dir)) :: rest =>
      fs_bind (fs_do (Mkdir comfyui_dir) (fs_mkdir fs comfyui_dir)) (fun _ =>
      if negb (fs_exists fs cache_dir)
      then link_types fs rest
             (missing_models ++ map (path_join model_type) (models_get MODELS model_type))
      else
        fs_bind (link_files fs model_type cache_dir comfyui_dir
                   (models_get MODELS model_type) missing_models)
                (link_types fs rest))
  end.

(** [_setup_model_symlinks]: the actions on the file system and, unless a
    call raised, the list [missing_models] that is reported. *)
Definition _setup_model_symlinks (fs : fs_env) : fs_run (list string) :=
  link_types fs MODEL_PATHS [].

(** The environment of the start-up: the file system, the return code and
    the standard error of [comfy launch], and the probes of the server. *)
Record launch_env := LaunchEnv {
  le_fs : fs_env;
  le_returncode : Z;
  le_stderr : string;
  le_probe : nat -> probe_reply
}.

(** What the start-up did: the actions on the file system, whether the
    launch command was run, the number of waits for the server. *)
Record launch_trace := LaunchTrace {
  lt_actions : list fs_action;
  lt_command_run : bool;
  lt_sleeps : nat
}.

(** [launch_comfy_background] *)
Definition launch_comfy_background (le : launch_env) : launch_trace * result unit :=
  match _setup_model_symlinks (le_fs le) with
  | (actions, Raise e) =>
      (LaunchTrace actions false 0,
       Raise (Exn RuntimeError ("Model setup failed: " +:+ exn_text e)))
  | (actions, Ok _) =>
      if negb (le_returncode le =? 0)
      then (LaunchTrace actions true 0,
            Raise (Exn RuntimeError ("Failed to start ComfyUI: " +:+ le_stderr le)))
      else
        let '(sleeps, r) := _poll_server_health (le_probe le) 60 "120.0" in
        (LaunchTrace actions true sleeps, rbind r (fun _ => Ok tt))
  end.

(** Every model of the tables: its type, its cache directory, its ComfyUI
    directory and its file. *)
Definition all_models : list (string * string * string * string) :=
  flat_map (fun '(model_type, (cache_dir, comfyui_dir)) =>
              map (fun model_file => (model_type, cache_dir, comfyui_dir, model_file))
                  (models_get MODELS model_type))
           MODEL_PATHS.

(** The model is in the cache: its directory and its file exist. *)
Definition cached (fs : fs_env) (m : string * string * string * string) : bool :=
  let '(model_type, cache_dir, comfyui_dir, model_file) := m in
  fs_exists fs cache_dir && fs_exists fs (path_join cache_dir model_file).

(** The link that the model gets, and its name in the list of the missing. *)
Definition link_of (m : string * string * string * string) : fs_action :=
  let '(model_type, cache_dir, comfyui_dir, model_file) := m in
  Symlink (path_join cache_dir model_file) (path_join comfyui_dir model_file).

Definition missing_name (m : string * string * string * string) : string :=
  let '(model_type, cache_dir, comfyui_dir, model_file) := m in
  path_join model_type model_file.

(** What is done for a model that is in the cache: its target is removed
    if there is one, then the link is made. *)
Definition replace_plan (fs : fs_env) (m : string * string * string * string)
  : list fs_action :=
  let '(model_type, cache_dir, comfyui_dir, model_file) := m in
  (if fs_exists fs (path_join comfyui_dir model_file)
      || fs_is_symlink fs (path_join comfyui_dir model_file)
   then [Unlink (path_join comfyui_dir model_file)] else [])
  ++ [link_of m].

Definition is_mkdir (a : fs_action) : bool :=
  match a with
  | Mkdir _ => true
  | _ => false
  end.

(** The models of the types [paths], as in [all_models]. *)
Definition models_of_paths (paths : list (string * (string * string)))
  : list (string * string * string * string) :=
  flat_map (fun '(model_type, (cache_dir, comfyui_dir)) =>
              map (fun model_file => (model_type, cache_dir, comfyui_dir, model_file))
                  (models_get MODELS model_type))
           paths.

(** No call on the file system raises. *)
Definition fs_obliging (fs : fs_env) : Prop :=
  (forall dir, fs_mkdir fs dir = Ok tt) /\
  (forall file, fs_unlink fs file = Ok tt) /\
  (forall src dst, fs_symlink fs src dst = Ok tt).


(** ** Sample data of the examples *)

(** A stand-in for the codec: every character is one byte. *)
Definition sample_b64decode (s : string) : result bytes :=
  Ok (map byte_of_ascii (list_ascii_of_string s)).

Definition sample_b64encode (b : bytes) : string :=
  string_of_list_ascii (map ascii_of_byte b).

Definition sample_image : string := string_of_list_ascii (repeat "A"%char 100).

Definition sample_done : poll_reply :=
  PollHistory (Some (HistoryEntry (Some "success") []
                       {[ "80" := [ImageInfo (Some "qwen_00001_.png") (Some "")] ]})).

Definition sample_failed : poll_reply :=
  PollHistory (Some (HistoryEntry (Some "error") ["execution_error"] ∅)).

(** A job that is pending for two polls and then done. *)
Definition job_done : job_env :=
  JobEnv true "ab12cd34" (Ok tt) 77 (Ok tt) (SubmitJSON (Some "p-1") None)
    (fun k => if (k <? 2)%nat then PollHTTPError 404 else sample_done)
    (fun _ => 15%N)
    (fun _ _ => Ok [Byte.x50; Byte.x4e; Byte.x47]).

(** A job whose history entry never appears. *)
Definition job_stuck : job_env :=
  JobEnv true "ef56ab78" (Ok tt) 78 (Ok tt) (SubmitJSON (Some "p-2") None)
    (fun _ => PollHistory None) (fun _ => 0%N)
    (fun _ _ => Ok []).

(** A job for which the engine reports an error from the first poll on. *)
Definition job_failed : job_env :=
  JobEnv true "0a1b2c3d" (Ok tt) 79 (Ok tt) (SubmitJSON (Some "p-3") None)
    (fun _ => sample_failed) (fun _ => 0%N)
    (fun _ _ => Ok []).

(** A job the engine refuses at submission. *)
Definition job_refused : job_env :=
  JobEnv true "99887766" (Ok tt) 80 (Ok tt) (SubmitJSON None (Some "invalid prompt"))
    (fun _ => PollHistory None) (fun _ => 0%N)
    (fun _ _ => Ok []).

Definition env_all_done : gen_env := GenEnv true (fun _ => job_done) 0x1.9p+3%float.

Definition env_second_stuck : gen_env :=
  GenEnv true (fun i => if (i =? 1)%nat then job_stuck else job_done) 0x1.ep+6%float.

Definition env_second_refused : gen_env :=
  GenEnv true (fun i => if (i =? 1)%nat then job_refused else job_done) 0x1p+1%float.

Definition sample_perspectives : list perspective :=
  [ PObject (Some "left_45") (Some "A") (Some "rotate left 45");
    PObject (Some "right_45") (Some "B") (Some "rotate right 45");
    PObject None None (Some "top view") ].

Definition sample_request (seed : value) : request :=
  Request (VStr sample_image) (PerspectivesList sample_perspectives)
    (Some (VInt 8)) (Some (VFloat 3%float)) seed.


Definition answer_message (o : outcome response) : string :=
  match o with
  | Returned (JSONResponse _ (ErrorBody _ message)) => message
  | _ => ""
  end.

(** The sample perspectives with [steps] = 10, out of the range. *)
Definition request_steps_10 : request :=
  Request (VStr sample_image) (PerspectivesList sample_perspectives)
    (Some (VInt 10)) None VNone.


(** A request for one perspective. *)
Definition request_single : request :=
  Request (VStr sample_image)
    (PerspectivesList [PObject (Some "left_45") (Some "A") (Some "rotate left 45")])
    (Some (VInt 8)) (Some (VFloat 3%float)) (VStr "12345").

Definition env_stuck : gen_env := GenEnv true (fun _ => job_stuck) 0x1.ep+6%float.

Definition env_refused : gen_env := GenEnv true (fun _ => job_refused) 0x1p+1%float.

(** A request whose second perspective is not an object. *)
Definition request_bad_second : request :=
  Request (VStr sample_image)
    (PerspectivesList [PObject (Some "left_45") (Some "A") (Some "rotate left 45");
                       PNotObject])
    (Some (VInt 8)) None VNone.

(** A file system where the cache lacks the directory of the loras and
    the file of the clip model, where the target of the vae is there
    already, and where no call raises. *)
Definition sample_fs : fs_env :=
  FsEnv (fun path =>
           String.eqb path "/cache/models/vae"
           || String.eqb path "/cache/models/vae/qwen_image_vae.safetensors"
           || String.eqb path "/cache/models/clip"
           || String.eqb path "/cache/models/unet"
           || String.eqb path "/cache/models/unet/Qwen-Image-Edit-2511.safetensors"
           || String.eqb path "/root/comfy/ComfyUI/models/vae/qwen_image_vae.safetensors")
        (fun _ => false)
        (fun _ => Ok tt) (fun _ => Ok tt) (fun _ _ => Ok tt).

(** A start-up where the server never answers. *)
Definition launch_silent : launch_env :=
  LaunchEnv sample_fs 0 "" (fun _ => ProbeURLError).


Section Endpoint.

(** [base64.b64decode] and [base64.b64encode(...).decode("utf-8")], from the
    interpreter's library. *)
Variable b64decode : string -> result bytes.
Variable b64encode : bytes -> string.

(** [base64.b64decode(v)] for an arbitrary value: only a string can be
    decoded. *)
Definition decode_value (v : value) : result bytes :=
  match v with
  | VStr s => b64decode s
  | _ => Raise (Exn OtherError
                  ("argument should be a bytes-like object or ASCII string, not '"
                   +:+ type_name v +:+ "'"))
  end.

Definition infer_single
    (je : job_env) (input_image_base64 : value) (prompt : string)
    (steps cfg seed : value) (output_prefix : string) : M bytes :=
  if negb (je_healthy je)
  then raise (Exn RuntimeError "ComfyUI server is not healthy")
  else
    let client_id := je_client_id je in
    let input_filename := "input_" +:+ client_id +:+ ".png" in
    match rbind (decode_value input_image_base64) (fun _ => je_write_input je) with
    | Raise e => raise (Exn ValueError ("Failed to save input image: " +:+ exn_text e))
    | Ok _ =>
        match create_workflow input_filename prompt steps cfg seed
                (output_prefix +:+ "_" +:+ client_id) (je_entropy je) with
        | Raise e => raise (Exn RuntimeError ("Failed to create workflow: " +:+ exn_text e))
        | Ok workflow =>
            lift (je_save_workflow je);;
            output_image ←
              try_except
                (_execute_workflow_via_api je workflow client_id output_prefix 120)
                (fun e =>
                   match exn_kind e with
                   | TimeoutError => raise e
                   | _ => raise (Exn RuntimeError
                                   ("Workflow execution failed: " +:+ exn_text e))
                   end);
            mret output_image
        end
    end.

(** An error response: its content holds two strings, which always render. *)
Definition error_response (status : Z) (error message : string) : response :=
  JSONResponse status (ErrorBody error message).

(** [JSONResponse(status_code=status, content=b)] *)
Definition render_response (status : Z) (b : body) : M response :=
  if body_renders b
  then mret (JSONResponse status b)
  else raise (Exn ValueError "Out of range float values are not JSON compliant").

(** The first loop of [generate]: the response for the first perspective
    that is not an object or has no prompt, if any. *)
Fixpoint check_perspectives (i : nat) (perspectives : list perspective) : option response :=
  match perspectives with
  | [] => None
  | p :: rest =>
      match p with
      | PNotObject =>
          Some (error_response 400 "validation_error"
                  ("perspective[" +:+ str_of_nat i +:+ "] must be an object"))
      | PObject _ _ prompt =>
          if negb (truthy (from_option VStr VNone prompt))
          then Some (error_response 400 "validation_error"
                       ("perspective[" +:+ str_of_nat i +:+ "].prompt is required"))
          else check_perspectives (S i) rest
      end
  end.

(** [seed if seed else "random"] *)
Definition reported_seed (seed : value) : value :=
  if truthy seed then seed else VStr "random".

(** The three [except] clauses around the call of [infer_single]:
    [TimeoutError], [RuntimeError], and [Exception] for the rest. *)
Definition failure_response (perspective_name : string) (e : exn) : response :=
  match exn_kind e with
  | TimeoutError =>
      error_response 504 "timeout" ("视角 '" +:+ perspective_name +:+ "' 的生成超时")
  | RuntimeError =>
      error_response 500 "generation_error"
        ("视角 '" +:+ perspective_name +:+ "' 的图像生成失败: " +:+ exn_text e)
  | _ =>
      error_response 500 "generation_error"
        ("视角 '" +:+ perspective_name +:+ "' 生成时发生未知错误: " +:+ exn_text e)
  end.

(** The second loop of [generate], from index [i] on, with the entries
    gathered so far. *)
Fixpoint generate_loop
    (ge : gen_env) (image_base64 steps cfg_scale seed : value)
    (i : nat) (perspectives : list perspective) (generated_images : list image_entry)
  : M response :=
  match perspectives with
  | [] =>
      render_response 200 (ImagesBody generated_images (ge_total_time ge) image_base64)
  | PNotObject :: _ =>
      raise (Exn OtherError "object has no attribute 'get'")
  | PObject id name prompt0 :: rest =>
      let perspective_id := default (str_of_nat i) id in
      let perspective_name := default ("视角" +:+ str_of_nat (i + 1)) name in
      let prompt := default "" prompt0 in
      r ← try_except
            (tell (EvInfer i prompt ("qwen_" +:+ perspective_id));;
             img_bytes ← infer_single (ge_job ge i) image_base64 prompt steps cfg_scale seed
                           ("qwen_" +:+ perspective_id);
             mret (inr (ImageEntry perspective_id perspective_name
                          (b64encode img_bytes) (reported_seed seed))))
            (fun e => mret (inl (failure_response perspective_name e)));
      match r with
      | inl resp => mret resp
      | inr entry =>
          generate_loop ge image_base64 steps cfg_scale seed (S i) rest
            (generated_images ++ [entry])
      end
  end.

Definition generate (ge : gen_env) (request : request) : M response :=
  if negb (ge_healthy ge)
  then mret (error_response 503 "service_unavailable" "AI 服务暂时不可用，请稍后重试")
  else
    let image_base64 := req_image request in
    if negb (truthy image_base64)
    then mret (error_response 400 "validation_error" "image is required")
    else
      match rbind (decode_value image_base64)
                  (fun image_data =>
                     if (length image_data <? 100)%nat
                     then Raise (Exn ValueError "Image data too small")
                     else Ok image_data) with
      | Raise e =>
          mret (error_response 400 "invalid_image"
                  ("无效的 base64 图片数据: " +:+ exn_text e))
      | Ok _ =>
          let perspectives := req_perspectives_value request in
          if negb (perspectives_truthy perspectives)
          then mret (error_response 400 "validation_error"
                       "at least one perspective is required")
          else
            match perspectives with
            | PerspectivesScalar s =>
                (* enumerate(perspectives): TypeError *)
                raise (Exn OtherError
                         ("'" +:+ type_name (scalar_value s) +:+ "' object is not iterable"))
            | PerspectivesList items =>
                match check_perspectives 0 items with
                | Some resp => mret resp
                | None =>
                    let steps := default (VInt 8) (req_steps request) in
                    if negb (isinstance_int steps) || outside 4 8 steps
                    then mret (error_response 400 "invalid_params"
                                 "steps must be an integer between 4 and 8")
                    else
                      let cfg_scale := default (VFloat 3%float) (req_cfg_scale request) in
                      if negb (isinstance_number cfg_scale) || outside 1 5 cfg_scale
                      then mret (error_response 400 "invalid_params"
                                   "cfg_scale must be a number between 1.0 and 5.0")
                      else
                        let seed := req_seed request in
                        generate_loop ge image_base64 steps cfg_scale seed 0 items []
                end
            end
      end.



(** ** Vocabulary of the statements *)

Definition steps_rejected (v : value) : bool := negb (isinstance_int v) || outside 4 8 v.

Definition cfg_scale_rejected (v : value) : bool :=
  negb (isinstance_number v) || outside 1 5 v.

Definition steps_of (request : request) : value := default (VInt 8) (req_steps request).

Definition cfg_scale_of (request : request) : value :=
  default (VFloat 3%float) (req_cfg_scale request).

Definition perspective_id_of (i : nat) (p : perspective) : string :=
  match p with
  | PObject id _ _ => default (str_of_nat i) id
  | PNotObject => str_of_nat i
  end.

Definition perspective_name_of (i : nat) (p : perspective) : string :=
  match p with
  | PObject _ name _ => default ("视角" +:+ str_of_nat (i + 1)) name
  | PNotObject => "视角" +:+ str_of_nat (i + 1)
  end.

Definition prompt_of (p : perspective) : string :=
  match p with
  | PObject _ _ prompt => default "" prompt
  | PNotObject => ""
  end.

(** The call of [infer_single] that [generate] makes for the perspective [p]
    at index [i]. *)
Definition job (ge : gen_env) (request : request) (i : nat) (p : perspective) : M bytes :=
  infer_single (ge_job ge i) (req_image request) (prompt_of p)
    (steps_of request) (cfg_scale_of request) (req_seed request)
    ("qwen_" +:+ perspective_id_of i p).

(** The graph that this call builds and posts. *)
Definition job_graph (ge : gen_env) (request : request) (i : nat) (p : perspective)
  : result (gmap string node) :=
  let client_id := je_client_id (ge_job ge i) in
  create_workflow ("input_" +:+ client_id +:+ ".png") (prompt_of p)
    (steps_of request) (cfg_scale_of request) (req_seed request)
    (("qwen_" +:+ perspective_id_of i p) +:+ "_" +:+ client_id)
    (je_entropy (ge_job ge i)).

(** The entry reported for the perspective [p] at index [i] whose job
    returned the bytes [b]. *)
Definition entry_of (request : request) (i : nat) (p : perspective) (b : bytes)
  : image_entry :=
  ImageEntry (perspective_id_of i p) (perspective_name_of i p) (b64encode b)
    (reported_seed (req_seed request)).

Definition has_prompt (p : perspective) : Prop :=
  exists id name prompt, p = PObject id name (Some prompt) /\ prompt <> "".

(** A request that passes every check of [generate]. *)
Record validated (request : request) : Prop := Validated {
  image_ok : exists s data,
      req_image request = VStr s /\ s <> "" /\ b64decode s = Ok data
      /\ (100 <= length data)%nat;
  perspectives_ok :
      req_perspectives request <> [] /\ Forall has_prompt (req_perspectives request);
  steps_ok : exists z, steps_of request = VInt z /\ 4 <= z <= 8;
  cfg_scale_ok : cfg_scale_rejected (cfg_scale_of request) = false
}.

(** The request reaches the parameter checks: the server is healthy, the
    image and the perspectives are accepted. *)
Record reaches_parameters (ge : gen_env) (request : request) : Prop := ReachesParameters {
  rp_healthy : ge_healthy ge = true;
  rp_image : exists s data,
      req_image request = VStr s /\ s <> "" /\ b64decode s = Ok data
      /\ (100 <= length data)%nat;
  rp_perspectives :
      req_perspectives request <> [] /\ Forall has_prompt (req_perspectives request)
}.

(** [steps] is an integer in [4,8]. *)
Definition steps_valid (v : value) : Prop := exists z, v = VInt z /\ 4 <= z <= 8.

(** [cfg_scale] is not a number, or is a number that compares below 1.0 or
    above 5.0 ([False] and [True] are the integers 0 and 1). *)
Definition cfg_scale_invalid (v : value) : Prop :=
  match v with
  | VBool b => b = false
  | VInt z => z < 1 \/ 5 < z
  | VFloat f => PrimFloat.ltb f 1%float = true \/ PrimFloat.ltb 5%float f = true
  | _ => True
  end.

(** The indices of the jobs started, and the graphs posted, in a log. *)
Definition jobs_started (log : list event) : list nat :=
  omap (fun ev => match ev with EvInfer i _ _ => Some i | _ => None end) log.

Definition posted (log : list event) : list (gmap string node) :=
  omap (fun ev => match ev with EvPost _ g => Some g | _ => None end) log.

(** A poll shows a terminal state when the history has the entry and the
    entry reports an error status or an output of the save node "80". *)
Definition terminal_state (r : poll_reply) : bool :=
  match r with
  | PollHistory (Some h) =>
      bool_decide (status_str h = Some "error")
      || bool_decide (is_Some (outputs h !! "80"))
  | _ => false
  end.

(** [haystack.startswith(needle)] and [needle in haystack] *)
Fixpoint starts_with (needle haystack : string) : bool :=
  match needle, haystack with
  | EmptyString, _ => true
  | String c needle', String d haystack' => Ascii.eqb c d && starts_with needle' haystack'
  | String _ _, EmptyString => false
  end.

Fixpoint contains (needle haystack : string) : bool :=
  starts_with needle haystack
  || match haystack with
     | EmptyString => false
     | String _ rest => contains needle rest
     end.

(** The message for the perspective [p] at index [i] when it is refused. *)
Definition perspective_error (i : nat) (p : perspective) : string :=
  match p with
  | PNotObject => "perspective[" +:+ str_of_nat i +:+ "] must be an object"
  | PObject _ _ _ => "perspective[" +:+ str_of_nat i +:+ "].prompt is required"
  end.

(** The image of the request is accepted: a non-empty string that decodes to
    at least 100 bytes. *)
Definition image_accepted (request : request) : Prop :=
  exists s data,
    req_image request = VStr s /\ s <> "" /\ b64decode s = Ok data
    /\ (100 <= length data)%nat.

(** The answers of [generate] before any job is started. *)
Definition early_answers : list (Z * string) :=
  [ (503, "service_unavailable"); (400, "validation_error");
    (400, "invalid_image"); (400, "invalid_params") ].


(** The error code of the answer of a call, if the answer is an error. *)
Definition answer_code (m : M response) : option string :=
  match snd m with
  | Returned resp =>
      match content resp with
      | ErrorBody error _ => Some error
      | ImagesBody _ _ _ => None
      end
  | _ => None
  end.

(** The [TypeError] of [enumerate] on a value that cannot be iterated. *)
Definition not_iterable_error (sc : scalar) : exn :=
  Exn OtherError ("'" +:+ type_name (scalar_value sc) +:+ "' object is not iterable").

(** The value of [perspectives] is truthy and cannot be iterated: [True]
    or a number other than zero. *)
Definition perspectives_not_iterable (request : request) : Prop :=
  exists sc, req_perspectives_value request = PerspectivesScalar sc
             /\ truthy (scalar_value sc) = true.


(** The list of perspectives is accepted: not empty, and every element is an
    object with a non-empty prompt. *)
Definition perspectives_accepted (request : request) : Prop :=
  req_perspectives request <> [] /\ Forall has_prompt (req_perspectives request).


(** ** The error module ([error_handler.py]) *)

Inductive ErrorCode :=
| VALIDATION_ERROR | INVALID_IMAGE | INVALID_PARAMS
| GENERATION_ERROR | MODEL_ERROR | SERVER_ERROR
| TIMEOUT
| SERVICE_UNAVAILABLE.

(** [code.value] *)
Definition error_code_value (c : ErrorCode) : string :=
  match c with
  | VALIDATION_ERROR => "validation_error"
  | INVALID_IMAGE => "invalid_image"
  | INVALID_PARAMS => "invalid_params"
  | GENERATION_ERROR => "generation_error"
  | MODEL_ERROR => "model_error"
  | SERVER_ERROR => "server_error"
  | TIMEOUT => "timeout"
  | SERVICE_UNAVAILABLE => "service_unavailable"
  end.

Record AppError := MkAppError {
  app_code : ErrorCode;
  app_message : string;
  app_status_code : Z;
  app_details : option string
}.

(** [ERROR_MESSAGES]: the default message and the status of every code.  The
    table has an entry for each code, so the fallback of
    [ERROR_MESSAGES.get] is never used. *)
Definition ERROR_MESSAGES (c : ErrorCode) : string * Z :=
  match c with
  | VALIDATION_ERROR => ("请求参数验证失败", 400)
  | INVALID_IMAGE => ("无效的图片数据", 400)
  | INVALID_PARAMS => ("参数超出有效范围", 400)
  | GENERATION_ERROR => ("图像生成失败", 500)
  | MODEL_ERROR => ("AI 模型加载失败", 503)
  | SERVER_ERROR => ("服务器内部错误", 500)
  | TIMEOUT => ("生成超时", 504)
  | SERVICE_UNAVAILABLE => ("服务暂时不可用", 503)
  end.

(** The truth value of an optional string: [None] and the empty string are
    falsy. *)
Definition nonempty (s : option string) : bool :=
  match s with
  | Some (String _ _) => true
  | _ => false
  end.

Definition create_error (code : ErrorCode) (message details : option string) : AppError :=
  let error_info := ERROR_MESSAGES code in
  MkAppError code
    (if nonempty message then default "" message else fst error_info)
    (snd error_info) details.

(** [AppError.to_dict], as the list of its items in order. *)
Definition to_dict (e : AppError) : list (string * string) :=
  [("error", error_code_value (app_code e)); ("message", app_message e)]
  ++ (if nonempty (app_details e) then [("details", default "" (app_details e))] else []).

Definition create_validation_error (message : string) (details : option string) : AppError :=
  create_error VALIDATION_ERROR (Some message) details.

Definition create_invalid_image_error (details : option string) : AppError :=
  create_error INVALID_IMAGE (Some "无效的 base64 图片数据") details.

Definition create_invalid_params_error (message : string) : AppError :=
  create_error INVALID_PARAMS (Some message) None.

Definition create_generation_error (perspective_name details : option string) : AppError :=
  let message :=
    if nonempty perspective_name
    then "视角 '" +:+ default "" perspective_name +:+ "' 的图像生成失败"
    else "图像生成失败" in
  create_error GENERATION_ERROR (Some message) details.

Definition create_model_error (details : option string) : AppError :=
  create_error MODEL_ERROR (Some "AI 模型加载失败，服务暂时不可用") details.

Definition create_timeout_error (timeout_seconds : Z) (perspective_name : option string)
  : AppError :=
  let message :=
    if nonempty perspective_name
    then "视角 '" +:+ default "" perspective_name +:+ "' 的生成超时（"
         +:+ str_of_Z timeout_seconds +:+ "秒）"
    else "生成超时（" +:+ str_of_Z timeout_seconds +:+ "秒）" in
  create_error TIMEOUT (Some message) None.

Definition create_server_error (details : option string) : AppError :=
  create_error SERVER_ERROR None details.

Definition create_service_unavailable_error (reason : option string) : AppError :=
  let message :=
    if nonempty reason
    then "服务暂时不可用" +:+ "：" +:+ default "" reason
    else "服务暂时不可用" in
  create_error SERVICE_UNAVAILABLE (Some message) None.

(** [str.lower] on ASCII text. *)
Definition lower_char (c : ascii) : ascii :=
  let n := N_of_ascii c in
  if ((65 <=? n) && (n <=? 90))%N then ascii_of_N (n + 32) else c.

Fixpoint lower (s : string) : string :=
  match s with
  | EmptyString => EmptyString
  | String c s' => String (lower_char c) (lower s')
  end.

Definition upper_char (c : ascii) : ascii :=
  let n := N_of_ascii c in
  if ((97 <=? n) && (n <=? 122))%N then ascii_of_N (n - 32) else c.

Fixpoint upper (s : string) : string :=
  match s with
  | EmptyString => EmptyString
  | String c s' => String (upper_char c) (upper s')
  end.

(** [handle_exception], without the logging.  The class of an exception is
    its [exn_kind]; [str(error)] is its text; [x in y] is [contains x y]. *)
Definition handle_exception (error : exn) : AppError :=
  match exn_kind error with
  | TimeoutError => create_timeout_error 120 None
  | RuntimeError =>
      let error_message := lower (exn_text error) in
      if contains "model" error_message || contains "load" error_message
      then create_model_error (Some (exn_text error))
      else if contains "comfyui" error_message || contains "server" error_message
      then create_service_unavailable_error (Some "ComfyUI 服务器未响应")
      else create_generation_error None (Some (exn_text error))
  | ValueError => create_validation_error (exn_text error) None
  | OtherError => create_server_error (Some (exn_text error))
  end.


(** * Properties *)

(** ** The injector *)

Section Injector.

Implicit Types (workflow g : gmap string node) (id key : string) (v : value).

Lemma lookup_store_input id key v workflow id' :
  store_input id key v workflow !! id' =
  if decide (id = id')
  then (fun n => Node (class_type n) (<[key := v]> (inputs n))) <$> workflow !! id'
  else workflow !! id'.
Proof.
  unfold store_input. rewrite lookup_alter.
  destruct (decide (id = id')) as [->|]; reflexivity.
Qed.

Lemma store_input_absent id key v workflow id' :
  workflow !! id' = None -> store_input id key v workflow !! id' = None.
Proof.
  intros Hnone. rewrite lookup_store_input, Hnone.
  destruct (decide (id = id')); reflexivity.
Qed.

Lemma store_input_present id key v workflow id' :
  is_Some (workflow !! id') -> is_Some (store_input id key v workflow !! id').
Proof.
  intros [n Hn]. rewrite lookup_store_input, Hn.
  destruct (decide (id = id')); simpl; eauto.
Qed.

Lemma store_input_class id key v workflow id' :
  class_type <$> store_input id key v workflow !! id' = class_type <$> workflow !! id'.
Proof.
  rewrite lookup_store_input.
  destruct (decide (id = id')); [|reflexivity].
  destruct (workflow !! id'); reflexivity.
Qed.

Lemma store_input_dom id key v workflow :
  dom (store_input id key v workflow) = dom workflow.
Proof. unfold store_input. apply dom_alter_L. Qed.

Lemma input_of_store_eq id key v workflow :
  is_Some (workflow !! id) -> input_of (store_input id key v workflow) id key = Some v.
Proof.
  intros [n Hn]. unfold input_of. rewrite lookup_store_input, Hn.
  rewrite decide_True by reflexivity. simpl. apply lookup_insert_eq.
Qed.

Lemma input_of_store_ne id key v workflow id' key' :
  id <> id' \/ key <> key' ->
  input_of (store_input id key v workflow) id' key' = input_of workflow id' key'.
Proof.
  intros Hne. unfold input_of. rewrite lookup_store_input.
  destruct (decide (id = id')) as [->|]; [|reflexivity].
  destruct (workflow !! id') as [n|]; [|reflexivity]. simpl.
  destruct Hne as [Hne|Hne]; [congruence|].
  apply lookup_insert_ne. exact Hne.
Qed.

(** A guarded helper is the plain store: storing into an absent node changes
    nothing. *)
Lemma guarded_store id key v workflow :
  (if workflow !! id is Some _ then store_input id key v workflow else workflow)
  = store_input id key v workflow.
Proof.
  destruct (workflow !! id) eqn:Hid; [reflexivity|].
  unfold store_input. symmetry. apply alter_id. intros n Hn. congruence.
Qed.

Lemma _inject_input_image_store workflow input_image :
  _inject_input_image workflow input_image
  = store_input "31" "image" (VStr input_image) workflow.
Proof. apply guarded_store. Qed.

Lemma _inject_prompt_store workflow prompt :
  _inject_prompt workflow prompt = store_input "115" "text" (VStr prompt) workflow.
Proof. apply guarded_store. Qed.

Lemma _inject_output_prefix_store workflow output_prefix :
  _inject_output_prefix workflow output_prefix
  = store_input "80" "filename_prefix" (VStr output_prefix) workflow.
Proof. apply guarded_store. Qed.

Lemma _inject_ksampler_params_store workflow steps cfg seed :
  _inject_ksampler_params workflow steps cfg seed
  = store_input "14" "seed" seed
      (store_input "14" "cfg" cfg (store_input "14" "steps" steps workflow)).
Proof.
  unfold _inject_ksampler_params.
  destruct (workflow !! "14") eqn:Hid; [reflexivity|].
  unfold store_input. rewrite !(alter_id _ workflow) by (intros n Hn; congruence).
  reflexivity.
Qed.

Lemma inject_workflow_parameters_eq workflow input_image prompt steps cfg seed output_prefix entropy :
  inject_workflow_parameters workflow input_image prompt steps cfg seed output_prefix entropy
  = rbind (resolve_seed seed entropy)
      (fun seed_value =>
         Ok (injected workflow input_image prompt steps cfg seed_value output_prefix)).
Proof.
  unfold inject_workflow_parameters, injected.
  destruct (resolve_seed seed entropy) as [seed_value|e]; [|reflexivity]. simpl.
  rewrite _inject_output_prefix_store, _inject_ksampler_params_store,
    _inject_prompt_store, _inject_input_image_store.
  reflexivity.
Qed.


(** *** Digits and numerals *)

Lemma leading_digits_all cps :
  forallb (fun cp => bool_decide (is_Some (char_decimal cp))) cps = true ->
  length (leading_digits cps) = length cps.
Proof.
  induction cps as [|c cps IH]; [reflexivity|].
  cbn [forallb leading_digits]. intros H. apply andb_true_iff in H as [Hc Hall].
  apply bool_decide_eq_true in Hc as [d Hd]. rewrite Hd. cbn [length].
  rewrite (IH Hall). reflexivity.
Qed.


Lemma leading_digits_length cps : (length (leading_digits cps) <= length cps)%nat.
Proof.
  induction cps as [|c cps IH]; [reflexivity|].
  cbn [leading_digits]. destruct (char_decimal c); cbn [length]; lia.
Qed.

Lemma str_isdecimal_isdigit s : str_isdecimal s = true -> str_isdigit s = true.
Proof.
  unfold str_isdecimal, str_isdigit.
  destruct (decode_utf8 s) as [[|c cs]|]; try discriminate.
  generalize (c :: cs). intros cps. induction cps as [|c' cps IH]; [reflexivity|].
  cbn [forallb]. intros H. apply andb_true_iff in H as [Hc Hall].
  apply bool_decide_eq_true in Hc as [d Hd].
  unfold char_isdigit at 1. rewrite Hd. exact (IH Hall).
Qed.

(** A string of at most 4300 decimal digits is converted. *)
Lemma py_int_decimal s :
  str_isdecimal s = true ->
  (length (code_points s) <= INT_MAX_STR_DIGITS)%nat ->
  py_int s = Ok (str_decimal_value s).
Proof.
  unfold str_isdecimal, py_int, str_decimal_value, code_points.
  destruct (decode_utf8 s) as [[|c cs]|]; try discriminate.
  cbn [from_option id]. intros Hall Hlen.
  rewrite (leading_digits_all _ Hall).
  destruct (Nat.ltb_spec INT_MAX_STR_DIGITS (length (c :: cs))) as [Hlt|_]; [lia|].
  rewrite Nat.eqb_refl. reflexivity.
Qed.

(** [int] raises nothing but [ValueError]. *)
Lemma py_int_raises s e : py_int s = Raise e -> exn_kind e = ValueError.
Proof.
  unfold py_int. destruct (decode_utf8 s) as [cps|]; [|intros [= <-]; reflexivity].
  destruct (INT_MAX_STR_DIGITS <? _)%nat; [intros [= <-]; reflexivity|].
  destruct (_ && _); [discriminate|intros [= <-]; reflexivity].
Qed.


Lemma resolve_seed_raises seed entropy e :
  resolve_seed seed entropy = Raise e -> exn_kind e = ValueError.
Proof.
  destruct seed as [|b|z|f|s|l]; try discriminate. cbn [resolve_seed].
  destruct (str_isdigit s); [|discriminate].
  destruct (py_int s) as [z|e'] eqn:Hint; [discriminate|].
  cbn [rbind]. intros [= <-]. exact (py_int_raises _ _ Hint).
Qed.

Lemma injected_absent workflow input_image prompt steps cfg sv output_prefix id :
  workflow !! id = None ->
  injected workflow input_image prompt steps cfg sv output_prefix !! id = None.
Proof. intros H. unfold injected. repeat apply store_input_absent. exact H. Qed.

Lemma injected_present workflow input_image prompt steps cfg sv output_prefix id :
  is_Some (workflow !! id) ->
  is_Some (injected workflow input_image prompt steps cfg sv output_prefix !! id).
Proof. intros H. unfold injected. repeat apply store_input_present. exact H. Qed.

End Injector.

(** Rewrites a lookup through a stack of stores down to the store that wrote
    the slot, or to the original workflow. *)
Ltac through_stores :=
  repeat first
    [ rewrite input_of_store_eq by (repeat apply store_input_present; eauto)
    | rewrite input_of_store_ne by (first [left; discriminate | right; discriminate]) ].

Lemma input_of_store_other id0 key0 v (workflow : gmap string node) id key :
  (id, key) <> (id0, key0) ->
  input_of (store_input id0 key0 v workflow) id key = input_of workflow id key.
Proof.
  intros Hne. apply input_of_store_ne.
  destruct (decide (id0 = id)) as [->|Hid]; [|left; exact Hid].
  right. intros ->. apply Hne. reflexivity.
Qed.

Lemma injected_other workflow input_image prompt steps cfg sv output_prefix id key :
  designated id key = false ->
  input_of (injected workflow input_image prompt steps cfg sv output_prefix) id key
  = input_of workflow id key.
Proof.
  intros Hd. unfold designated in Hd. apply bool_decide_eq_false in Hd.
  rewrite !elem_of_cons, elem_of_nil in Hd.
  unfold injected.
  rewrite !input_of_store_other by (intros Heq; apply Hd; rewrite Heq; tauto).
  reflexivity.
Qed.

(** C1. Injection fidelity: for every graph that has the sampler node "14"
    and the positive-conditioning node "115" (the template is one), and for
    all parameters whatsoever, in particular the valid ones, the graph
    returned by [inject_workflow_parameters] holds at node "14" exactly the
    given steps, the given cfg and the resolved seed, and at node "115"
    exactly the given prompt. *)
Theorem injection_fidelity
    (workflow : gmap string node) (input_image prompt : string)
    (steps cfg seed : value) (output_prefix : string) (entropy : N) (seed_value : value) :
  is_Some (workflow !! "14") ->
  is_Some (workflow !! "115") ->
  resolve_seed seed entropy = Ok seed_value ->
  exists g,
    inject_workflow_parameters workflow input_image prompt steps cfg seed
      output_prefix entropy = Ok g
    /\ input_of g "14" "steps" = Some steps
    /\ input_of g "14" "cfg" = Some cfg
    /\ input_of g "14" "seed" = Some seed_value
    /\ input_of g "115" "text" = Some (VStr prompt).
Proof.
  intros H14 H115 Hseed.
  rewrite inject_workflow_parameters_eq, Hseed. simpl.
  eexists. split; [reflexivity|].
  unfold injected. repeat split; through_stores; reflexivity.
Qed.

Lemma injection_fidelity_witness :
  exists g,
    inject_workflow_parameters get_workflow_template "input_ab12cd34.png" "rotate left 45"
      (VInt 8) (VFloat 3%float) (VStr "12345") "qwen_left_45_ab12cd34" 0 = Ok g
    /\ input_of g "14" "steps" = Some (VInt 8)
    /\ input_of g "14" "cfg" = Some (VFloat 3%float)
    /\ input_of g "14" "seed" = Some (VInt 12345)
    /\ input_of g "115" "text" = Some (VStr "rotate left 45").
Proof.
  apply (injection_fidelity get_workflow_template).
  - vm_compute. eauto.
  - vm_compute. eauto.
  - vm_compute. reflexivity.
Defined.

(** *** Decimal numerals: [int(str(n)) = n] *)














Lemma resolve_seed_decimal s entropy :
  str_isdecimal s = true ->
  (length (code_points s) <= INT_MAX_STR_DIGITS)%nat ->
  resolve_seed (VStr s) entropy = Ok (VInt (str_decimal_value s)).
Proof.
  intros Hdec Hlen. cbn [resolve_seed].
  rewrite (str_isdecimal_isdigit _ Hdec), (py_int_decimal _ Hdec Hlen). reflexivity.
Qed.





Example seed_12345 : resolve_seed (VStr "12345") 99 = Ok (VInt 12345).
Proof. vm_compute. reflexivity. Qed.

Example seed_leading_zeros : resolve_seed (VStr "007") 99 = Ok (VInt 7).
Proof. vm_compute. reflexivity. Qed.

Example seed_absent : resolve_seed VNone (2 ^ 63 + 5) = Ok (VInt 5).
Proof. reflexivity. Qed.

(** Decimal digits of another script are converted as well: the
    Arabic-Indic numeral of 123. *)
Example seed_arabic_indic : resolve_seed (VStr "١٢٣") 99 = Ok (VInt 123).
Proof. vm_compute. reflexivity. Qed.



(** The injection into the template without its sampler node, for a seed
    that is resolved and for one that is not. *)
Example missing_node_instances :
  (exists g,
      inject_workflow_parameters (delete "14" get_workflow_template) "in.png" "p"
        (VInt 8) (VFloat 3%float) (VStr "42") "out" 0 = Ok g
      /\ dom g = dom (delete "14" get_workflow_template)
      /\ input_of g "115" "text" = Some (VStr "p"))
  /\ inject_workflow_parameters (delete "14" get_workflow_template) "in.png" "p"
       (VInt 8) (VFloat 3%float) (VStr "²") "out" 0
     = Raise (Exn ValueError "invalid literal for int() with base 10: '²'").
Proof.
  split; [|vm_compute; reflexivity].
  exists (injected (delete "14" get_workflow_template) "in.png" "p"
            (VInt 8) (VFloat 3%float) (VInt 42) "out").
  split; [vm_compute; reflexivity|]. split; vm_compute; reflexivity.
Qed.




(** A seed that [isdigit] accepts and [int] refuses passes the validator and
    makes the injection raise. *)
Example superscript_seed :
  validate_workflow_parameters (VInt 8) (VFloat 3%float) (VStr "²") = (true, Message "")
  /\ resolve_seed (VStr "²") 77
     = Raise (Exn ValueError "invalid literal for int() with base 10: '²'").
Proof. split; vm_compute; reflexivity. Qed.

(** C9 (as claimed, refuted). The template does not have 14 nodes. *)
Lemma template_not_14_nodes : size get_workflow_template <> 14%nat.
Proof. vm_compute. discriminate. Qed.

Lemma designated_not_ref id key v :
  input_of get_workflow_template id key = Some v -> designated id key = true ->
  is_ref v = false.
Proof.
  intros Hv Hd. unfold designated in Hd. apply bool_decide_eq_true in Hd.
  rewrite !elem_of_cons, elem_of_nil in Hd.
  destruct Hd as [Hd|[Hd|[Hd|[Hd|[Hd|[Hd|[]]]]]]]; injection Hd as -> ->;
    vm_compute in Hv; injection Hv as <-; reflexivity.
Qed.

(** C9 (amended). The template has exactly 15 nodes.  An injection, into any
    graph, keeps the set of node identifiers and the class of every node,
    and changes no input outside the six designated slots; in the template
    none of these slots holds a reference, so every node-to-node reference
    of the template is found unchanged in every graph made from it. *)
Theorem template_size_and_references :
  size get_workflow_template = 15%nat
  /\ (forall workflow input_image prompt steps cfg seed output_prefix entropy g,
        inject_workflow_parameters workflow input_image prompt steps cfg seed
          output_prefix entropy = Ok g ->
        dom g = dom workflow
        /\ (forall id, class_type <$> g !! id = class_type <$> workflow !! id)
        /\ (forall id key, designated id key = false ->
              input_of g id key = input_of workflow id key))
  /\ (forall input_image prompt steps cfg seed output_prefix entropy g id key v,
        create_workflow input_image prompt steps cfg seed output_prefix entropy = Ok g ->
        input_of get_workflow_template id key = Some v -> is_ref v = true ->
        input_of g id key = Some v).
Proof.
  assert (Hinj : forall workflow input_image prompt steps cfg seed output_prefix entropy g,
        inject_workflow_parameters workflow input_image prompt steps cfg seed
          output_prefix entropy = Ok g ->
        dom g = dom workflow
        /\ (forall id, class_type <$> g !! id = class_type <$> workflow !! id)
        /\ (forall id key, designated id key = false ->
              input_of g id key = input_of workflow id key)).
  { intros workflow input_image prompt steps cfg seed output_prefix entropy g Hg.
    rewrite inject_workflow_parameters_eq in Hg.
    destruct (resolve_seed seed entropy) as [sv|e]; [|discriminate].
    injection Hg as <-. split; [|split].
    - unfold injected. rewrite !store_input_dom. reflexivity.
    - intros id. unfold injected. rewrite !store_input_class. reflexivity.
    - intros id key. apply injected_other. }
  split; [vm_compute; reflexivity|]. split; [exact Hinj|].
  intros input_image prompt steps cfg seed output_prefix entropy g id key v Hg Hv Href.
  destruct (Hinj _ _ _ _ _ _ _ _ _ Hg) as (_ & _ & Hother).
  rewrite Hother; [exact Hv|].
  destruct (designated id key) eqn:Hd; [|reflexivity].
  rewrite (designated_not_ref _ _ _ Hv Hd) in Href. discriminate.
Qed.

(** ** The polling loop *)

Lemma poll_loop_budget je timeout : forall fuel k elapsed,
  (1 <= fuel)%nat ->
  1000 * timeout <= Z.of_N elapsed + 1000 * (Z.of_nat fuel - 1) ->
  poll_loop je timeout fuel k elapsed <> Diverged.
Proof.
  induction fuel as [|fuel IH]; intros k elapsed Hfuel Hinv; [lia|].
  simpl. destruct (Z.of_N elapsed <? 1000 * timeout) eqn:Hlt; [|discriminate].
  apply Z.ltb_lt in Hlt.
  destruct (poll_guarded je k); [discriminate|].
  apply IH; lia.
Qed.

(** The budget given to the loop is never exhausted. *)
Lemma execute_never_diverges je workflow client_id output_prefix timeout :
  snd (_execute_workflow_via_api je workflow client_id output_prefix timeout) <> Diverged.
Proof.
  unfold _execute_workflow_via_api.
  destruct (je_submit je) as [text|e|prompt_id [err|]]; cbn -[poll_loop]; try discriminate.
  apply poll_loop_budget; lia.
Qed.

(** With no reply that ends the loop, the loop runs into the timeout. *)
Lemma poll_loop_timeout je timeout : forall fuel k elapsed,
  (1 <= fuel)%nat ->
  (k + fuel = S (Z.to_nat timeout))%nat ->
  1000 * timeout <= Z.of_N elapsed + 1000 * (Z.of_nat fuel - 1) ->
  (forall j, (j < Z.to_nat timeout)%nat -> poll_guarded je j = None) ->
  poll_loop je timeout fuel k elapsed
  = Raised (Exn TimeoutError
              ("Workflow execution timed out after " +:+ str_of_Z timeout +:+ " seconds")).
Proof.
  induction fuel as [|fuel IH]; intros k elapsed Hfuel Hk Hinv Hpolls; [lia|].
  simpl. destruct (Z.of_N elapsed <? 1000 * timeout) eqn:Hlt; [|reflexivity].
  apply Z.ltb_lt in Hlt.
  rewrite Hpolls by lia.
  apply IH; [lia|lia|lia|exact Hpolls].
Qed.

Lemma not_terminal_poll_guarded je k :
  terminal_state (je_poll je k) = false -> poll_guarded je k = None.
Proof.
  unfold terminal_state, poll_guarded, poll_once.
  destruct (je_poll je k) as [code|e|[h|]]; try reflexivity.
  intros Hterm. apply orb_false_iff in Hterm as [Herr Hout].
  rewrite Herr. apply bool_decide_eq_false in Hout.
  destruct (outputs h !! "80") as [images|]; [|reflexivity].
  exfalso. apply Hout. eauto.
Qed.

Lemma execute_timeout je workflow client_id output_prefix timeout prompt_id :
  je_submit je = SubmitJSON prompt_id None ->
  (forall k, (k < Z.to_nat timeout)%nat -> terminal_state (je_poll je k) = false) ->
  _execute_workflow_via_api je workflow client_id output_prefix timeout
  = ([EvPost client_id workflow],
     Raised (Exn TimeoutError
               ("Workflow execution timed out after " +:+ str_of_Z timeout +:+ " seconds"))).
Proof.
  intros Hsubmit Hpolls. unfold _execute_workflow_via_api. rewrite Hsubmit.
  cbn -[poll_loop].
  rewrite poll_loop_timeout; [reflexivity|lia|lia|lia|].
  intros j Hj. apply not_terminal_poll_guarded, Hpolls, Hj.
Qed.

(** ** One job *)

Lemma infer_single_never_diverges je input_image_base64 prompt steps cfg seed output_prefix :
  snd (infer_single je input_image_base64 prompt steps cfg seed output_prefix) <> Diverged.
Proof.
  unfold infer_single.
  destruct (je_healthy je); simpl; [|discriminate].
  destruct (rbind _ _); [|discriminate].
  destruct (create_workflow _ _ _ _ _ _ _) as [workflow|e]; [|discriminate].
  destruct (je_save_workflow je) as [[]|e]; [|discriminate].
  pose proof (execute_never_diverges je workflow (je_client_id je) output_prefix 120) as Hex.
  destruct (_execute_workflow_via_api je workflow (je_client_id je) output_prefix 120)
    as [l [b|e|]]; cbn in *; try discriminate; [|congruence].
  destruct (exn_kind e); cbn; discriminate.
Qed.

(** A job that returns has posted exactly one graph: the one built by
    [create_workflow] from its arguments and its own random draw. *)
Lemma infer_single_returned je input_image_base64 prompt steps cfg seed output_prefix log b :
  infer_single je input_image_base64 prompt steps cfg seed output_prefix = (log, Returned b) ->
  exists workflow,
    create_workflow ("input_" +:+ je_client_id je +:+ ".png") prompt steps cfg seed
      (output_prefix +:+ "_" +:+ je_client_id je) (je_entropy je) = Ok workflow
    /\ log = [EvPost (je_client_id je) workflow].
Proof.
  unfold infer_single.
  destruct (je_healthy je); simpl; [|discriminate].
  destruct (rbind _ _); [|discriminate].
  destruct (create_workflow _ _ _ _ _ _ _) as [workflow|e]; [|discriminate].
  destruct (je_save_workflow je) as [[]|e]; [|discriminate].
  unfold _execute_workflow_via_api.
  destruct (je_submit je) as [text|e|prompt_id [err|]]; cbn -[poll_loop]; try discriminate.
  - destruct (exn_kind e); cbn; discriminate.
  - destruct (poll_loop je 120 _ 0 0) as [b'|e|]; cbn; try discriminate.
    + intros [= <- <-]. eauto.
    + destruct (exn_kind e); cbn; discriminate.
Qed.

Lemma infer_single_timeout je input_image_base64 prompt steps cfg seed output_prefix
    data prompt_id seed_value :
  je_healthy je = true ->
  decode_value input_image_base64 = Ok data ->
  je_write_input je = Ok tt ->
  resolve_seed seed (je_entropy je) = Ok seed_value ->
  je_save_workflow je = Ok tt ->
  je_submit je = SubmitJSON prompt_id None ->
  (forall k, (k < 120)%nat -> terminal_state (je_poll je k) = false) ->
  snd (infer_single je input_image_base64 prompt steps cfg seed output_prefix)
  = Raised (Exn TimeoutError "Workflow execution timed out after 120 seconds").
Proof.
  intros Hhealthy Hdecode Hwrite Hsv Hsave Hsubmit Hpolls.
  unfold infer_single. rewrite Hhealthy, Hdecode. simpl. rewrite Hwrite.
  unfold create_workflow.
  rewrite inject_workflow_parameters_eq, Hsv. simpl. rewrite Hsave.
  rewrite (execute_timeout _ _ _ _ 120 prompt_id Hsubmit) by exact Hpolls.
  reflexivity.
Qed.

(** A job logs nothing but its posts. *)
Lemma infer_single_raised_log je input_image_base64 prompt steps cfg seed output_prefix log o :
  infer_single je input_image_base64 prompt steps cfg seed output_prefix = (log, o) ->
  jobs_started log = [].
Proof.
  unfold infer_single.
  destruct (je_healthy je); simpl; [|intros [= <- _]; reflexivity].
  destruct (rbind _ _); [|intros [= <- _]; reflexivity].
  destruct (create_workflow _ _ _ _ _ _ _) as [workflow|e]; [|intros [= <- _]; reflexivity].
  destruct (je_save_workflow je) as [[]|e]; [|intros [= <- _]; reflexivity].
  unfold _execute_workflow_via_api.
  destruct (je_submit je) as [text|e|prompt_id [err|]]; cbn -[poll_loop].
  - intros [= <- _]; reflexivity.
  - destruct (exn_kind e); cbn; intros [= <- _]; reflexivity.
  - intros [= <- _]; reflexivity.
  - destruct (poll_loop je 120 _ 0 0) as [b'|e|]; cbn -[poll_loop].
    + intros [= <- _]; reflexivity.
    + destruct (exn_kind e); cbn; intros [= <- _]; reflexivity.
    + intros [= <- _]; reflexivity.
Qed.

(** ** The batch loop *)

(** Rendering a response logs nothing. *)
Lemma render_response_log status b :
  render_response status b = ([], snd (render_response status b)).
Proof. unfold render_response. destruct (body_renders b); reflexivity. Qed.

Lemma generate_loop_cons_returned ge image_base64 steps cfg_scale seed i id name prompt
    rest generated_images l b :
  infer_single (ge_job ge i) image_base64 (default "" prompt) steps cfg_scale seed
    ("qwen_" +:+ default (str_of_nat i) id) = (l, Returned b) ->
  generate_loop ge image_base64 steps cfg_scale seed i
    (PObject id name prompt :: rest) generated_images
  = (let '(l', o) :=
       generate_loop ge image_base64 steps cfg_scale seed (S i) rest
         (generated_images ++
            [ImageEntry (default (str_of_nat i) id)
               (default ("视角" +:+ str_of_nat (i + 1)) name)
               (b64encode b) (reported_seed seed)]) in
     (EvInfer i (default "" prompt) ("qwen_" +:+ default (str_of_nat i) id) :: l ++ l', o)).
Proof.
  intros Hjob. cbn -[str_of_nat infer_single]. rewrite Hjob. cbn -[str_of_nat].
  destruct (generate_loop _ _ _ _ _ _ _ _) as [l' o].
  rewrite app_nil_r. reflexivity.
Qed.

Lemma generate_loop_cons_raised ge image_base64 steps cfg_scale seed i id name prompt
    rest generated_images l e :
  infer_single (ge_job ge i) image_base64 (default "" prompt) steps cfg_scale seed
    ("qwen_" +:+ default (str_of_nat i) id) = (l, Raised e) ->
  generate_loop ge image_base64 steps cfg_scale seed i
    (PObject id name prompt :: rest) generated_images
  = (EvInfer i (default "" prompt) ("qwen_" +:+ default (str_of_nat i) id) :: l,
     Returned (failure_response (default ("视角" +:+ str_of_nat (i + 1)) name) e)).
Proof.
  intros Hjob. cbn -[str_of_nat infer_single]. rewrite Hjob. cbn -[str_of_nat].
  rewrite !app_nil_r. reflexivity.
Qed.


Lemma check_perspectives_ok perspectives :
  Forall has_prompt perspectives -> forall i, check_perspectives i perspectives = None.
Proof.
  induction 1 as [|p rest (id & name & prompt & -> & Hne) _ IH]; intros i; [reflexivity|].
  simpl. destruct prompt as [|c prompt]; [congruence|]. apply IH.
Qed.

(** A value with an element is a list, and it is truthy. *)
Lemma perspectives_list request :
  req_perspectives request <> [] ->
  req_perspectives_value request = PerspectivesList (req_perspectives request)
  /\ perspectives_truthy (req_perspectives_value request) = true.
Proof.
  unfold req_perspectives.
  destruct (req_perspectives_value request) as [[|p items]|sc]; try congruence.
  intros _. split; reflexivity.
Qed.

Lemma generate_validated ge request :
  ge_healthy ge = true -> validated request ->
  generate ge request
  = generate_loop ge (req_image request) (steps_of request) (cfg_scale_of request)
      (req_seed request) 0 (req_perspectives request) [].
Proof.
  intros Hhealthy [(s & data & Himg & Hs & Hdec & Hlen) [Hne Hall] (z & Hz & Hrange) Hcfg].
  destruct (perspectives_list request Hne) as [Hlist Htruthy].
  unfold generate. rewrite Hhealthy, Himg. simpl.
  destruct s as [|c s]; [congruence|]. simpl. rewrite Hdec. simpl.
  destruct (length data <? 100)%nat eqn:Hlt; [apply Nat.ltb_lt in Hlt; lia|].
  rewrite Htruthy, Hlist. cbn [negb].
  rewrite (check_perspectives_ok _ Hall).
  fold (steps_of request). fold (cfg_scale_of request). rewrite Hz. simpl.
  destruct (z <? 4) eqn:H4; [apply Z.ltb_lt in H4; lia|].
  destruct (8 <? z) eqn:H8; [apply Z.ltb_lt in H8; lia|]. simpl.
  unfold cfg_scale_rejected in Hcfg. rewrite Hcfg. rewrite <- Hz. reflexivity.
Qed.

Lemma generate_loop_success ge request : forall perspectives i generated_images,
  Forall has_prompt perspectives ->
  (forall k p, perspectives !! k = Some p ->
     exists b, snd (job ge request (i + k) p) = Returned b) ->
  exists log images,
    generate_loop ge (req_image request) (steps_of request) (cfg_scale_of request)
      (req_seed request) i perspectives generated_images
    = (log, snd (render_response 200
                   (ImagesBody (generated_images ++ images) (ge_total_time ge)
                      (req_image request))))
    /\ length images = length perspectives
    /\ (forall k p, perspectives !! k = Some p ->
          exists b, snd (job ge request (i + k) p) = Returned b
                    /\ images !! k = Some (entry_of request (i + k) p b))
    /\ jobs_started log = seq i (length perspectives)
    /\ length (posted log) = length perspectives
    /\ (forall k p, perspectives !! k = Some p ->
          exists g, posted log !! k = Some g /\ job_graph ge request (i + k) p = Ok g).
Proof.
  induction perspectives as [|p rest IH]; intros i generated_images Hall Hjobs.
  - exists [], []. cbn [generate_loop]. rewrite app_nil_r.
    split; [apply render_response_log|].
    repeat split; intros k p Hk; rewrite lookup_nil in Hk; discriminate.
  - apply Forall_cons in Hall as [(id & name & prompt & -> & Hne) Hall].
    destruct (Hjobs 0%nat _ eq_refl) as [b Hb].
    rewrite Nat.add_0_r in Hb. unfold job in Hb. cbn [prompt_of perspective_id_of] in Hb.
    destruct (infer_single (ge_job ge i) (req_image request) (default "" (Some prompt))
                (steps_of request) (cfg_scale_of request) (req_seed request)
                ("qwen_" +:+ default (str_of_nat i) id)) as [l o] eqn:Hjob.
    cbn [snd] in Hb. subst o.
    rewrite (generate_loop_cons_returned _ _ _ _ _ _ _ _ _ _ _ _ _ Hjob).
    destruct (infer_single_returned _ _ _ _ _ _ _ _ _ Hjob) as (g0 & Hg0 & ->).
    destruct (IH (S i)
                (generated_images ++
                   [ImageEntry (default (str_of_nat i) id)
                      (default ("视角" +:+ str_of_nat (i + 1)) name)
                      (b64encode b) (reported_seed (req_seed request))]) Hall)
      as (log & images & Hloop & Hlen & Himages & Hstarted & Hposted & Hgraphs).
    { intros k p Hk. rewrite Nat.add_succ_comm. apply (Hjobs (S k)). exact Hk. }
    rewrite Hloop.
    eexists _, (_ :: images). split.
    { rewrite <- app_assoc. reflexivity. }
    split; [simpl; congruence|].
    split.
    { intros [|k] p Hk.
      - injection Hk as <-. exists b. rewrite Nat.add_0_r. split; [|reflexivity].
        unfold job. cbn [prompt_of perspective_id_of]. rewrite Hjob. reflexivity.
      - rewrite <- Nat.add_succ_comm. apply Himages. exact Hk. }
    split; [simpl; rewrite Hstarted; reflexivity|].
    split; [simpl; rewrite Hposted; reflexivity|].
    intros [|k] p Hk.
    + injection Hk as <-. exists g0. rewrite Nat.add_0_r. split; [reflexivity|exact Hg0].
    + rewrite <- Nat.add_succ_comm. apply Hgraphs. exact Hk.
Qed.

Lemma generate_loop_failure ge request : forall perspectives i generated_images n p e,
  Forall has_prompt perspectives ->
  perspectives !! n = Some p ->
  (forall k q, (k < n)%nat -> perspectives !! k = Some q ->
     exists b, snd (job ge request (i + k) q) = Returned b) ->
  snd (job ge request (i + n) p) = Raised e ->
  exists log,
    generate_loop ge (req_image request) (steps_of request) (cfg_scale_of request)
      (req_seed request) i perspectives generated_images
    = (log, Returned (failure_response (perspective_name_of (i + n) p) e))
    /\ jobs_started log = seq i (S n).
Proof.
  induction perspectives as [|p0 rest IH]; intros i generated_images n p e Hall Hn Hbefore He.
  - rewrite lookup_nil in Hn. discriminate.
  - apply Forall_cons in Hall as [(id & name & prompt & -> & Hne) Hall].
    destruct (infer_single (ge_job ge i) (req_image request) (default "" (Some prompt))
                (steps_of request) (cfg_scale_of request) (req_seed request)
                ("qwen_" +:+ default (str_of_nat i) id)) as [l o] eqn:Hjob.
    destruct n as [|n].
    + injection Hn as <-. rewrite Nat.add_0_r in *.
      unfold job in He. cbn [prompt_of perspective_id_of] in He. rewrite Hjob in He.
      cbn [snd] in He. subst o.
      rewrite (generate_loop_cons_raised _ _ _ _ _ _ _ _ _ _ _ _ _ Hjob).
      pose proof (infer_single_raised_log _ _ _ _ _ _ _ _ _ Hjob) as Hl.
      eexists. split; [reflexivity|].
      simpl. rewrite Hl. reflexivity.
    + destruct (Hbefore 0%nat _ ltac:(lia) eq_refl) as [b Hb].
      rewrite Nat.add_0_r in Hb. unfold job in Hb. cbn [prompt_of perspective_id_of] in Hb.
      rewrite Hjob in Hb. cbn [snd] in Hb. subst o.
      rewrite (generate_loop_cons_returned _ _ _ _ _ _ _ _ _ _ _ _ _ Hjob).
      destruct (infer_single_returned _ _ _ _ _ _ _ _ _ Hjob) as (g0 & Hg0 & ->).
      destruct (IH (S i)
                  (generated_images ++
                     [ImageEntry (default (str_of_nat i) id)
                        (default ("视角" +:+ str_of_nat (i + 1)) name)
                        (b64encode b) (reported_seed (req_seed request))])
                  n p e Hall Hn) as (log & Hloop & Hstarted).
      { intros k q Hk Hq. rewrite Nat.add_succ_comm. apply (Hbefore (S k)); [lia|exact Hq]. }
      { rewrite Nat.add_succ_comm. exact He. }
      rewrite Hloop. eexists. split.
      { rewrite <- Nat.add_succ_comm. reflexivity. }
      simpl. rewrite Hstarted. reflexivity.
Qed.


(** ** The endpoint *)

Lemma generate_loop_never_diverges ge image_base64 steps cfg_scale seed :
  forall perspectives i generated_images,
    snd (generate_loop ge image_base64 steps cfg_scale seed i perspectives generated_images)
    <> Diverged.
Proof.
  induction perspectives as [|p rest IH]; intros i generated_images.
  { cbn [generate_loop]. unfold render_response. destruct (body_renders _); discriminate. }
  destruct p as [|id name prompt]; [discriminate|].
  destruct (infer_single (ge_job ge i) image_base64 (default "" prompt) steps cfg_scale seed
              ("qwen_" +:+ default (str_of_nat i) id)) as [l o] eqn:Hjob.
  pose proof (infer_single_never_diverges (ge_job ge i) image_base64 (default "" prompt)
                steps cfg_scale seed ("qwen_" +:+ default (str_of_nat i) id)) as Hnd.
  rewrite Hjob in Hnd. destruct o as [b|e|]; [| |cbn in Hnd; congruence].
  - rewrite (generate_loop_cons_returned _ _ _ _ _ _ _ _ _ _ _ _ _ Hjob).
    specialize (IH (S i)
                  (generated_images ++
                     [ImageEntry (default (str_of_nat i) id)
                        (default ("视角" +:+ str_of_nat (i + 1)) name)
                        (b64encode b) (reported_seed seed)])).
    destruct (generate_loop _ _ _ _ _ _ _ _) as [l' o']. exact IH.
  - rewrite (generate_loop_cons_raised _ _ _ _ _ _ _ _ _ _ _ _ _ Hjob). discriminate.
Qed.

(** The endpoint always comes to an end: the budget of no polling loop runs
    out. *)
Lemma generate_never_diverges ge request : snd (generate ge request) <> Diverged.
Proof.
  unfold generate.
  destruct (ge_healthy ge); simpl; [|discriminate].
  destruct (truthy (req_image request)); simpl; [|discriminate].
  destruct (rbind _ _); [|discriminate].
  destruct (perspectives_truthy _); [|discriminate]. cbn [negb].
  destruct (req_perspectives_value request) as [items|sc]; [|discriminate].
  destruct (check_perspectives 0 _); [discriminate|].
  destruct (negb _ || _); [discriminate|].
  destruct (negb _ || _); [discriminate|].
  apply generate_loop_never_diverges.
Qed.

Lemma starts_with_app needle rest : starts_with needle (needle +:+ rest) = true.
Proof.
  induction needle as [|c needle IH]; simpl; [reflexivity|].
  rewrite Ascii.eqb_refl. exact IH.
Qed.

Lemma contains_prefix needle haystack :
  starts_with needle haystack = true -> contains needle haystack = true.
Proof. intros H. destruct haystack; simpl; rewrite H; reflexivity. Qed.

Lemma contains_app needle before after :
  contains needle (before +:+ needle +:+ after) = true.
Proof.
  induction before as [|c before IH].
  - apply contains_prefix. apply (starts_with_app needle after).
  - change (contains needle (String c (before +:+ needle +:+ after)) = true).
    cbn [contains]. rewrite IH. apply orb_true_r.
Qed.

Lemma failure_response_names name e :
  exists message,
    content (failure_response name e)
    = ErrorBody (match exn_kind e with TimeoutError => "timeout" | _ => "generation_error" end)
        message
    /\ status_code (failure_response name e)
       = match exn_kind e with TimeoutError => 504 | _ => 500 end
    /\ contains name message = true.
Proof.
  unfold failure_response.
  destruct (exn_kind e); eexists; (split; [reflexivity|]); (split; [reflexivity|]);
    apply (contains_app name "视角 '").
Qed.

(** C2. Fail-fast: in an accepted batch, when the job of the perspective at
    index [i] is run (every job before it returned) and raises, be it a
    timeout or any failure, the call returns one error response; its message
    names that perspective, it holds no image entry, the successful ones
    before [i] included, and the jobs started are exactly those of the
    indices 0 to [i], so none after [i] is run. *)
Theorem fail_fast (ge : gen_env) (request : request) (i : nat) (p : perspective) (e : exn) :
  ge_healthy ge = true ->
  validated request ->
  req_perspectives request !! i = Some p ->
  (forall k q, (k < i)%nat -> req_perspectives request !! k = Some q ->
     exists b, snd (job ge request k q) = Returned b) ->
  snd (job ge request i p) = Raised e ->
  exists log resp message,
    generate ge request = (log, Returned resp)
    /\ content resp
       = ErrorBody (match exn_kind e with TimeoutError => "timeout" | _ => "generation_error" end)
           message
    /\ status_code resp = match exn_kind e with TimeoutError => 504 | _ => 500 end
    /\ contains (perspective_name_of i p) message = true
    /\ body_images (content resp) = []
    /\ jobs_started log = seq 0 (S i).
Proof.
  intros Hhealthy Hvalid Hp Hbefore He.
  rewrite (generate_validated _ _ Hhealthy Hvalid).
  destruct (generate_loop_failure ge request (req_perspectives request) 0 [] i p e)
    as (log & Hloop & Hstarted); try assumption.
  { apply Hvalid. }
  destruct (failure_response_names (perspective_name_of i p) e) as (message & Hc & Hs & Hn).
  exists log, (failure_response (perspective_name_of i p) e), message.
  split; [exact Hloop|]. split; [exact Hc|]. split; [exact Hs|]. split; [exact Hn|].
  split; [rewrite Hc; reflexivity|exact Hstarted].
Qed.

(** C8. Timeout classification: a job that was accepted at submission and
    whose polls show no terminal state within the budget ends in a timeout,
    for every budget; and in an accepted batch, when such a job is the one
    of the perspective at index [i] (every job before it returned, and the
    job itself got as far as the submission: its input was written and its
    graph was built, the seed being resolved, and saved), the call answers
    with the code timeout and the status 504. *)
Theorem timeout_classification
    (ge : gen_env) (request : request) (i : nat) (p : perspective)
    (prompt_id : option string) (seed_value : value) :
  ge_healthy ge = true ->
  validated request ->
  req_perspectives request !! i = Some p ->
  (forall k q, (k < i)%nat -> req_perspectives request !! k = Some q ->
     exists b, snd (job ge request k q) = Returned b) ->
  je_healthy (ge_job ge i) = true ->
  je_write_input (ge_job ge i) = Ok tt ->
  resolve_seed (req_seed request) (je_entropy (ge_job ge i)) = Ok seed_value ->
  je_save_workflow (ge_job ge i) = Ok tt ->
  je_submit (ge_job ge i) = SubmitJSON prompt_id None ->
  (forall k, (k < 120)%nat -> terminal_state (je_poll (ge_job ge i) k) = false) ->
  (forall workflow client_id output_prefix timeout,
     (forall k, (k < Z.to_nat timeout)%nat ->
        terminal_state (je_poll (ge_job ge i) k) = false) ->
     snd (_execute_workflow_via_api (ge_job ge i) workflow client_id output_prefix timeout)
     = Raised (Exn TimeoutError
                 ("Workflow execution timed out after " +:+ str_of_Z timeout +:+ " seconds")))
  /\ snd (job ge request i p)
     = Raised (Exn TimeoutError "Workflow execution timed out after 120 seconds")
  /\ exists log,
       generate ge request
       = (log, Returned (error_response 504 "timeout"
                           ("视角 '" +:+ perspective_name_of i p +:+ "' 的生成超时")))
       /\ jobs_started log = seq 0 (S i).
Proof.
  intros Hhealthy Hvalid Hp Hbefore Hjh Hwrite Hsv Hsave Hsubmit Hpolls.
  assert (Hjob : snd (job ge request i p)
                 = Raised (Exn TimeoutError "Workflow execution timed out after 120 seconds")).
  { destruct Hvalid as [(s & data & Himg & _ & Hdec & _) _ _ _].
    unfold job.
    apply (infer_single_timeout _ _ _ _ _ _ _ data prompt_id seed_value); try assumption.
    rewrite Himg. exact Hdec. }
  split; [|split; [exact Hjob|]].
  - intros workflow client_id output_prefix timeout Hk.
    rewrite (execute_timeout _ _ _ _ timeout prompt_id Hsubmit Hk). reflexivity.
  - rewrite (generate_validated _ _ Hhealthy Hvalid).
    destruct (generate_loop_failure ge request (req_perspectives request) 0 [] i p _
                ltac:(apply Hvalid) Hp Hbefore Hjob) as (log & Hloop & Hstarted).
    exists log. split; [exact Hloop|exact Hstarted].
Qed.


Lemma steps_rejected_spec v : steps_rejected v = false <-> steps_valid v.
Proof.
  unfold steps_rejected, steps_valid. split.
  - destruct v as [|[]|z|f|s|l]; simpl; try discriminate.
    intros H. apply orb_false_iff in H as [H4 H8].
    apply Z.ltb_ge in H4, H8. eauto.
  - intros (z & -> & Hz). simpl. apply orb_false_iff. split; apply Z.ltb_ge; lia.
Qed.

Lemma cfg_scale_rejected_spec v : cfg_scale_rejected v = true <-> cfg_scale_invalid v.
Proof.
  unfold cfg_scale_rejected, cfg_scale_invalid.
  destruct v as [|[]|z|f|s|l]; cbn [isinstance_number negb orb outside].
  - tauto.
  - split; discriminate.
  - tauto.
  - rewrite orb_true_iff, !Z.ltb_lt. reflexivity.
  - change (PrimFloat.of_uint63 (Uint63.of_Z 1)) with 1%float.
    change (PrimFloat.of_uint63 (Uint63.of_Z 5)) with 5%float.
    rewrite orb_true_iff. reflexivity.
  - tauto.
  - tauto.
Qed.





(** The entries of a list that holds, for each perspective, the entry of
    that perspective report the seed of the request. *)
Lemma entries_report_seed (request : request) (perspectives : list perspective)
    (i : nat) (images : list image_entry) :
  length images = length perspectives ->
  (forall k p, perspectives !! k = Some p ->
     exists b : bytes, images !! k = Some (entry_of request (i + k) p b)) ->
  forall entry, entry ∈ images -> seed_used entry = reported_seed (req_seed request).
Proof.
  intros Hlen Himages entry Hentry. apply list_elem_of_lookup in Hentry as [k Hk].
  destruct (lookup_lt_is_Some_2 perspectives k) as [p Hp].
  { rewrite <- Hlen. eapply lookup_lt_Some, Hk. }
  destruct (Himages k p Hp) as (b & Hk'). rewrite Hk in Hk'. injection Hk' as ->.
  reflexivity.
Qed.



(** An accepted batch whose jobs all return: the log and the entries. *)
Lemma generate_success ge request :
  ge_healthy ge = true ->
  validated request ->
  (forall k p, req_perspectives request !! k = Some p ->
     exists b, snd (job ge request k p) = Returned b) ->
  exists log images,
    generate ge request
    = (log, snd (render_response 200
                   (ImagesBody images (ge_total_time ge) (req_image request))))
    /\ length images = length (req_perspectives request)
    /\ (forall k p, req_perspectives request !! k = Some p ->
          exists b, snd (job ge request k p) = Returned b
                    /\ images !! k = Some (entry_of request k p b))
    /\ jobs_started log = seq 0 (length (req_perspectives request))
    /\ length (posted log) = length (req_perspectives request)
    /\ (forall k p, req_perspectives request !! k = Some p ->
          exists g, posted log !! k = Some g /\ job_graph ge request k p = Ok g)
    /\ (forall entry, entry ∈ images ->
          seed_used entry = reported_seed (req_seed request)).
Proof.
  intros Hhealthy Hvalid Hjobs.
  rewrite (generate_validated _ _ Hhealthy Hvalid).
  destruct (generate_loop_success ge request (req_perspectives request) 0 [])
    as (log & images & Hloop & Hlen & Himages & Hstarted & Hposted & Hgraphs);
    [apply Hvalid|exact Hjobs|].
  exists log, images. split; [exact Hloop|]. split; [exact Hlen|].
  split; [exact Himages|]. split; [exact Hstarted|]. split; [exact Hposted|].
  split; [exact Hgraphs|].
  apply (entries_report_seed request (req_perspectives request) 0 images Hlen).
  intros k p Hp. destruct (Himages k p Hp) as (b & _ & Hk). eauto.
Qed.




(** ** Further properties of the injector *)

Lemma graph_check_sound (g : gmap string node) (f : string -> string -> value -> bool) :
  forallb (fun '(id, n) => forallb (fun '(key, v) => f id key v) (map_to_list (inputs n)))
    (map_to_list g) = true ->
  forall id key v, input_of g id key = Some v -> f id key v = true.
Proof.
  unfold input_of. intros Hcheck id key v Hv.
  destruct (g !! id) as [n|] eqn:Hn; [|discriminate]. simpl in Hv.
  assert (Hin : In (id, n) (map_to_list g))
    by (apply list_elem_of_In, elem_of_map_to_list; exact Hn).
  pose proof (proj1 (forallb_forall _ _) Hcheck _ Hin) as Hnode.
  cbv beta iota in Hnode.
  assert (Hin' : In (key, v) (map_to_list (inputs n)))
    by (apply list_elem_of_In, elem_of_map_to_list; exact Hv).
  exact (proj1 (forallb_forall _ _) Hnode _ Hin').
Qed.

Lemma template_check_sound f :
  template_check f = true ->
  forall id key v, input_of get_workflow_template id key = Some v -> f id key v = true.
Proof. exact (graph_check_sound get_workflow_template f). Qed.

Lemma injected_lookup workflow input_image prompt steps cfg sv output_prefix id :
  injected workflow input_image prompt steps cfg sv output_prefix !! id
  = (fun n => Node (class_type n)
                (injected_inputs id input_image prompt steps cfg sv output_prefix (inputs n)))
    <$> workflow !! id.
Proof.
  unfold injected. rewrite !lookup_store_input.
  destruct (workflow !! id) as [[cls ins]|] eqn:Hid.
  - unfold injected_inputs.
    destruct (String.eqb_spec id "31") as [->|H31]; [reflexivity|].
    destruct (String.eqb_spec id "115") as [->|H115]; [reflexivity|].
    destruct (String.eqb_spec id "14") as [->|H14]; [reflexivity|].
    destruct (String.eqb_spec id "80") as [->|H80]; [reflexivity|].
    repeat case_decide; try congruence. reflexivity.
  - repeat case_decide; reflexivity.
Qed.

Lemma injected_inputs_twice id img1 p1 st1 cf1 sv1 pre1 img2 p2 st2 cf2 sv2 pre2 ins :
  injected_inputs id img2 p2 st2 cf2 sv2 pre2
    (injected_inputs id img1 p1 st1 cf1 sv1 pre1 ins)
  = injected_inputs id img2 p2 st2 cf2 sv2 pre2 ins.
Proof.
  unfold injected_inputs.
  repeat (destruct (String.eqb id _)); try reflexivity;
    apply map_eq; intros k; rewrite !lookup_insert;
    repeat case_decide; congruence.
Qed.

(** X1. Injecting into a graph that was already injected overwrites the
    earlier values: the result is the graph obtained by injecting the
    second set of arguments into the original graph. *)
Theorem injection_overwrites
    (workflow g1 : gmap string node)
    (img1 p1 : string) (st1 cf1 seed1 : value) (pre1 : string) (e1 : N)
    (img2 p2 : string) (st2 cf2 seed2 : value) (pre2 : string) (e2 : N) :
  inject_workflow_parameters workflow img1 p1 st1 cf1 seed1 pre1 e1 = Ok g1 ->
  inject_workflow_parameters g1 img2 p2 st2 cf2 seed2 pre2 e2
  = inject_workflow_parameters workflow img2 p2 st2 cf2 seed2 pre2 e2.
Proof.
  rewrite !inject_workflow_parameters_eq.
  destruct (resolve_seed seed1 e1) as [sv1|?]; [|discriminate]. intros [= <-].
  destruct (resolve_seed seed2 e2) as [sv2|?]; [|reflexivity]. simpl. f_equal.
  apply map_eq. intros id. rewrite !injected_lookup.
  destruct (workflow !! id) as [[cls ins]|]; [|reflexivity]. simpl.
  rewrite injected_inputs_twice. reflexivity.
Qed.

Lemma template_has_designated id key :
  designated id key = true -> is_Some (get_workflow_template !! id).
Proof.
  intros Hd. unfold designated in Hd. apply bool_decide_eq_true in Hd.
  rewrite !elem_of_cons, elem_of_nil in Hd.
  destruct Hd as [Hd|[Hd|[Hd|[Hd|[Hd|[Hd|[]]]]]]]; injection Hd as -> ->;
    vm_compute; eauto.
Qed.

Lemma injected_designated workflow input_image prompt steps cfg sv output_prefix id key v :
  designated id key = true ->
  input_of (injected workflow input_image prompt steps cfg sv output_prefix) id key = Some v ->
  v ∈ [VStr input_image; VStr prompt; steps; cfg; sv; VStr output_prefix].
Proof.
  intros Hd Hv. unfold designated in Hd. apply bool_decide_eq_true in Hd.
  rewrite !elem_of_cons, elem_of_nil in Hd.
  assert (Hsome : is_Some (workflow !! id)).
  { unfold input_of in Hv.
    destruct (injected _ _ _ _ _ _ _ !! id) as [n|] eqn:Hn; [|discriminate].
    destruct (workflow !! id) eqn:Hw; [eauto|].
    rewrite (injected_absent _ _ _ _ _ _ _ _ Hw) in Hn. discriminate. }
  unfold injected in Hv.
  destruct Hd as [Hd|[Hd|[Hd|[Hd|[Hd|[Hd|[]]]]]]]; injection Hd as -> ->;
    revert Hv; through_stores; intros [= <-]; set_solver.
Qed.

Lemma resolve_seed_not_placeholder seed entropy sv :
  resolve_seed seed entropy = Ok sv -> is_placeholder sv = false.
Proof.
  destruct seed; simpl; try (intros [= <-]; reflexivity).
  destruct (str_isdigit s) eqn:Hs; [|intros [= <-]; reflexivity].
  destruct (py_int s); simpl; [|discriminate]. intros [= <-]. reflexivity.
Qed.

Lemma resolve_seed_not_ref seed entropy sv :
  resolve_seed seed entropy = Ok sv -> is_ref seed = false -> is_ref sv = false.
Proof.
  destruct seed; simpl; try (intros [= <-]; auto).
  destruct (str_isdigit s) eqn:Hs; [|intros [= <-]; reflexivity].
  destruct (py_int s); simpl; [|discriminate]. intros [= <-]. reflexivity.
Qed.

(** X2. No placeholder is left: in a graph that [create_workflow] returns, an
    input holds one of the placeholder strings of the template only where
    the caller passed that very string as the image name, the prompt, the
    steps, the cfg or the output prefix. *)
Theorem no_placeholder_left
    (input_image prompt : string) (steps cfg seed : value)
    (output_prefix : string) (entropy : N) (g : gmap string node) :
  create_workflow input_image prompt steps cfg seed output_prefix entropy = Ok g ->
  forall id key v,
    input_of g id key = Some v -> is_placeholder v = true ->
    v ∈ [VStr input_image; VStr prompt; steps; cfg; VStr output_prefix].
Proof.
  unfold create_workflow. rewrite inject_workflow_parameters_eq.
  destruct (resolve_seed seed entropy) as [sv|e] eqn:Hsv; [|discriminate].
  cbn [rbind]. intros [= <-] id key v Hv Hp.
  destruct (designated id key) eqn:Hd.
  - pose proof (injected_designated _ _ _ _ _ _ _ _ _ _ Hd Hv) as Hin.
    rewrite !elem_of_cons, elem_of_nil in Hin. rewrite !elem_of_cons.
    destruct Hin as [H|[H|[H|[H|[H|[H|[]]]]]]]; try tauto.
    subst v. rewrite (resolve_seed_not_placeholder _ _ _ Hsv) in Hp. discriminate.
  - rewrite injected_other in Hv by exact Hd.
    assert (Hc : template_check placeholder_only_designated = true)
      by (vm_compute; reflexivity).
    pose proof (template_check_sound _ Hc _ _ _ Hv) as Hcheck.
    unfold placeholder_only_designated in Hcheck. rewrite Hp, Hd in Hcheck. discriminate.
Qed.

(** X3. A graph that [create_workflow] returns, from steps, cfg and seed
    that are not themselves lists of the shape of a reference, is well
    formed: each reference in it names a node of the graph, and that node
    stands earlier in the order of the template, so the graph has no
    cycle. *)
Theorem references_resolve
    (input_image prompt : string) (steps cfg seed : value)
    (output_prefix : string) (entropy : N) (g : gmap string node) :
  is_ref steps = false -> is_ref cfg = false -> is_ref seed = false ->
  create_workflow input_image prompt steps cfg seed output_prefix entropy = Ok g ->
  forall id key producer slot,
    input_of g id key = Some (VList [VStr producer; VInt slot]) ->
    is_Some (g !! producer)
    /\ exists r r',
         template_rank producer = Some r /\ template_rank id = Some r'
         /\ (r < r')%nat.
Proof.
  intros Hsteps Hcfg Hseed.
  unfold create_workflow. rewrite inject_workflow_parameters_eq.
  destruct (resolve_seed seed entropy) as [sv|e] eqn:Hsv; [|discriminate].
  cbn [rbind]. intros [= <-] id key producer slot Hv.
  destruct (designated id key) eqn:Hd.
  - pose proof (injected_designated _ _ _ _ _ _ _ _ _ _ Hd Hv) as Hin.
    pose proof (resolve_seed_not_ref _ _ _ Hsv Hseed) as Hsv'.
    rewrite !elem_of_cons, elem_of_nil in Hin.
    destruct Hin as [?|[?|[<-|[<-|[<-|[?|[]]]]]]]; discriminate.
  - rewrite injected_other in Hv by exact Hd.
    assert (Hc : template_check reference_goes_back = true) by (vm_compute; reflexivity).
    pose proof (template_check_sound _ Hc _ _ _ Hv) as Hcheck. simpl in Hcheck.
    destruct (template_rank producer) as [r|] eqn:Hr; [|discriminate].
    destruct (template_rank id) as [r'|] eqn:Hr'; [|discriminate].
    apply Nat.ltb_lt in Hcheck. split; [|eauto].
    apply injected_present.
    assert (Hrank : forall ids i, index_of producer ids = Some i -> producer ∈ ids).
    { induction ids as [|x ids IH]; simpl; [discriminate|].
      destruct (String.eqb_spec producer x) as [->|?]; [intros; left|].
      intros i Hi. right. destruct (index_of producer ids); [eapply IH; eauto|discriminate]. }
    apply Hrank in Hr. cbn in Hr.
    repeat (apply elem_of_cons in Hr as [->|Hr]; [vm_compute; eauto|]).
    apply elem_of_nil in Hr. contradiction.
Qed.

Lemma validate_workflow_parameters_eq steps cfg seed :
  validate_workflow_parameters steps cfg seed
  = if steps_rejected steps
    then (false, MessageGot "steps must be an integer between 4 and 8, got " steps)
    else if cfg_scale_rejected cfg
    then (false, MessageGot "cfg must be a number between 1.0 and 5.0, got " cfg)
    else
      match seed with
      | VNone => (true, Message "")
      | VStr s =>
          if truthy seed && negb (str_isdigit s)
          then (false, Message ("seed must be a numeric string, got '" +:+ s +:+ "'"))
          else (true, Message "")
      | _ =>
          if negb (isinstance_int seed)
          then (false, Message ("seed must be an integer or numeric string, got "
                                +:+ type_name seed))
          else (true, Message "")
      end.
Proof. reflexivity. Qed.

(** X4. [validate_workflow_parameters] accepts exactly when steps is an
    integer in [4,8], cfg is a number that compares neither below 1.0 nor
    above 5.0, and the seed is absent, an integer, the empty string or a
    string for which [isdigit] holds; it answers the empty message exactly
    when it accepts.  A non-empty string seed that it accepts is never
    replaced by a random seed in the injector: it is handed to [int], which
    parses it when it is made of at most 4300 decimal digits. *)
Theorem validator_accepts (steps cfg seed : value) :
  (fst (validate_workflow_parameters steps cfg seed) = true
   <-> steps_valid steps /\ ~ cfg_scale_invalid cfg /\ seed_accepted seed)
  /\ (fst (validate_workflow_parameters steps cfg seed) = true
      <-> snd (validate_workflow_parameters steps cfg seed) = Message "")
  /\ (forall s entropy,
        seed = VStr s -> s <> "" ->
        fst (validate_workflow_parameters steps cfg seed) = true ->
        resolve_seed seed entropy = rbind (py_int s) (fun z => Ok (VInt z))
        /\ (str_isdecimal s = true ->
            (length (code_points s) <= INT_MAX_STR_DIGITS)%nat ->
            resolve_seed seed entropy = Ok (VInt (str_decimal_value s)))).
Proof.
  rewrite validate_workflow_parameters_eq.
  pose proof (steps_rejected_spec steps) as Hs.
  pose proof (cfg_scale_rejected_spec cfg) as Hc.
  destruct (steps_rejected steps).
  { cbn [fst snd]. split; [|split].
    - split; [discriminate|]. intros [H _]. apply Hs in H. discriminate.
    - split; discriminate.
    - intros; discriminate. }
  destruct (cfg_scale_rejected cfg).
  { cbn [fst snd]. split; [|split].
    - split; [discriminate|]. intros (_ & H & _). exfalso. apply H, Hc. reflexivity.
    - split; discriminate.
    - intros; discriminate. }
  assert (Hsv : steps_valid steps) by (apply Hs; reflexivity).
  assert (Hcv : ~ cfg_scale_invalid cfg) by (intros H; apply Hc in H; discriminate).
  destruct seed as [|b|z|f|s|l]; cbn [isinstance_int negb truthy seed_accepted].
  - cbn [fst snd]. repeat split; auto; discriminate.
  - cbn [fst snd]. repeat split; auto; discriminate.
  - cbn [fst snd]. repeat split; auto; discriminate.
  - cbn [fst snd]. split; [|split].
    + split; [discriminate|]. intros (_ & _ & []).
    + split; discriminate.
    + intros; discriminate.
  - destruct s as [|c s].
    + cbn [String.eqb negb andb fst snd]. split; [|split].
      * split; auto.
      * split; auto.
      * intros s' e [= <-]. congruence.
    + change (negb (String.eqb (String c s) "")) with true. cbn [andb].
      destruct (str_isdigit (String c s)) eqn:Hd; cbn [negb fst snd].
      * split; [|split].
        -- split; auto.
        -- split; auto.
        -- intros s' e [= <-] _ _. split.
           ++ cbn [resolve_seed]. rewrite Hd. reflexivity.
           ++ intros Hdec Hlen. apply resolve_seed_decimal; assumption.
      * split; [|split].
        -- split; [discriminate|]. intros (_ & _ & [H|H]); discriminate.
        -- split; discriminate.
        -- intros; discriminate.
  - cbn [fst snd]. split; [|split].
    + split; [discriminate|]. intros (_ & _ & []).
    + split; discriminate.
    + intros; discriminate.
Qed.

(** ** Further properties of the polling loop *)

Lemma elapsed_before_grows je k : 1000 * Z.of_nat k <= Z.of_N (elapsed_before je k).
Proof. induction k as [|k IH]; simpl; lia. Qed.

Lemma elapsed_before_mono je j k :
  (j <= k)%nat -> (elapsed_before je j <= elapsed_before je k)%N.
Proof. induction 1 as [|k _ IH]; simpl; lia. Qed.

Lemma poll_guarded_Some je k b :
  poll_guarded je k = Some b ->
  exists image_info,
    shows_image je k image_info
    /\ je_view je (filename image_info) (default "" (subfolder image_info)) = Ok b.
Proof.
  unfold poll_guarded, poll_once, shows_image.
  destruct (je_poll je k) as [code|e|[h|]]; try discriminate.
  destruct (bool_decide (status_str h = Some "error")) eqn:Herr; [discriminate|].
  apply bool_decide_eq_false in Herr.
  destruct (outputs h !! "80") as [[|image_info rest]|] eqn:Hout; try discriminate.
  destruct (je_view je _ _) as [b'|e] eqn:Hview; [|discriminate].
  intros [= <-]. exists image_info. split; [|exact Hview]. eauto.
Qed.

Lemma shows_image_poll_guarded je k image_info b :
  shows_image je k image_info ->
  je_view je (filename image_info) (default "" (subfolder image_info)) = Ok b ->
  poll_guarded je k = Some b.
Proof.
  intros (h & rest & Hpoll & Herr & Hout) Hview.
  unfold poll_guarded, poll_once. rewrite Hpoll.
  rewrite bool_decide_eq_false_2 by exact Herr.
  rewrite Hout, Hview. reflexivity.
Qed.

Lemma poll_loop_outcome je timeout : forall fuel k elapsed,
  match poll_loop je timeout fuel k elapsed with
  | Returned b => exists j, poll_guarded je j = Some b
  | Raised e =>
      e = Exn TimeoutError
            ("Workflow execution timed out after " +:+ str_of_Z timeout +:+ " seconds")
  | Diverged => True
  end.
Proof.
  induction fuel as [|fuel IH]; intros k elapsed; simpl; [exact I|].
  destruct (Z.of_N elapsed <? 1000 * timeout); [|reflexivity].
  destruct (poll_guarded je k) as [b|] eqn:Hk; [eauto|apply IH].
Qed.

Lemma poll_loop_skip je timeout : forall n k fuel,
  (forall j, (k <= j < k + n)%nat -> poll_guarded je j = None) ->
  (forall j, (k <= j < k + n)%nat -> Z.of_N (elapsed_before je j) < 1000 * timeout) ->
  poll_loop je timeout (n + fuel) k (elapsed_before je k)
  = poll_loop je timeout fuel (k + n) (elapsed_before je (k + n)).
Proof.
  induction n as [|n IH]; intros k fuel Hpolls Htime.
  - rewrite Nat.add_0_r. reflexivity.
  - cbn [Nat.add poll_loop].
    destruct (Z.of_N (elapsed_before je k) <? 1000 * timeout) eqn:Hlt.
    2:{ apply Z.ltb_ge in Hlt. specialize (Htime k). lia. }
    rewrite Hpolls by lia.
    change (elapsed_before je k + 1000 + je_lap je k)%N with (elapsed_before je (S k)).
    rewrite IH.
    + rewrite Nat.add_succ_comm. reflexivity.
    + intros j Hj. apply Hpolls. lia.
    + intros j Hj. apply Htime. lia.
Qed.

(** X5. What a job can come to once the engine has accepted its graph:
    either it returns the bytes fetched for the first image that some poll
    showed for the save node "80", in an entry whose status is not an
    error, or it raises [TimeoutError].  An error status reported by the
    engine, a failed request for the history, or a failed download of the
    image never ends the job with another exception. *)
Theorem accepted_job_outcome
    (je : job_env) (workflow : gmap string node) (client_id output_prefix : string)
    (timeout : Z) (prompt_id : option string) :
  je_submit je = SubmitJSON prompt_id None ->
  (exists b k image_info,
      snd (_execute_workflow_via_api je workflow client_id output_prefix timeout)
      = Returned b
      /\ shows_image je k image_info
      /\ je_view je (filename image_info) (default "" (subfolder image_info)) = Ok b)
  \/ snd (_execute_workflow_via_api je workflow client_id output_prefix timeout)
     = Raised (Exn TimeoutError
                 ("Workflow execution timed out after " +:+ str_of_Z timeout +:+ " seconds")).
Proof.
  intros Hsubmit. unfold _execute_workflow_via_api. rewrite Hsubmit. cbn -[poll_loop].
  pose proof (poll_loop_outcome je timeout (S (Z.to_nat timeout)) 0 0) as Hout.
  pose proof (poll_loop_budget je timeout (S (Z.to_nat timeout)) 0 0) as Hfuel.
  destruct (poll_loop je timeout (S (Z.to_nat timeout)) 0 0) as [b|e|].
  - left. destruct Hout as [j Hj].
    destruct (poll_guarded_Some _ _ _ Hj) as (image_info & Hshow & Hview).
    exists b, j, image_info. auto.
  - right. rewrite Hout. reflexivity.
  - exfalso. apply Hfuel; [lia|lia|reflexivity].
Qed.

(** X6. The first image wins: when the [k]-th poll is the first one to show
    an image that can be fetched, and the loop reaches it before the
    deadline (the [k] iterations before it, a second of sleep and a lap
    each, took less than the timeout), the job returns the bytes of that
    image, the first of the list. *)
Theorem first_image_is_returned
    (je : job_env) (workflow : gmap string node) (client_id output_prefix : string)
    (timeout : Z) (prompt_id : option string) (k : nat) (image_info : image_info)
    (b : bytes) :
  je_submit je = SubmitJSON prompt_id None ->
  (forall j, (j < k)%nat -> poll_guarded je j = None) ->
  shows_image je k image_info ->
  je_view je (filename image_info) (default "" (subfolder image_info)) = Ok b ->
  Z.of_N (elapsed_before je k) < 1000 * timeout ->
  _execute_workflow_via_api je workflow client_id output_prefix timeout
  = ([EvPost client_id workflow], Returned b).
Proof.
  intros Hsubmit Hbefore Hshow Hview Htime.
  unfold _execute_workflow_via_api. rewrite Hsubmit. cbn -[poll_loop].
  pose proof (elapsed_before_grows je k) as Hgrow.
  replace (S (Z.to_nat timeout)) with (k + (S (Z.to_nat timeout) - k))%nat by lia.
  change 0%N with (elapsed_before je 0).
  rewrite poll_loop_skip.
  - destruct (S (Z.to_nat timeout) - k)%nat as [|fuel] eqn:Hfuel; [lia|].
    cbn [Nat.add poll_loop].
    destruct (Z.of_N (elapsed_before je k) <? 1000 * timeout) eqn:Hlt;
      [|apply Z.ltb_ge in Hlt; lia].
    rewrite (shows_image_poll_guarded _ _ _ _ Hshow Hview). reflexivity.
  - intros j Hj. apply Hbefore. lia.
  - intros j Hj. pose proof (elapsed_before_mono je j k ltac:(lia)). lia.
Qed.

Lemma poll_loop_deadline je timeout k :
  (forall j, (j < k)%nat -> poll_guarded je j = None) ->
  1000 * timeout <= Z.of_N (elapsed_before je k) ->
  forall fuel j,
    (1 <= fuel)%nat ->
    1000 * timeout <= Z.of_N (elapsed_before je j) + 1000 * (Z.of_nat fuel - 1) ->
    (j <= k)%nat ->
    poll_loop je timeout fuel j (elapsed_before je j)
    = Raised (Exn TimeoutError
                ("Workflow execution timed out after " +:+ str_of_Z timeout +:+ " seconds")).
Proof.
  intros Hbefore Hlate. induction fuel as [|fuel IH]; intros j Hfuel Hinv Hj; [lia|].
  cbn [poll_loop].
  destruct (Z.of_N (elapsed_before je j) <? 1000 * timeout) eqn:Hlt; [|reflexivity].
  apply Z.ltb_lt in Hlt.
  assert (j < k)%nat.
  { destruct (decide (j = k)) as [->|]; lia. }
  rewrite Hbefore by assumption.
  change (elapsed_before je j + 1000 + je_lap je j)%N with (elapsed_before je (S j)).
  apply IH; [lia| |lia]. cbn [elapsed_before]. lia.
Qed.

(** X7. The deadline is final: when no poll before the [k]-th returned an
    image and the [k] iterations before it already took the timeout or
    more, the job raises [TimeoutError], whatever the [k]-th and the later
    polls would show; with a timeout of zero or less no poll is made at
    all. *)
Theorem deadline_is_final
    (je : job_env) (workflow : gmap string node) (client_id output_prefix : string)
    (timeout : Z) (prompt_id : option string) (k : nat) :
  je_submit je = SubmitJSON prompt_id None ->
  (forall j, (j < k)%nat -> poll_guarded je j = None) ->
  1000 * timeout <= Z.of_N (elapsed_before je k) ->
  _execute_workflow_via_api je workflow client_id output_prefix timeout
  = ([EvPost client_id workflow],
     Raised (Exn TimeoutError
               ("Workflow execution timed out after " +:+ str_of_Z timeout +:+ " seconds"))).
Proof.
  intros Hsubmit Hbefore Hlate.
  unfold _execute_workflow_via_api. rewrite Hsubmit. cbn -[poll_loop].
  change 0%N with (elapsed_before je 0).
  rewrite (poll_loop_deadline je timeout k Hbefore Hlate); [reflexivity|lia| |lia].
  cbn [elapsed_before]. lia.
Qed.

(** ** Further properties of the endpoint *)

Lemma has_prompt_dec p : {has_prompt p} + {~ has_prompt p}.
Proof.
  destruct p as [|id name [prompt|]].
  - right. intros (? & ? & ? & ? & _). discriminate.
  - destruct (decide (prompt = "")) as [->|Hne].
    + right. intros (? & ? & ? & [= _ _ <-] & H). congruence.
    + left. eexists _, _, _. split; [reflexivity|exact Hne].
  - right. intros (? & ? & ? & ? & _). discriminate.
Qed.

Lemma check_perspectives_refused p rest i :
  ~ has_prompt p ->
  check_perspectives i (p :: rest)
  = Some (error_response 400 "validation_error" (perspective_error i p)).
Proof.
  intros Hp. destruct p as [|id name [prompt|]]; try reflexivity.
  destruct prompt as [|c prompt]; [reflexivity|].
  exfalso. apply Hp. eexists _, _, _. split; [reflexivity|discriminate].
Qed.

Lemma check_perspectives_accepted p rest i :
  has_prompt p -> check_perspectives i (p :: rest) = check_perspectives (S i) rest.
Proof.
  intros (id & name & prompt & -> & Hne).
  destruct prompt as [|c prompt]; [congruence|reflexivity].
Qed.

Lemma check_perspectives_first perspectives : forall i n p,
  perspectives !! n = Some p ->
  Forall has_prompt (take n perspectives) ->
  ~ has_prompt p ->
  check_perspectives i perspectives
  = Some (error_response 400 "validation_error" (perspective_error (i + n) p)).
Proof.
  induction perspectives as [|q rest IH]; intros i n p Hn Hbefore Hp.
  - rewrite lookup_nil in Hn. discriminate.
  - destruct n as [|n].
    + injection Hn as <-. rewrite Nat.add_0_r. apply check_perspectives_refused, Hp.
    + cbn [take] in Hbefore. apply Forall_cons in Hbefore as [Hq Hbefore].
      rewrite (check_perspectives_accepted _ _ _ Hq), <- Nat.add_succ_comm.
      apply IH; assumption.
Qed.

Lemma check_perspectives_inv perspectives : forall i,
  match check_perspectives i perspectives with
  | None => Forall has_prompt perspectives
  | Some resp =>
      exists n p,
        perspectives !! n = Some p /\ Forall has_prompt (take n perspectives)
        /\ ~ has_prompt p
        /\ resp = error_response 400 "validation_error" (perspective_error (i + n) p)
  end.
Proof.
  induction perspectives as [|q rest IH]; intros i; [constructor|].
  destruct (has_prompt_dec q) as [Hq|Hq].
  - rewrite (check_perspectives_accepted _ _ _ Hq). specialize (IH (S i)).
    destruct (check_perspectives (S i) rest) as [resp|].
    + destruct IH as (n & p & Hn & Hbefore & Hp & ->).
      exists (S n), p. rewrite <- Nat.add_succ_comm. cbn [take].
      repeat split; auto.
    + constructor; assumption.
  - rewrite (check_perspectives_refused _ _ _ Hq).
    exists 0%nat, q. rewrite Nat.add_0_r. cbn [take]. repeat split; auto.
Qed.

(** The checks of [generate], one after the other. *)
Lemma generate_eq ge request :
  generate ge request
  = if negb (ge_healthy ge)
    then mret (error_response 503 "service_unavailable" "AI 服务暂时不可用，请稍后重试")
    else if negb (truthy (req_image request))
    then mret (error_response 400 "validation_error" "image is required")
    else
      match decode_value (req_image request) with
      | Raise e =>
          mret (error_response 400 "invalid_image" ("无效的 base64 图片数据: " +:+ exn_text e))
      | Ok data =>
          if (length data <? 100)%nat
          then mret (error_response 400 "invalid_image"
                       ("无效的 base64 图片数据: " +:+ "Image data too small"))
          else if negb (perspectives_truthy (req_perspectives_value request))
          then mret (error_response 400 "validation_error"
                       "at least one perspective is required")
          else
            match req_perspectives_value request with
            | PerspectivesScalar sc => raise (not_iterable_error sc)
            | PerspectivesList items =>
                match check_perspectives 0 items with
                | Some resp => mret resp
                | None =>
                    if steps_rejected (steps_of request)
                    then mret (error_response 400 "invalid_params"
                                 "steps must be an integer between 4 and 8")
                    else if cfg_scale_rejected (cfg_scale_of request)
                    then mret (error_response 400 "invalid_params"
                                 "cfg_scale must be a number between 1.0 and 5.0")
                    else generate_loop ge (req_image request) (steps_of request)
                           (cfg_scale_of request) (req_seed request) 0 items []
                end
            end
      end.
Proof.
  unfold generate.
  destruct (ge_healthy ge); [|reflexivity]. cbn [negb].
  destruct (truthy (req_image request)); [|reflexivity]. cbn [negb].
  destruct (decode_value (req_image request)) as [data|e]; [|reflexivity]. cbn [rbind].
  destruct (length data <? 100)%nat; reflexivity.
Qed.

(** Either [generate] answers at once, with one of the early answers and an
    empty log, or it raises at once because the perspectives cannot be
    iterated, or the request passed every check and the answer is the one
    of the batch loop. *)
Lemma generate_inversion ge request :
  (exists status error message,
      generate ge request = ([], Returned (error_response status error message))
      /\ (status, error) ∈ early_answers)
  \/ (exists sc,
        req_perspectives_value request = PerspectivesScalar sc
        /\ generate ge request = ([], Raised (not_iterable_error sc)))
  \/ (ge_healthy ge = true /\ validated request
      /\ generate ge request
         = generate_loop ge (req_image request) (steps_of request) (cfg_scale_of request)
             (req_seed request) 0 (req_perspectives request) []).
Proof.
  rewrite generate_eq.
  destruct (ge_healthy ge) eqn:Hhealthy; cbn [negb].
  2:{ left. eexists _, _, _. split; [reflexivity|]. unfold early_answers. set_solver. }
  destruct (truthy (req_image request)) eqn:Htruthy; cbn [negb].
  2:{ left. eexists _, _, _. split; [reflexivity|]. unfold early_answers. set_solver. }
  destruct (decode_value (req_image request)) as [data|e] eqn:Hdec.
  2:{ left. eexists _, _, _. split; [reflexivity|]. unfold early_answers. set_solver. }
  destruct (length data <? 100)%nat eqn:Hlen.
  { left. eexists _, _, _. split; [reflexivity|]. unfold early_answers. set_solver. }
  destruct (perspectives_truthy (req_perspectives_value request)) eqn:Hpt; cbn [negb].
  2:{ left. eexists _, _, _. split; [reflexivity|]. unfold early_answers. set_solver. }
  destruct (req_perspectives_value request) as [items|sc] eqn:Hpv.
  2:{ right. left. exists sc. split; reflexivity. }
  assert (Hitems : req_perspectives request = items).
  { unfold req_perspectives. rewrite Hpv. reflexivity. }
  assert (Hne : items <> []) by (intros ->; discriminate).
  pose proof (check_perspectives_inv items 0) as Hcheck.
  destruct (check_perspectives 0 items) as [resp|] eqn:Hc.
  { left. destruct Hcheck as (n & p & _ & _ & _ & ->).
    eexists _, _, _. split; [reflexivity|]. unfold early_answers. set_solver. }
  destruct (steps_rejected (steps_of request)) eqn:Hsteps.
  { left. eexists _, _, _. split; [reflexivity|]. unfold early_answers. set_solver. }
  destruct (cfg_scale_rejected (cfg_scale_of request)) eqn:Hcfg.
  { left. eexists _, _, _. split; [reflexivity|]. unfold early_answers. set_solver. }
  right. right. split; [reflexivity|]. rewrite Hitems. split; [|reflexivity].
  constructor; [|rewrite Hitems; split; assumption| |exact Hcfg].
  - destruct (req_image request) as [| | | |s|] eqn:Himg; try discriminate.
    exists s, data. split; [reflexivity|]. split.
    + intros ->. discriminate.
    + split; [exact Hdec|]. apply Nat.ltb_ge in Hlen. exact Hlen.
  - apply steps_rejected_spec in Hsteps. exact Hsteps.
Qed.

(** A job posts nothing, or exactly the graph built from its arguments. *)
Lemma infer_single_log je input_image_base64 prompt steps cfg seed output_prefix :
  fst (infer_single je input_image_base64 prompt steps cfg seed output_prefix) = []
  \/ exists workflow,
       create_workflow ("input_" +:+ je_client_id je +:+ ".png") prompt steps cfg seed
         (output_prefix +:+ "_" +:+ je_client_id je) (je_entropy je) = Ok workflow
       /\ fst (infer_single je input_image_base64 prompt steps cfg seed output_prefix)
          = [EvPost (je_client_id je) workflow].
Proof.
  unfold infer_single.
  destruct (je_healthy je); simpl; [|left; reflexivity].
  destruct (rbind _ _); [|left; reflexivity].
  destruct (create_workflow _ _ _ _ _ _ _) as [workflow|e]; [|left; reflexivity].
  destruct (je_save_workflow je) as [[]|e]; [|left; reflexivity].
  right. exists workflow. split; [reflexivity|].
  unfold _execute_workflow_via_api.
  destruct (je_submit je) as [text|e|prompt_id [err|]]; cbn -[poll_loop]; try reflexivity.
  - destruct (exn_kind e); reflexivity.
  - destruct (poll_loop je 120 _ 0 0) as [b'|e|]; cbn; try reflexivity.
    destruct (exn_kind e); reflexivity.
Qed.

(** The jobs of a list of accepted perspectives: all return, or there is a
    first one that raises. *)
Lemma first_failure ge request : forall (perspectives : list perspective) i,
  (forall k p, perspectives !! k = Some p ->
     exists b, snd (job ge request (i + k) p) = Returned b)
  \/ (exists n p e,
        perspectives !! n = Some p
        /\ (forall k q, (k < n)%nat -> perspectives !! k = Some q ->
              exists b, snd (job ge request (i + k) q) = Returned b)
        /\ snd (job ge request (i + n) p) = Raised e).
Proof.
  induction perspectives as [|p0 rest IH]; intros i.
  - left. intros k p Hk. rewrite lookup_nil in Hk. discriminate.
  - pose proof (infer_single_never_diverges (ge_job ge i) (req_image request) (prompt_of p0)
                  (steps_of request) (cfg_scale_of request) (req_seed request)
                  ("qwen_" +:+ perspective_id_of i p0)) as Hnd.
    fold (job ge request i p0) in Hnd.
    destruct (snd (job ge request i p0)) as [b|e|] eqn:Hjob; [| |congruence].
    + destruct (IH (S i)) as [Hall|(n & p & e & Hn & Hbefore & He)].
      * left. intros [|k] p Hk.
        -- injection Hk as <-. rewrite Nat.add_0_r. eauto.
        -- rewrite <- Nat.add_succ_comm. apply Hall. exact Hk.
      * right. exists (S n), p, e. split; [exact Hn|]. split.
        -- intros [|k] q Hk Hq.
           ++ injection Hq as <-. rewrite Nat.add_0_r. eauto.
           ++ rewrite <- Nat.add_succ_comm. apply Hbefore; [lia|exact Hq].
        -- rewrite <- Nat.add_succ_comm. exact He.
    + right. exists 0%nat, p0, e. rewrite Nat.add_0_r.
      split; [reflexivity|]. split; [intros k q Hk; lia|exact Hjob].
Qed.

(** The ways in which a call of [generate] ends. *)
Lemma generate_cases ge request :
  (exists status error message,
      generate ge request = ([], Returned (error_response status error message))
      /\ (status, error) ∈ early_answers)
  \/ (exists sc,
        req_perspectives_value request = PerspectivesScalar sc
        /\ generate ge request = ([], Raised (not_iterable_error sc)))
  \/ (ge_healthy ge = true /\ validated request
      /\ exists log images,
           (generate ge request
            = (log, Returned (JSONResponse 200
                                (ImagesBody images (ge_total_time ge) (req_image request))))
            \/ generate ge request
               = (log, Raised (Exn ValueError
                                 "Out of range float values are not JSON compliant")))
           /\ length images = length (req_perspectives request)
           /\ (forall k p, req_perspectives request !! k = Some p ->
                 exists b, snd (job ge request k p) = Returned b
                           /\ images !! k = Some (entry_of request k p b))
           /\ jobs_started log = seq 0 (length (req_perspectives request))
           /\ length (posted log) = length (req_perspectives request)
           /\ (forall k p, req_perspectives request !! k = Some p ->
                 exists g, posted log !! k = Some g /\ job_graph ge request k p = Ok g))
  \/ (ge_healthy ge = true /\ validated request
      /\ exists log n p e,
           generate ge request
           = (log, Returned (failure_response (perspective_name_of n p) e))
           /\ req_perspectives request !! n = Some p
           /\ (forall k q, (k < n)%nat -> req_perspectives request !! k = Some q ->
                 exists b, snd (job ge request k q) = Returned b)
           /\ snd (job ge request n p) = Raised e
           /\ jobs_started log = seq 0 (S n)).
Proof.
  destruct (generate_inversion ge request) as [Hearly|[Hraise|(Hhealthy & Hvalid & Hloop)]];
    [left; exact Hearly|right; left; exact Hraise|right; right].
  destruct (first_failure ge request (req_perspectives request) 0)
    as [Hall|(n & p & e & Hn & Hbefore & He)].
  - left. split; [exact Hhealthy|]. split; [exact Hvalid|].
    destruct (generate_success ge request Hhealthy Hvalid Hall)
      as (log & images & Heq & Hlen & Himages & Hstarted & Hposted & Hgraphs & _).
    exists log, images. split; [|repeat split; assumption].
    rewrite Heq. unfold render_response. destruct (body_renders _); [left|right]; reflexivity.
  - right. split; [exact Hhealthy|]. split; [exact Hvalid|].
    destruct (generate_loop_failure ge request (req_perspectives request) 0 [] n p e)
      as (log & Heq & Hstarted); try assumption; [apply Hvalid|].
    exists log, n, p, e. rewrite Hloop. repeat split; assumption.
Qed.

(** X8. No partial result: whenever [generate] answers with a list of images,
    the status is 200, the request had passed every check, the list has
    one entry per perspective, in the order of the request, and every
    job returned; the entry at index [k] carries the image that the job of
    the perspective at index [k] returned. *)
Theorem success_is_complete
    (ge : gen_env) (request : request) (log : list event) (resp : response)
    (images : list image_entry) (total_time : float) (original_image : value) :
  generate ge request = (log, Returned resp) ->
  content resp = ImagesBody images total_time original_image ->
  status_code resp = 200
  /\ original_image = req_image request
  /\ ge_healthy ge = true /\ validated request
  /\ length images = length (req_perspectives request)
  /\ forall k p, req_perspectives request !! k = Some p ->
       exists b, snd (job ge request k p) = Returned b
                 /\ images !! k
                    = Some (ImageEntry (perspective_id_of k p) (perspective_name_of k p)
                              (b64encode b) (reported_seed (req_seed request))).
Proof.
  intros Hgen Hcontent.
  destruct (generate_cases ge request)
    as [(status & error & message & Heq & _)
       |[(sc & _ & Heq)
        |[(Hhealthy & Hvalid & log' & images' & [Heq|Heq] & Hlen & Himages & _)
         |(_ & _ & log' & n & p & e & Heq & _)]]];
    rewrite Heq in Hgen; try discriminate Hgen; injection Hgen as <- <-.
  - discriminate.
  - injection Hcontent as <- <- <-.
    split; [reflexivity|]. split; [reflexivity|]. split; [exact Hhealthy|].
    split; [exact Hvalid|]. split; [exact Hlen|]. exact Himages.
  - unfold failure_response in Hcontent. destruct (exn_kind e); discriminate.
Qed.

(** X9. Nothing is started for a request that fails a check: whenever the
    log of a call is not empty, the server was healthy and the request had
    an accepted image, a non-empty list of perspectives that all have a
    prompt, valid steps and an accepted cfg_scale. *)
Theorem jobs_only_after_validation (ge : gen_env) (request : request) :
  fst (generate ge request) <> [] ->
  ge_healthy ge = true /\ validated request.
Proof.
  intros Hlog.
  destruct (generate_inversion ge request)
    as [(status & error & message & Heq & _)|[(sc & _ & Heq)|(Hhealthy & Hvalid & _)]].
  - rewrite Heq in Hlog. exfalso. apply Hlog. reflexivity.
  - rewrite Heq in Hlog. exfalso. apply Hlog. reflexivity.
  - split; assumption.
Qed.

(** X10. The code of an error says what happened: [generate] answers with
    the code timeout exactly when the first job that raised did so with a
    [TimeoutError], and with generation_error exactly when it raised
    anything else; in both cases every job before it had returned and none
    after it was started. *)
Theorem error_code_is_exact
    (ge : gen_env) (request : request) (log : list event) (resp : response)
    (error message : string) :
  generate ge request = (log, Returned resp) ->
  content resp = ErrorBody error message ->
  error = "timeout" \/ error = "generation_error" ->
  exists n p e,
    req_perspectives request !! n = Some p
    /\ (forall k q, (k < n)%nat -> req_perspectives request !! k = Some q ->
          exists b, snd (job ge request k q) = Returned b)
    /\ snd (job ge request n p) = Raised e
    /\ (error = "timeout" <-> exn_kind e = TimeoutError)
    /\ (error = "timeout" -> status_code resp = 504)
    /\ (error = "generation_error" -> status_code resp = 500)
    /\ jobs_started log = seq 0 (S n).
Proof.
  intros Hgen Hcontent Herror.
  destruct (generate_cases ge request)
    as [(status & err & msg & Heq & Hin)
       |[(sc & _ & Heq)
        |[(_ & _ & log' & images' & [Heq|Heq] & _)
         |(_ & _ & log' & n & p & e & Heq & Hn & Hbefore & He & Hstarted)]]];
    rewrite Heq in Hgen; try discriminate Hgen; injection Hgen as <- <-.
  - injection Hcontent as <- <-. unfold early_answers in Hin.
    rewrite !elem_of_cons, elem_of_nil in Hin.
    destruct Herror as [->| ->];
      destruct Hin as [H|[H|[H|[H|[]]]]]; discriminate.
  - discriminate.
  - exists n, p, e. split; [exact Hn|]. split; [exact Hbefore|]. split; [exact He|].
    unfold failure_response in *.
    destruct (exn_kind e); injection Hcontent as <- <-;
      (split; [split; intros; (discriminate || reflexivity)|]);
      (split; [intros; (discriminate || reflexivity)|]);
      (split; [intros; (discriminate || reflexivity)|exact Hstarted]).
Qed.

Lemma generate_loop_log ge request : forall (perspectives : list perspective) i generated_images,
  exists m,
    (m <= length perspectives)%nat
    /\ jobs_started
         (fst (generate_loop ge (req_image request) (steps_of request) (cfg_scale_of request)
                 (req_seed request) i perspectives generated_images))
       = seq i m
    /\ (length (posted
                  (fst (generate_loop ge (req_image request) (steps_of request)
                          (cfg_scale_of request) (req_seed request) i perspectives
                          generated_images))) <= m)%nat
    /\ forall k g,
         posted (fst (generate_loop ge (req_image request) (steps_of request)
                        (cfg_scale_of request) (req_seed request) i perspectives
                        generated_images)) !! k = Some g ->
         exists p, perspectives !! k = Some p /\ job_graph ge request (i + k) p = Ok g.
Proof.
  induction perspectives as [|p0 rest IH]; intros i generated_images.
  - exists 0%nat. cbn [generate_loop]. rewrite render_response_log. cbn [fst].
    split; [reflexivity|]. split; [reflexivity|]. split; [reflexivity|].
    intros k g Hk. destruct k; discriminate.
  - destruct p0 as [|id name prompt].
    { exists 0%nat. cbn. repeat split; auto with arith. intros k g Hk.
      rewrite lookup_nil in Hk. discriminate. }
    pose proof (infer_single_log (ge_job ge i) (req_image request) (default "" prompt)
                  (steps_of request) (cfg_scale_of request) (req_seed request)
                  ("qwen_" +:+ default (str_of_nat i) id)) as Hlog.
    pose proof (infer_single_never_diverges (ge_job ge i) (req_image request)
                  (default "" prompt) (steps_of request) (cfg_scale_of request)
                  (req_seed request) ("qwen_" +:+ default (str_of_nat i) id)) as Hnd.
    destruct (infer_single (ge_job ge i) (req_image request) (default "" prompt)
                (steps_of request) (cfg_scale_of request) (req_seed request)
                ("qwen_" +:+ default (str_of_nat i) id)) as [l o] eqn:Hjob.
    cbn [fst snd] in Hlog, Hnd.
    destruct o as [b|e|]; [| |congruence].
    + rewrite (generate_loop_cons_returned _ _ _ _ _ _ _ _ _ _ _ _ _ Hjob).
      destruct (infer_single_returned _ _ _ _ _ _ _ _ _ Hjob) as (g0 & Hg0 & ->).
      destruct (IH (S i)
                  (generated_images ++
                     [ImageEntry (default (str_of_nat i) id)
                        (default ("视角" +:+ str_of_nat (i + 1)) name)
                        (b64encode b) (reported_seed (req_seed request))]))
        as (m & Hm & Hstarted & Hposted & Hgraphs).
      destruct (generate_loop _ _ _ _ _ _ _ _) as [l' o'] eqn:Hrest.
      cbn [fst] in *. exists (S m). split; [simpl; lia|].
      split; [simpl; rewrite Hstarted; reflexivity|].
      split; [simpl; lia|].
      intros [|k] g Hk.
      * injection Hk as <-. exists (PObject id name prompt).
        rewrite Nat.add_0_r. split; [reflexivity|exact Hg0].
      * rewrite <- Nat.add_succ_comm. apply Hgraphs. exact Hk.
    + rewrite (generate_loop_cons_raised _ _ _ _ _ _ _ _ _ _ _ _ _ Hjob).
      cbn [fst]. exists 1%nat. split; [simpl; lia|].
      destruct Hlog as [->|(g0 & Hg0 & ->)].
      * split; [reflexivity|]. split; [simpl; lia|].
        intros k g Hk. destruct k; discriminate.
      * split; [reflexivity|]. split; [simpl; lia|].
        intros [|k] g Hk; [|destruct k; discriminate].
        injection Hk as <-. exists (PObject id name prompt).
        rewrite Nat.add_0_r. split; [reflexivity|exact Hg0].
Qed.

(** X11. One attempt per perspective, in order: in every call the jobs
    started are those of the indices 0, 1, ..., m-1 for some m that does
    not exceed the number of perspectives, each once, and at most one graph
    is posted per job started. *)
Theorem one_attempt_per_perspective (ge : gen_env) (request : request) :
  exists m,
    (m <= length (req_perspectives request))%nat
    /\ jobs_started (fst (generate ge request)) = seq 0 m
    /\ (length (posted (fst (generate ge request))) <= m)%nat.
Proof.
  destruct (generate_inversion ge request)
    as [(status & error & message & Heq & _)|[(sc & _ & Heq)|(_ & _ & Heq)]]; rewrite Heq.
  - exists 0%nat. cbn. repeat split; lia.
  - exists 0%nat. cbn. repeat split; lia.
  - destruct (generate_loop_log ge request (req_perspectives request) 0 [])
      as (m & Hm & Hstarted & Hposted & _).
    exists m. repeat split; assumption.
Qed.

Lemma create_workflow_fields input_image prompt steps cfg seed output_prefix entropy g :
  create_workflow input_image prompt steps cfg seed output_prefix entropy = Ok g ->
  input_of g "31" "image" = Some (VStr input_image)
  /\ input_of g "115" "text" = Some (VStr prompt)
  /\ input_of g "14" "steps" = Some steps
  /\ input_of g "14" "cfg" = Some cfg
  /\ input_of g "80" "filename_prefix" = Some (VStr output_prefix)
  /\ dom g = dom get_workflow_template.
Proof.
  unfold create_workflow. rewrite inject_workflow_parameters_eq.
  destruct (resolve_seed seed entropy) as [sv|e]; [|discriminate].
  intros [= <-].
  assert (H31 : is_Some (get_workflow_template !! "31")) by (vm_compute; eauto).
  assert (H115 : is_Some (get_workflow_template !! "115")) by (vm_compute; eauto).
  assert (H14 : is_Some (get_workflow_template !! "14")) by (vm_compute; eauto).
  assert (H80 : is_Some (get_workflow_template !! "80")) by (vm_compute; eauto).
  unfold injected.
  repeat split; try (through_stores; reflexivity);
    try (rewrite !store_input_dom; reflexivity).
Qed.

(** X12. What reaches the engine: every graph in the log of a call is the
    graph of the perspective at the same index; it has the nodes of the
    template and holds that perspective's prompt, the steps and the
    cfg_scale of the request, the name of the input file written for that
    job, and an output prefix made of the perspective's id and the job's
    client id. *)
Theorem posted_graph_fidelity
    (ge : gen_env) (request : request) (k : nat) (g : gmap string node) :
  posted (fst (generate ge request)) !! k = Some g ->
  exists p,
    req_perspectives request !! k = Some p
    /\ input_of g "115" "text" = Some (VStr (prompt_of p))
    /\ input_of g "14" "steps" = Some (steps_of request)
    /\ input_of g "14" "cfg" = Some (cfg_scale_of request)
    /\ input_of g "31" "image"
       = Some (VStr ("input_" +:+ je_client_id (ge_job ge k) +:+ ".png"))
    /\ input_of g "80" "filename_prefix"
       = Some (VStr (("qwen_" +:+ perspective_id_of k p) +:+ "_"
                     +:+ je_client_id (ge_job ge k)))
    /\ dom g = dom get_workflow_template.
Proof.
  intros Hk.
  destruct (generate_inversion ge request)
    as [(status & error & message & Heq & _)|[(sc & _ & Heq)|(_ & _ & Heq)]];
    rewrite Heq in Hk.
  - destruct k; discriminate.
  - destruct k; discriminate.
  - destruct (generate_loop_log ge request (req_perspectives request) 0 [])
      as (m & _ & _ & _ & Hgraphs).
    destruct (Hgraphs k g Hk) as (p & Hp & Hg). cbn [Nat.add] in Hg.
    exists p. split; [exact Hp|].
    unfold job_graph in Hg.
    destruct (create_workflow_fields _ _ _ _ _ _ _ _ Hg) as (H31 & H115 & Hs & Hc & H80 & Hd).
    repeat split; assumption.
Qed.

(** X13. The first refused perspective is the one reported: when the server
    is healthy and the image is accepted, and the perspective at index [n]
    is the first that is not an object or has no prompt, the call answers
    400 validation_error with a message that gives the index [n], starts
    no job, and does not look at steps, cfg_scale or seed. *)
Theorem first_invalid_perspective
    (ge : gen_env) (request : request) (n : nat) (p : perspective) :
  ge_healthy ge = true ->
  image_accepted request ->
  req_perspectives request !! n = Some p ->
  Forall has_prompt (take n (req_perspectives request)) ->
  ~ has_prompt p ->
  generate ge request
  = ([], Returned (error_response 400 "validation_error"
                     (match p with
                      | PNotObject =>
                          "perspective[" +:+ str_of_nat n +:+ "] must be an object"
                      | PObject _ _ _ =>
                          "perspective[" +:+ str_of_nat n +:+ "].prompt is required"
                      end))).
Proof.
  intros Hhealthy (s & data & Himg & Hs & Hdec & Hlen) Hn Hbefore Hp.
  assert (Hne : req_perspectives request <> []).
  { intros Hnil. rewrite Hnil, lookup_nil in Hn. discriminate. }
  destruct (perspectives_list request Hne) as [Hlist Htruthy].
  rewrite generate_eq, Hhealthy, Himg. cbn [negb truthy decode_value].
  destruct s as [|c s]; [congruence|].
  change (negb (String.eqb (String c s) "")) with true. cbn [negb].
  rewrite Hdec.
  destruct (length data <? 100)%nat eqn:Hlt; [apply Nat.ltb_lt in Hlt; lia|].
  rewrite Htruthy, Hlist. cbn [negb].
  rewrite (check_perspectives_first _ 0 n p Hn Hbefore Hp). reflexivity.
Qed.

(** Which check answers: the checks are made in a fixed order and the first
    that fails decides the answer. *)
Lemma generate_checks ge request :
  (ge_healthy ge = false
   /\ answer_code (generate ge request) = Some "service_unavailable")
  \/ (ge_healthy ge = true /\ truthy (req_image request) = false
      /\ answer_code (generate ge request) = Some "validation_error")
  \/ (ge_healthy ge = true /\ truthy (req_image request) = true
      /\ ~ image_accepted request
      /\ answer_code (generate ge request) = Some "invalid_image")
  \/ (ge_healthy ge = true /\ image_accepted request /\ ~ perspectives_accepted request
      /\ ~ perspectives_not_iterable request
      /\ answer_code (generate ge request) = Some "validation_error")
  \/ (ge_healthy ge = true /\ image_accepted request
      /\ exists sc,
           req_perspectives_value request = PerspectivesScalar sc
           /\ truthy (scalar_value sc) = true
           /\ generate ge request = ([], Raised (not_iterable_error sc)))
  \/ (reaches_parameters ge request
      /\ (~ steps_valid (steps_of request) \/ cfg_scale_invalid (cfg_scale_of request))
      /\ answer_code (generate ge request) = Some "invalid_params")
  \/ (ge_healthy ge = true /\ validated request
      /\ (answer_code (generate ge request) = None
          \/ answer_code (generate ge request) = Some "timeout"
          \/ answer_code (generate ge request) = Some "generation_error")).
Proof.
  rewrite generate_eq.
  destruct (ge_healthy ge) eqn:Hhealthy; cbn [negb].
  2:{ left. split; reflexivity. }
  right.
  destruct (truthy (req_image request)) eqn:Htruthy; cbn [negb].
  2:{ left. repeat split. }
  right.
  assert (Hacc : forall s data, req_image request = VStr s -> b64decode s = Ok data ->
                   (100 <= length data)%nat -> image_accepted request).
  { intros s data Himg Hdec Hlen. exists s, data. repeat split; auto.
    intros ->. rewrite Himg in Htruthy. discriminate. }
  destruct (decode_value (req_image request)) as [data|e] eqn:Hdec.
  2:{ left. repeat split.
      intros (s & data & Himg & _ & Hd & _). rewrite Himg in Hdec. cbn in Hdec. congruence. }
  destruct (length data <? 100)%nat eqn:Hlen.
  { left. repeat split.
    intros (s & data' & Himg & _ & Hd & Hl). rewrite Himg in Hdec. cbn in Hdec.
    apply Nat.ltb_lt in Hlen. rewrite Hd in Hdec. injection Hdec as ->. lia. }
  right.
  assert (Himage : image_accepted request).
  { destruct (req_image request) as [| | | |s|] eqn:Himg; try discriminate.
    apply (Hacc s data); [reflexivity|exact Hdec|]. apply Nat.ltb_ge in Hlen. exact Hlen. }
  destruct (perspectives_truthy (req_perspectives_value request)) eqn:Hpt; cbn [negb].
  2:{ left. split; [reflexivity|]. split; [exact Himage|]. split; [|split; [|reflexivity]].
      - intros [Hne _]. destruct (perspectives_list request Hne) as [_ Ht]. congruence.
      - intros (sc & Hsc & Ht). rewrite Hsc in Hpt. cbn in Hpt. congruence. }
  destruct (req_perspectives_value request) as [items|sc] eqn:Hpv.
  2:{ right. left. split; [reflexivity|]. split; [exact Himage|].
      exists sc. split; [reflexivity|]. split; [exact Hpt|reflexivity]. }
  assert (Hitems : req_perspectives request = items).
  { unfold req_perspectives. rewrite Hpv. reflexivity. }
  assert (Hne : items <> []) by (intros ->; discriminate).
  pose proof (check_perspectives_inv items 0) as Hcheck.
  destruct (check_perspectives 0 items) as [resp|] eqn:Hc.
  { left. destruct Hcheck as (n & p & Hn & Hbefore & Hp & ->).
    split; [reflexivity|]. split; [exact Himage|]. split; [|split; [|reflexivity]].
    - intros [_ Hall]. rewrite Hitems in Hall. apply Hp.
      rewrite Forall_lookup in Hall. apply (Hall n p Hn).
    - intros (sc & Hsc & _). congruence. }
  right. right.
  assert (Hreach : reaches_parameters ge request).
  { constructor; [exact Hhealthy|exact Himage|].
    rewrite Hitems. split; assumption. }
  pose proof (steps_rejected_spec (steps_of request)) as Hss.
  pose proof (cfg_scale_rejected_spec (cfg_scale_of request)) as Hcs.
  destruct (steps_rejected (steps_of request)) eqn:Hsteps.
  { left. split; [exact Hreach|]. split; [|reflexivity].
    left. intros H. apply Hss in H. discriminate. }
  destruct (cfg_scale_rejected (cfg_scale_of request)) eqn:Hcfg.
  { left. split; [exact Hreach|]. split; [|reflexivity].
    right. apply Hcs. reflexivity. }
  right. split; [reflexivity|].
  assert (Hvalid : validated request).
  { destruct Hreach as [_ Hi Hp]. constructor; [exact Hi|exact Hp| |exact Hcfg].
    apply Hss. reflexivity. }
  split; [exact Hvalid|]. rewrite <- Hitems.
  destruct (first_failure ge request (req_perspectives request) 0)
    as [Hall|(n & p & e & Hn & Hbefore & He)].
  - destruct (generate_loop_success ge request (req_perspectives request) 0 [])
      as (log & images & Heq & _); [apply Hvalid|exact Hall|].
    left. unfold answer_code. rewrite Heq. cbn [snd]. unfold render_response.
    destruct (body_renders _); reflexivity.
  - destruct (generate_loop_failure ge request (req_perspectives request) 0 [] n p e)
      as (log & Heq & _); try assumption; [apply Hvalid|].
    right. unfold answer_code. rewrite Heq. cbn [snd]. unfold failure_response.
    destruct (exn_kind e); cbn; auto.
Qed.

Lemma image_accepted_truthy request :
  image_accepted request -> truthy (req_image request) = true.
Proof.
  intros (s & data & -> & Hs & _). destruct s; [congruence|reflexivity].
Qed.

Lemma not_iterable_not_accepted request :
  perspectives_not_iterable request -> ~ perspectives_accepted request.
Proof.
  intros (sc & Hsc & _) [Hne _]. apply Hne. unfold req_perspectives. rewrite Hsc.
  reflexivity.
Qed.

(** X14. The checks of [generate] and their order, read from the answer: the
    code service_unavailable is given exactly when the health check fails;
    invalid_image exactly when the server is healthy and the image is
    truthy but is not a string that decodes to at least 100 bytes;
    validation_error exactly when the server is healthy and the image is
    missing or empty, or the image is accepted and the perspectives are
    neither a non-empty list of objects with a prompt nor a truthy value
    that cannot be iterated; for such a value, with a healthy server and
    an accepted image, and only then, the call raises the [TypeError] of
    [enumerate] with an empty log; invalid_params is given exactly when all
    of these checks pass and steps or cfg_scale is refused. *)
Theorem answer_conditions (ge : gen_env) (request : request) :
  (answer_code (generate ge request) = Some "service_unavailable"
   <-> ge_healthy ge = false)
  /\ (answer_code (generate ge request) = Some "invalid_image"
      <-> ge_healthy ge = true /\ truthy (req_image request) = true
          /\ ~ image_accepted request)
  /\ (answer_code (generate ge request) = Some "validation_error"
      <-> ge_healthy ge = true
          /\ (truthy (req_image request) = false
              \/ (image_accepted request /\ ~ perspectives_accepted request
                  /\ ~ perspectives_not_iterable request)))
  /\ ((exists sc, generate ge request = ([], Raised (not_iterable_error sc)))
      <-> ge_healthy ge = true /\ image_accepted request
          /\ perspectives_not_iterable request)
  /\ (answer_code (generate ge request) = Some "invalid_params"
      <-> reaches_parameters ge request
          /\ (~ steps_valid (steps_of request)
              \/ cfg_scale_invalid (cfg_scale_of request))).
Proof.
  pose proof (image_accepted_truthy request) as Htr.
  pose proof (not_iterable_not_accepted request) as Hni.
  assert (Hreach : reaches_parameters ge request ->
            ge_healthy ge = true /\ image_accepted request /\ perspectives_accepted request).
  { intros [H1 H2 H3]. split; [exact H1|]. split; [exact H2|exact H3]. }
  assert (Hval : validated request ->
            image_accepted request /\ perspectives_accepted request
            /\ steps_valid (steps_of request)
            /\ ~ cfg_scale_invalid (cfg_scale_of request)).
  { intros [H1 H2 H3 H4]. split; [exact H1|]. split; [exact H2|]. split; [exact H3|].
    intros Hc. apply cfg_scale_rejected_spec in Hc. congruence. }
  assert (Hraised : forall sc c,
            generate ge request = ([], Raised (not_iterable_error sc)) ->
            answer_code (generate ge request) = Some c -> False).
  { intros sc c Heq Hcode. rewrite Heq in Hcode. discriminate. }
  assert (Hraised_valid : forall sc,
            generate ge request = ([], Raised (not_iterable_error sc)) ->
            ge_healthy ge = true -> validated request -> False).
  { intros sc Heq Hh Hv.
    destruct (generate_inversion ge request)
      as [(st & er & ms & Heq' & _)|[(sc' & Hsc & _)|(_ & _ & Heq')]].
    - congruence.
    - apply Hval in Hv. destruct Hv as (_ & [Hne _] & _). apply Hne.
      unfold req_perspectives. rewrite Hsc. reflexivity.
    - pose proof (generate_loop_log ge request (req_perspectives request) 0 [])
        as (m & Hm & Hstarted & _).
      rewrite <- Heq', Heq in Hstarted. cbn in Hstarted.
      destruct m as [|m]; [|discriminate].
      apply Hval in Hv. destruct Hv as (_ & [Hne Hall] & _).
      destruct (req_perspectives request) as [|p0 rest] eqn:Hps; [congruence|].
      apply Forall_cons in Hall as [(id & name & prompt & -> & _) _].
      rewrite Heq in Heq'. cbn -[infer_single str_of_nat] in Heq'.
      destruct (infer_single _ _ _ _ _ _ _) as [l [b|e|]]; cbn -[str_of_nat] in Heq';
        try discriminate.
      destruct (generate_loop _ _ _ _ _ _ _ _) as [l' o']. discriminate. }
  destruct (generate_checks ge request)
    as [(Hh & Hcode)|[(Hh & Ht & Hcode)|[(Hh & Ht & Hi & Hcode)
       |[(Hh & Hi & Hp & Hn & Hcode)|[(Hh & Hi & sc & Hsc & Hts & Hgen)
       |[(Hr & Hbad & Hcode)|(Hh & Hv & Hcode)]]]]]].
  - rewrite Hcode. split; [|split; [|split; [|split]]]; split; intros Hx;
      try discriminate Hx; try assumption; try reflexivity.
    + destruct Hx as [Hx _]. congruence.
    + destruct Hx as [Hx _]. congruence.
    + destruct Hx as [sc Hx]. exfalso. exact (Hraised _ _ Hx Hcode).
    + destruct Hx as [Hx _]. congruence.
    + destruct Hx as [Hx _]. apply Hreach in Hx. destruct Hx as [Hx _]. congruence.
  - rewrite Hcode. split; [|split; [|split; [|split]]]; split; intros Hx;
      try discriminate Hx.
    + congruence.
    + destruct Hx as (_ & Hx & _). congruence.
    + split; [exact Hh|]. left. exact Ht.
    + reflexivity.
    + destruct Hx as [sc Hx]. exfalso. exact (Hraised _ _ Hx Hcode).
    + destruct Hx as (_ & Hx & _). apply Htr in Hx. congruence.
    + destruct Hx as [Hx _]. apply Hreach in Hx. destruct Hx as (_ & Hx & _).
      apply Htr in Hx. congruence.
  - rewrite Hcode. split; [|split; [|split; [|split]]]; split; intros Hx;
      try discriminate Hx.
    + congruence.
    + split; [exact Hh|]. split; [exact Ht|exact Hi].
    + reflexivity.
    + destruct Hx as (_ & [Hx|(Hx & _)]); [congruence|contradiction].
    + destruct Hx as [sc Hx]. exfalso. exact (Hraised _ _ Hx Hcode).
    + destruct Hx as (_ & Hx & _). contradiction.
    + destruct Hx as [Hx _]. apply Hreach in Hx. destruct Hx as (_ & Hx & _).
      contradiction.
  - rewrite Hcode. split; [|split; [|split; [|split]]]; split; intros Hx;
      try discriminate Hx.
    + congruence.
    + destruct Hx as (_ & _ & Hx). contradiction.
    + split; [exact Hh|]. right. split; [exact Hi|]. split; [exact Hp|exact Hn].
    + reflexivity.
    + destruct Hx as [sc Hx]. exfalso. exact (Hraised _ _ Hx Hcode).
    + destruct Hx as (_ & _ & Hx). contradiction.
    + destruct Hx as [Hx _]. apply Hreach in Hx. destruct Hx as (_ & _ & Hx).
      contradiction.
  - assert (Hiter : perspectives_not_iterable request) by (exists sc; split; assumption).
    assert (Hcode : answer_code (generate ge request) = None) by (rewrite Hgen; reflexivity).
    rewrite Hcode. split; [|split; [|split; [|split]]]; split; intros Hx;
      try discriminate Hx.
    + congruence.
    + destruct Hx as (_ & _ & Hx). contradiction.
    + destruct Hx as (_ & [Hx|(_ & _ & Hx)]); [|contradiction].
      apply Htr in Hi. congruence.
    + split; [exact Hh|]. split; [exact Hi|exact Hiter].
    + exists sc. exact Hgen.
    + destruct Hx as [Hx _]. apply Hreach in Hx. destruct Hx as (_ & _ & Hx).
      apply Hni in Hiter. contradiction.
  - pose proof (Hreach Hr) as (Hh & Hi & Hp).
    rewrite Hcode. split; [|split; [|split; [|split]]]; split; intros Hx;
      try discriminate Hx.
    + congruence.
    + destruct Hx as (_ & _ & Hx). contradiction.
    + destruct Hx as (_ & [Hx|(_ & Hx & _)]); [|contradiction].
      apply Htr in Hi. congruence.
    + destruct Hx as [sc Hx]. exfalso. exact (Hraised _ _ Hx Hcode).
    + destruct Hx as (_ & _ & Hx). apply Hni in Hx. contradiction.
    + split; [exact Hr|exact Hbad].
    + reflexivity.
  - pose proof (Hval Hv) as (Hi & Hp & Hs & Hc).
    assert (Hcodes : forall c, answer_code (generate ge request) = Some c ->
              c = "timeout" \/ c = "generation_error").
    { intros c Hx. destruct Hcode as [Hcode|[Hcode|Hcode]]; rewrite Hcode in Hx;
        [discriminate| |]; injection Hx as <-; auto. }
    split; [|split; [|split; [|split]]]; split; intros Hx.
    + apply Hcodes in Hx as [Hx|Hx]; discriminate Hx.
    + congruence.
    + apply Hcodes in Hx as [Hx|Hx]; discriminate Hx.
    + destruct Hx as (_ & _ & Hx). contradiction.
    + apply Hcodes in Hx as [Hx|Hx]; discriminate Hx.
    + destruct Hx as (_ & [Hx|(_ & Hx & _)]); [|contradiction].
      apply Htr in Hi. congruence.
    + destruct Hx as [sc Hx]. exfalso. exact (Hraised_valid sc Hx Hh Hv).
    + destruct Hx as (_ & _ & Hx). apply Hni in Hx. contradiction.
    + apply Hcodes in Hx as [Hx|Hx]; discriminate Hx.
    + destruct Hx as (_ & [Hx|Hx]); contradiction.
Qed.

(** ** The error module *)

(** X15. The endpoint follows the table of the error module: every error
    answer of [generate] carries a code of [ErrorCode], and its HTTP status
    is the status that [ERROR_MESSAGES] gives for that code. *)
Theorem endpoint_status_matches_table
    (ge : gen_env) (request : request) (log : list event) (resp : response)
    (error message : string) :
  generate ge request = (log, Returned resp) ->
  content resp = ErrorBody error message ->
  exists c, error_code_value c = error /\ status_code resp = snd (ERROR_MESSAGES c).
Proof.
  intros Hgen Hcontent.
  destruct (generate_cases ge request)
    as [(status & err & msg & Heq & Hin)
       |[(sc & _ & Heq)
        |[(_ & _ & log' & images' & [Heq|Heq] & _)
         |(_ & _ & log' & n & p & e & Heq & _)]]];
    rewrite Heq in Hgen; try discriminate Hgen; injection Hgen as <- <-.
  - injection Hcontent as <- <-. unfold early_answers in Hin.
    rewrite !elem_of_cons, elem_of_nil in Hin.
    destruct Hin as [H|[H|[H|[H|[]]]]]; injection H as -> ->.
    + exists SERVICE_UNAVAILABLE. split; reflexivity.
    + exists VALIDATION_ERROR. split; reflexivity.
    + exists INVALID_IMAGE. split; reflexivity.
    + exists INVALID_PARAMS. split; reflexivity.
  - discriminate.
  - unfold failure_response in *.
    destruct (exn_kind e); injection Hcontent as <- <-;
      first [ exists TIMEOUT; split; reflexivity
            | exists GENERATION_ERROR; split; reflexivity ].
Qed.

Lemma lower_upper_char c : lower_char (upper_char c) = lower_char c.
Proof. destruct c as [[] [] [] [] [] [] [] []]; reflexivity. Qed.

Lemma lower_upper s : lower (upper s) = lower s.
Proof. induction s as [|c s IH]; simpl; [reflexivity|]. rewrite lower_upper_char, IH. reflexivity. Qed.

Lemma create_error_status code message details :
  app_code (create_error code message details) = code
  /\ app_status_code (create_error code message details) = snd (ERROR_MESSAGES code)
  /\ app_details (create_error code message details) = details.
Proof. repeat split. Qed.

(** X16. [handle_exception] sorts an exception with an ASCII text by its
    class: a timeout gives
    the code timeout, a value error validation_error, with the text of the
    exception as message unless that text is empty, any other class but
    runtime error server_error; a runtime error gives model_error when its
    text holds "model" or "load", else service_unavailable when it holds
    "comfyui" or "server", else generation_error.  The status is always the
    one of the table, the keywords are found whatever the case of the
    letters, and the original text is kept as details except for a timeout
    and for service_unavailable. *)
Theorem handle_exception_classification (kind : exn_class) (text : string) :
  ascii_only text = true ->
  app_status_code (handle_exception (Exn kind text))
  = snd (ERROR_MESSAGES (app_code (handle_exception (Exn kind text))))
  /\ app_code (handle_exception (Exn kind text))
     = match kind with
       | TimeoutError => TIMEOUT
       | ValueError => VALIDATION_ERROR
       | OtherError => SERVER_ERROR
       | RuntimeError =>
           if contains "model" (lower text) || contains "load" (lower text)
           then MODEL_ERROR
           else if contains "comfyui" (lower text) || contains "server" (lower text)
           then SERVICE_UNAVAILABLE
           else GENERATION_ERROR
       end
  /\ app_code (handle_exception (Exn kind (upper text)))
     = app_code (handle_exception (Exn kind text))
  /\ (kind = ValueError ->
      app_message (handle_exception (Exn kind text))
      = if String.eqb text "" then "请求参数验证失败" else text)
  /\ (app_code (handle_exception (Exn kind text)) ∈ [MODEL_ERROR; GENERATION_ERROR; SERVER_ERROR] ->
      app_details (handle_exception (Exn kind text)) = Some text)
  /\ (app_code (handle_exception (Exn kind text)) ∈ [TIMEOUT; SERVICE_UNAVAILABLE; VALIDATION_ERROR] ->
      app_details (handle_exception (Exn kind text)) = None).
Proof.
  intros _. unfold handle_exception. cbn [exn_kind exn_text]. rewrite lower_upper.
  destruct kind.
  - repeat split; try reflexivity; try discriminate.
    intros H. rewrite !elem_of_cons, elem_of_nil in H. cbn in H.
    destruct H as [H|[H|[H|[]]]]; discriminate.
  - destruct (contains "model" (lower text) || contains "load" (lower text)).
    + repeat split; try reflexivity; try discriminate.
      intros H. rewrite !elem_of_cons, elem_of_nil in H. cbn in H.
      destruct H as [H|[H|[H|[]]]]; discriminate.
    + destruct (contains "comfyui" (lower text) || contains "server" (lower text)).
      * repeat split; try reflexivity; try discriminate.
        intros H. rewrite !elem_of_cons, elem_of_nil in H. cbn in H.
        destruct H as [H|[H|[H|[]]]]; discriminate.
      * repeat split; try reflexivity; try discriminate.
        intros H. rewrite !elem_of_cons, elem_of_nil in H. cbn in H.
        destruct H as [H|[H|[H|[]]]]; discriminate.
  - repeat split; try reflexivity; try discriminate.
    + intros _. destruct text; reflexivity.
    + intros H. rewrite !elem_of_cons, elem_of_nil in H. cbn in H.
      destruct H as [H|[H|[H|[]]]]; discriminate.
  - repeat split; try reflexivity; try discriminate.
    intros H. rewrite !elem_of_cons, elem_of_nil in H. cbn in H.
    destruct H as [H|[H|[H|[]]]]; discriminate.
Qed.

(** ** The start-up of the server *)

Lemma poll_server_health_from_first probe seconds remaining i k :
  (k < remaining)%nat ->
  probe (i + k)%nat = ProbeStatus 200 ->
  (forall j, (j < k)%nat -> probe (i + j)%nat <> ProbeStatus 200) ->
  poll_server_health_from probe seconds remaining i = (k, Ok true).
Proof.
  revert i k. induction remaining as [|remaining IH]; intros i k Hk Hok Hbefore; [lia|].
  cbn [poll_server_health_from]. destruct k as [|k].
  - rewrite Nat.add_0_r in Hok. rewrite Hok. reflexivity.
  - rewrite (IH (S i) k).
    + pose proof (Hbefore 0%nat ltac:(lia)) as H0. rewrite Nat.add_0_r in H0.
      destruct (probe i) as [status| |]; try reflexivity.
      destruct (status =? 200) eqn:E; [|reflexivity].
      apply Z.eqb_eq in E. subst status. contradiction.
    + lia.
    + rewrite <- Hok. f_equal. lia.
    + intros j Hj. replace (S i + j)%nat with (i + S j)%nat by lia.
      apply Hbefore. lia.
Qed.

Lemma poll_server_health_from_never probe seconds remaining i :
  (forall j, (j < remaining)%nat -> probe (i + j)%nat <> ProbeStatus 200) ->
  poll_server_health_from probe seconds remaining i
  = (remaining,
     Raise (Exn RuntimeError
              ("ComfyUI server failed to start after " +:+ seconds +:+ " seconds"))).
Proof.
  revert i. induction remaining as [|remaining IH]; intros i Hnever; [reflexivity|].
  cbn [poll_server_health_from]. rewrite (IH (S i)).
  - pose proof (Hnever 0%nat ltac:(lia)) as H0. rewrite Nat.add_0_r in H0.
    destruct (probe i) as [status| |]; try reflexivity.
    destruct (status =? 200) eqn:E; [|reflexivity].
    apply Z.eqb_eq in E. subst status. contradiction.
  - intros j Hj. replace (S i + j)%nat with (i + S j)%nat by lia.
    apply Hnever. lia.
Qed.

Lemma probe_reply_eq_dec (x y : probe_reply) : {x = y} + {x <> y}.
Proof. decide equality. apply Z.eq_dec. Qed.

(** Either some probe before [n] answers 200, and then there is a first
    one, or none does. *)
Lemma first_ready probe i n :
  (exists k, (k < n)%nat /\ probe (i + k)%nat = ProbeStatus 200
             /\ forall j, (j < k)%nat -> probe (i + j)%nat <> ProbeStatus 200)
  \/ (forall j, (j < n)%nat -> probe (i + j)%nat <> ProbeStatus 200).
Proof.
  induction n as [|n [(k & Hk & Hok & Hbefore)|Hnever]].
  - right. intros j Hj. lia.
  - left. exists k. split; [lia|]. split; assumption.
  - destruct (probe_reply_eq_dec (probe (i + n)%nat) (ProbeStatus 200)) as [Hok|Hno].
    + left. exists n. split; [lia|]. split; assumption.
    + right. intros j Hj. destruct (decide (j = n)) as [->|]; [exact Hno|].
      apply Hnever. lia.
Qed.

Lemma health_poll_sound probe max_retries seconds sleeps b :
  _poll_server_health probe max_retries seconds = (sleeps, Ok b) ->
  b = true /\ (sleeps < Z.to_nat max_retries)%nat /\ probe sleeps = ProbeStatus 200.
Proof.
  unfold _poll_server_health. intros Hrun.
  destruct (first_ready probe 0 (Z.to_nat max_retries))
    as [(k & Hk & Hok & Hbefore)|Hnever].
  - rewrite (poll_server_health_from_first probe seconds _ 0 k Hk Hok Hbefore) in Hrun.
    injection Hrun as <- <-. split; [reflexivity|]. split; [exact Hk|exact Hok].
  - rewrite (poll_server_health_from_never probe seconds _ 0 Hnever) in Hrun.
    discriminate.
Qed.

(** X17. [_poll_server_health] returns [True] at the first probe that
    answers with status 200, after as many waits as there were probes
    before it, provided that probe is among the first [max_retries]; when
    none of these answers 200, whatever else they answer or raise, it waits
    [max_retries] times and raises a runtime error; it never returns
    [False]. *)
Theorem health_poll_outcome (probe : nat -> probe_reply) (max_retries : Z)
    (seconds : string) :
  (forall i, (i < Z.to_nat max_retries)%nat ->
     probe i = ProbeStatus 200 ->
     (forall j, (j < i)%nat -> probe j <> ProbeStatus 200) ->
     _poll_server_health probe max_retries seconds = (i, Ok true))
  /\ ((forall j, (j < Z.to_nat max_retries)%nat -> probe j <> ProbeStatus 200) ->
      exists e, _poll_server_health probe max_retries seconds
                = (Z.to_nat max_retries, Raise e)
                /\ exn_kind e = RuntimeError)
  /\ (forall sleeps b,
        _poll_server_health probe max_retries seconds = (sleeps, Ok b) ->
        b = true /\ (sleeps < Z.to_nat max_retries)%nat
        /\ probe sleeps = ProbeStatus 200).
Proof.
  unfold _poll_server_health. split; [|split].
  - intros i Hi Hok Hbefore.
    apply poll_server_health_from_first; [exact Hi|exact Hok|exact Hbefore].
  - intros Hnever. eexists. split.
    + apply poll_server_health_from_never. exact Hnever.
    + reflexivity.
  - intros sleeps b Hrun. exact (health_poll_sound _ _ _ _ _ Hrun).
Qed.


Lemma link_files_obliging fs model_type cache_dir comfyui_dir files missing_models :
  fs_obliging fs ->
  link_files fs model_type cache_dir comfyui_dir files missing_models
  = (flat_map (replace_plan fs)
       (List.filter (cached fs)
          (map (fun f => (model_type, cache_dir, comfyui_dir, f)) files)),
     Ok (missing_models
         ++ map missing_name
              (List.filter (fun m => negb (cached fs m))
                 (map (fun f => (model_type, cache_dir, comfyui_dir, f)) files))))
  \/ fs_exists fs cache_dir = false.
Proof.
  intros (Hmkdir & Hunlink & Hsymlink).
  destruct (fs_exists fs cache_dir) eqn:Hdir; [left|right; reflexivity].
  revert missing_models. induction files as [|f files IH]; intros missing_models.
  - cbn. rewrite app_nil_r. reflexivity.
  - cbn [link_files map List.filter cached]. rewrite Hdir. cbn [andb].
    destruct (fs_exists fs (path_join cache_dir f)) eqn:Hfile; cbn [negb].
    + rewrite Hsymlink, IH. cbn [flat_map replace_plan link_of].
      destruct (fs_exists fs (path_join comfyui_dir f)
                || fs_is_symlink fs (path_join comfyui_dir f)).
      * rewrite Hunlink. reflexivity.
      * reflexivity.
    + rewrite IH. cbn [map missing_name]. rewrite <- app_assoc. reflexivity.
Qed.

Lemma uncached_directory fs model_type cache_dir comfyui_dir files :
  fs_exists fs cache_dir = false ->
  List.filter (cached fs)
    (map (fun f => (model_type, cache_dir, comfyui_dir, f)) files) = []
  /\ map missing_name
       (List.filter (fun m => negb (cached fs m))
          (map (fun f => (model_type, cache_dir, comfyui_dir, f)) files))
     = map (path_join model_type) files.
Proof.
  intros Hdir. induction files as [|f files [IH1 IH2]]; [split; reflexivity|].
  cbn [map List.filter cached]. rewrite Hdir. cbn [andb negb map missing_name].
  rewrite IH1, IH2. split; reflexivity.
Qed.

Lemma replace_plan_no_mkdir fs models :
  List.filter is_mkdir (flat_map (replace_plan fs) models) = []
  /\ List.filter (fun a => negb (is_mkdir a)) (flat_map (replace_plan fs) models)
     = flat_map (replace_plan fs) models.
Proof.
  induction models as [|[[[t c] d] f] models [IH1 IH2]]; [split; reflexivity|].
  cbn [flat_map]. rewrite !List.filter_app, IH1, IH2. unfold replace_plan, link_of.
  destruct (fs_exists fs (path_join d f) || fs_is_symlink fs (path_join d f));
    split; reflexivity.
Qed.

Lemma link_types_obliging fs paths missing_models :
  fs_obliging fs ->
  exists actions,
    link_types fs paths missing_models
    = (actions,
       Ok (missing_models
           ++ map missing_name
                (List.filter (fun m => negb (cached fs m)) (models_of_paths paths))))
    /\ List.filter is_mkdir actions = map (fun p => Mkdir (snd (snd p))) paths
    /\ List.filter (fun a => negb (is_mkdir a)) actions
       = flat_map (replace_plan fs) (List.filter (cached fs) (models_of_paths paths)).
Proof.
  intros Hfs. revert missing_models.
  induction paths as [|[t [c d]] paths IH]; intros missing_models.
  - eexists. split; [|split]; [cbn; rewrite app_nil_r|..]; reflexivity.
  - cbn [link_types models_of_paths flat_map].
    fold (models_of_paths paths). rewrite !List.filter_app, map_app, flat_map_app.
    pose proof Hfs as (Hmkdir & _). rewrite Hmkdir. cbn [fs_do fs_bind].
    destruct (link_files_obliging fs t c d (models_get MODELS t) missing_models Hfs)
      as [Hfiles|Hdir].
    + destruct (fs_exists fs c) eqn:Hdir; cbn [negb].
      * rewrite Hfiles. cbn [fs_bind].
        destruct (IH (missing_models
                      ++ map missing_name
                           (List.filter (fun m => negb (cached fs m))
                              (map (fun f => (t, c, d, f)) (models_get MODELS t)))))
          as (actions & -> & Hdirs & Hrest).
        eexists. split; [rewrite <- !app_assoc; reflexivity|].
        cbn [app List.filter is_mkdir negb map snd].
        rewrite !List.filter_app, Hdirs, Hrest.
        destruct (replace_plan_no_mkdir fs
                    (List.filter (cached fs)
                       (map (fun f => (t, c, d, f)) (models_get MODELS t))))
          as [-> ->].
        split; reflexivity.
      * destruct (uncached_directory fs t c d (models_get MODELS t) Hdir) as [-> ->].
        destruct (IH (missing_models ++ map (path_join t) (models_get MODELS t)))
          as (actions & -> & Hdirs & Hrest).
        eexists. split; [rewrite <- !app_assoc; reflexivity|].
        cbn [app List.filter is_mkdir negb map snd flat_map].
        rewrite Hdirs, Hrest. split; reflexivity.
    + rewrite Hdir. cbn [negb].
      destruct (uncached_directory fs t c d (models_get MODELS t) Hdir) as [-> ->].
      destruct (IH (missing_models ++ map (path_join t) (models_get MODELS t)))
        as (actions & -> & Hdirs & Hrest).
      eexists. split; [rewrite <- !app_assoc; reflexivity|].
      cbn [app List.filter is_mkdir negb map snd flat_map].
      rewrite Hdirs, Hrest. split; reflexivity.
Qed.

(** X18. When no call on the file system raises, [_setup_model_symlinks]
    returns, however many models are absent, and the list it reports holds
    the models that are not in the cache (the directory of their type or
    their file is absent), each once as type/file, in the order of the
    tables. *)
Theorem missing_models_are_reported (fs : fs_env) :
  fs_obliging fs ->
  snd (_setup_model_symlinks fs)
  = Ok (map missing_name (List.filter (fun m => negb (cached fs m)) all_models)).
Proof.
  intros Hfs. unfold _setup_model_symlinks.
  destruct (link_types_obliging fs MODEL_PATHS [] Hfs) as (actions & -> & _).
  reflexivity.
Qed.

(** X19. When no call on the file system raises, [_setup_model_symlinks]
    makes the ComfyUI directory of each of the four types, also of a type
    whose cache directory is absent, and apart from that it does, for the
    models that are in the cache and in the order of the tables, this: it
    removes the target if it exists or is a dangling link, and then links
    the target to the file in the cache. *)
Theorem cached_models_are_linked (fs : fs_env) :
  fs_obliging fs ->
  List.filter is_mkdir (fst (_setup_model_symlinks fs))
  = map (fun p => Mkdir (snd (snd p))) MODEL_PATHS
  /\ List.filter (fun a => negb (is_mkdir a)) (fst (_setup_model_symlinks fs))
     = flat_map (replace_plan fs) (List.filter (cached fs) all_models).
Proof.
  intros Hfs. unfold _setup_model_symlinks.
  destruct (link_types_obliging fs MODEL_PATHS [] Hfs) as (actions & -> & Hdirs & Hrest).
  split; [exact Hdirs|exact Hrest].
Qed.


Lemma lower_app a b : lower (a +:+ b) = lower a +:+ lower b.
Proof. induction a as [|c a IH]; simpl; [reflexivity|]. rewrite IH. reflexivity. Qed.

Lemma poll_server_health_raises probe max_retries seconds sleeps e :
  _poll_server_health probe max_retries seconds = (sleeps, Raise e) ->
  e = Exn RuntimeError ("ComfyUI server failed to start after " +:+ seconds +:+ " seconds")
  /\ forall j, (j < Z.to_nat max_retries)%nat -> probe j <> ProbeStatus 200.
Proof.
  unfold _poll_server_health. intros Hrun.
  destruct (first_ready probe 0 (Z.to_nat max_retries))
    as [(k & Hk & Hok & Hbefore)|Hnever].
  - rewrite (poll_server_health_from_first probe seconds _ 0 k Hk Hok Hbefore) in Hrun.
    discriminate.
  - rewrite (poll_server_health_from_never probe seconds _ 0 Hnever) in Hrun.
    injection Hrun as _ <-. split; [reflexivity|exact Hnever].
Qed.

(** X20. The start-up goes through its three stages in order and stops at
    the first that fails: the launch command is run exactly when the set-up
    of the links returned, the server is waited for only when the command
    returned 0, and the start-up returns exactly when the links were set up,
    the command returned 0 and one of the first 60 probes answered 200. *)
Theorem launch_stages (le : launch_env) :
  (lt_command_run (fst (launch_comfy_background le)) = true
   <-> exists missing, snd (_setup_model_symlinks (le_fs le)) = Ok missing)
  /\ ((0 < lt_sleeps (fst (launch_comfy_background le)))%nat ->
      lt_command_run (fst (launch_comfy_background le)) = true
      /\ le_returncode le = 0)
  /\ lt_actions (fst (launch_comfy_background le)) = fst (_setup_model_symlinks (le_fs le))
  /\ (snd (launch_comfy_background le) = Ok tt
      <-> (exists missing, snd (_setup_model_symlinks (le_fs le)) = Ok missing)
          /\ le_returncode le = 0
          /\ exists i, (i < 60)%nat /\ le_probe le i = ProbeStatus 200).
Proof.
  unfold launch_comfy_background.
  destruct (_setup_model_symlinks (le_fs le)) as [actions [missing|e]]; cbn [fst snd].
  - destruct (le_returncode le =? 0) eqn:Hcode; cbn [negb fst snd].
    + apply Z.eqb_eq in Hcode.
      destruct (_poll_server_health (le_probe le) 60 "120.0") as [sleeps r] eqn:Hpoll.
      cbn [fst snd lt_command_run lt_sleeps lt_actions].
      split; [split; [intros _; eauto|reflexivity]|].
      split; [intros _; split; [reflexivity|exact Hcode]|].
      split; [reflexivity|].
      destruct r as [b|e]; cbn [rbind].
      * destruct (health_poll_sound _ _ _ _ _ Hpoll) as (_ & Hlt & Hok).
        split; [intros _|reflexivity].
        split; [eauto|]. split; [exact Hcode|]. exists sleeps. split; assumption.
      * destruct (poll_server_health_raises _ _ _ _ _ Hpoll) as [_ Hnever].
        split; [discriminate|]. intros (_ & _ & i & Hi & Hok).
        exfalso. exact (Hnever i Hi Hok).
    + apply Z.eqb_neq in Hcode. cbn [lt_command_run lt_sleeps lt_actions].
      split; [split; [intros _; eauto|reflexivity]|].
      split; [intros H; lia|]. split; [reflexivity|].
      split; [discriminate|]. intros (_ & H & _). contradiction.
  - cbn [lt_command_run lt_sleeps lt_actions].
    split; [split; [discriminate|intros [missing H]; discriminate]|].
    split; [intros H; lia|]. split; [reflexivity|].
    split; [discriminate|]. intros ([missing H] & _). discriminate.
Qed.

(** X21. Whatever makes the start-up fail, the exception that leaves it is
    a runtime error, also when the set-up of the links raised an exception
    of another class, and [handle_exception] answers it with status 503:
    with the code model_error when the set-up of the links failed, and with
    service_unavailable when the server did not answer in time. *)
Theorem launch_failure_is_unavailable (le : launch_env) (trace : launch_trace) (e : exn) :
  launch_comfy_background le = (trace, Raise e) ->
  exn_kind e = RuntimeError
  /\ app_status_code (handle_exception e) = 503
  /\ (lt_command_run trace = false -> app_code (handle_exception e) = MODEL_ERROR)
  /\ (le_returncode le = 0 -> lt_command_run trace = true ->
      app_code (handle_exception e) = SERVICE_UNAVAILABLE).
Proof.
  unfold launch_comfy_background.
  destruct (_setup_model_symlinks (le_fs le)) as [actions [missing|e0]].
  - destruct (le_returncode le =? 0) eqn:Hcode; cbn [negb].
    + destruct (_poll_server_health (le_probe le) 60 "120.0") as [sleeps r] eqn:Hpoll.
      destruct r as [b|e1]; cbn [rbind]; [discriminate|].
      destruct (poll_server_health_raises _ _ _ _ _ Hpoll) as [-> _].
      intros H. injection H as <- <-. cbn [lt_command_run].
      split; [reflexivity|]. split; [reflexivity|].
      split; [discriminate|]. intros _ _. reflexivity.
    + apply Z.eqb_neq in Hcode.
      intros H. injection H as <- <-. cbn [lt_command_run].
      split; [reflexivity|].
      assert (Hc : contains "comfyui" (lower ("Failed to start ComfyUI: " +:+ le_stderr le))
                   = true).
      { rewrite lower_app.
        exact (contains_app "comfyui" "failed to start " (": " +:+ lower (le_stderr le))). }
      unfold handle_exception. cbn [exn_kind exn_text]. rewrite Hc. cbn [orb].
      destruct (contains "model" _ || contains "load" _).
      * split; [reflexivity|]. split; [discriminate|]. intros H. contradiction.
      * split; [reflexivity|]. split; [discriminate|]. intros H. contradiction.
  - intros H. injection H as <- <-. cbn [lt_command_run].
    assert (Hc : contains "model" (lower ("Model setup failed: " +:+ exn_text e0)) = true).
    { rewrite lower_app.
      exact (contains_app "model" "" (" setup failed: " +:+ lower (exn_text e0))). }
    unfold handle_exception. cbn [exn_kind exn_text]. rewrite Hc. cbn [orb].
    split; [reflexivity|]. split; [reflexivity|].
    split; [reflexivity|]. intros _ H. discriminate.
Qed.


End Endpoint.

(** * Instances on the sample data *)

(** The sample request passes every check. *)
Ltac sample_validated :=
  constructor;
  [ exists sample_image, (map byte_of_ascii (list_ascii_of_string sample_image));
    split; [reflexivity|]; split; [discriminate|]; split; [reflexivity|];
    vm_compute; lia
  | split; [discriminate|];
    repeat constructor; eexists _, _, _; (split; [reflexivity|discriminate])
  | exists 8; split; [reflexivity|lia]
  | vm_compute; reflexivity ].


Lemma fail_fast_witness :
  exists log resp message,
    generate sample_b64decode sample_b64encode env_second_stuck
      (sample_request (VStr "12345")) = (log, Returned resp)
    /\ content resp = ErrorBody "timeout" message
    /\ status_code resp = 504
    /\ contains "B" message = true
    /\ body_images (content resp) = []
    /\ jobs_started log = [0; 1]%nat.
Proof.
  apply (fail_fast sample_b64decode sample_b64encode env_second_stuck
           (sample_request (VStr "12345")) 1
           (PObject (Some "right_45") (Some "B") (Some "rotate right 45"))
           (Exn TimeoutError "Workflow execution timed out after 120 seconds")).
  - reflexivity.
  - sample_validated.
  - reflexivity.
  - intros k q Hk Hq. destruct k as [|k]; [|lia].
    injection Hq as <-. eexists. vm_compute. reflexivity.
  - vm_compute. reflexivity.
Defined.

Lemma timeout_classification_witness :
  (forall workflow client_id output_prefix timeout,
     (forall k, (k < Z.to_nat timeout)%nat ->
        terminal_state (je_poll (ge_job env_second_stuck 1) k) = false) ->
     snd (_execute_workflow_via_api (ge_job env_second_stuck 1) workflow client_id
            output_prefix timeout)
     = Raised (Exn TimeoutError
                 ("Workflow execution timed out after " +:+ str_of_Z timeout +:+ " seconds")))
  /\ snd (job sample_b64decode env_second_stuck (sample_request (VStr "12345")) 1
            (PObject (Some "right_45") (Some "B") (Some "rotate right 45")))
     = Raised (Exn TimeoutError "Workflow execution timed out after 120 seconds")
  /\ exists log,
       generate sample_b64decode sample_b64encode env_second_stuck
         (sample_request (VStr "12345"))
       = (log, Returned (error_response 504 "timeout" ("视角 '" +:+ "B" +:+ "' 的生成超时")))
       /\ jobs_started log = [0; 1]%nat.
Proof.
  apply (timeout_classification sample_b64decode sample_b64encode env_second_stuck
           (sample_request (VStr "12345")) 1
           (PObject (Some "right_45") (Some "B") (Some "rotate right 45"))
           (Some "p-2") (VInt 12345)).
  - reflexivity.
  - sample_validated.
  - reflexivity.
  - intros k q Hk Hq. destruct k as [|k]; [|lia].
    injection Hq as <-. eexists. vm_compute. reflexivity.
  - reflexivity.
  - reflexivity.
  - vm_compute. reflexivity.
  - reflexivity.
  - reflexivity.
  - intros k Hk. reflexivity.
Defined.


(** The response of the sample batch, computed: three entries, in the order
    of the request, the third with its default id and name. *)
Example sample_batch_images :
  body_images (content (match snd (generate sample_b64decode sample_b64encode env_all_done
                                     (sample_request (VStr "12345"))) with
                        | Returned resp => resp
                        | _ => error_response 0 "" ""
                        end))
  = [ ImageEntry "left_45" "A" "PNG" (VStr "12345");
      ImageEntry "right_45" "B" "PNG" (VStr "12345");
      ImageEntry "2" "视角3" "PNG" (VStr "12345") ].
Proof. vm_compute. reflexivity. Qed.



Example steps_10_rejected :
  generate sample_b64decode sample_b64encode env_all_done request_steps_10
  = ([], Returned (error_response 400 "invalid_params"
                     "steps must be an integer between 4 and 8")).
Proof. vm_compute. reflexivity. Qed.

Example cfg_scale_too_large_rejected :
  generate sample_b64decode sample_b64encode env_all_done
    (Request (VStr sample_image) (PerspectivesList sample_perspectives) None (Some (VFloat 5.5%float)) VNone)
  = ([], Returned (error_response 400 "invalid_params"
                     "cfg_scale must be a number between 1.0 and 5.0")).
Proof. vm_compute. reflexivity. Qed.

(** A NaN compares neither below 1.0 nor above 5.0, so the range check lets
    it through. *)
Example nan_passes_the_range_check : cfg_scale_rejected (VFloat nan) = false.
Proof. vm_compute. reflexivity. Qed.

Example empty_perspectives_rejected :
  generate sample_b64decode sample_b64encode env_all_done
    (Request (VStr sample_image) (PerspectivesList []) (Some (VInt 8)) None VNone)
  = ([], Returned (error_response 400 "validation_error"
                     "at least one perspective is required")).
Proof. vm_compute. reflexivity. Qed.

(** A truthy [perspectives] that is no list: [enumerate] raises before the
    parameters are looked at, whatever [steps] is, and no job is started. *)
Example number_as_perspectives_raises :
  generate sample_b64decode sample_b64encode env_all_done
    (Request (VStr sample_image) (PerspectivesScalar (ScInt 5)) (Some (VInt 10)) None VNone)
  = ([], Raised (Exn OtherError "'int' object is not iterable")).
Proof. vm_compute. reflexivity. Qed.

(** A falsy one is answered as an empty list is. *)
Example zero_as_perspectives_rejected :
  generate sample_b64decode sample_b64encode env_all_done
    (Request (VStr sample_image) (PerspectivesScalar (ScInt 0)) (Some (VInt 8)) None VNone)
  = ([], Returned (error_response 400 "validation_error"
                     "at least one perspective is required")).
Proof. vm_compute. reflexivity. Qed.

(** A seed that is a NaN is used as it is and every job returns, but the
    success response does not render: the call raises after the three jobs
    ran. *)
Example nan_seed_does_not_render :
  snd (generate sample_b64decode sample_b64encode env_all_done (sample_request (VFloat nan)))
  = Raised (Exn ValueError "Out of range float values are not JSON compliant")
  /\ jobs_started (fst (generate sample_b64decode sample_b64encode env_all_done
                          (sample_request (VFloat nan)))) = [0; 1; 2]%nat.
Proof. split; vm_compute; reflexivity. Qed.



Example provided_seed_is_reported :
  seed_used <$>
    body_images (content (match snd (generate sample_b64decode sample_b64encode env_all_done
                                       (sample_request (VStr "abc"))) with
                          | Returned resp => resp
                          | _ => error_response 0 "" ""
                          end))
  = [VStr "abc"; VStr "abc"; VStr "abc"].
Proof. vm_compute. reflexivity. Qed.

(** An error reported by the engine does not end the polling: the exception
    raised for it inside the [try] is caught by the handler of the same
    [try], and the job ends in the timeout. *)
Example engine_error_ends_in_timeout :
  snd (infer_single sample_b64decode job_failed (VStr sample_image) "rotate left 45"
         (VInt 8) (VFloat 3%float) VNone "qwen_left_45")
  = Raised (Exn TimeoutError "Workflow execution timed out after 120 seconds").
Proof. vm_compute. reflexivity. Qed.

(** A refusal at submission is a failure of the job, answered with the
    status 500; the third perspective is not run. *)
Example refused_submission :
  exists log message,
    generate sample_b64decode sample_b64encode env_second_refused (sample_request VNone)
    = (log, Returned (error_response 500 "generation_error" message))
    /\ jobs_started log = [0; 1]%nat
    /\ length (posted log) = 2%nat.
Proof.
  set (run := generate sample_b64decode sample_b64encode env_second_refused
                (sample_request VNone)).
  exists (fst run), (answer_message (snd run)).
  repeat split; vm_compute; reflexivity.
Qed.

(** * Instances for the further properties *)


Lemma injection_overwrites_witness :
  exists g1,
    inject_workflow_parameters get_workflow_template "a.png" "first"
      (VInt 4) (VFloat 1%float) (VInt 7) "one" 0%N = Ok g1
    /\ inject_workflow_parameters g1 "b.png" "second"
         (VInt 8) (VFloat 3%float) VNone "two" 5%N
       = inject_workflow_parameters get_workflow_template "b.png" "second"
           (VInt 8) (VFloat 3%float) VNone "two" 5%N.
Proof.
  assert (Hok : match inject_workflow_parameters get_workflow_template "a.png" "first"
                        (VInt 4) (VFloat 1%float) (VInt 7) "one" 0%N with
                | Ok _ => true
                | Raise _ => false
                end = true) by (vm_compute; reflexivity).
  destruct (inject_workflow_parameters get_workflow_template "a.png" "first"
              (VInt 4) (VFloat 1%float) (VInt 7) "one" 0%N) as [g1|e] eqn:Hfirst;
    [|discriminate Hok].
  exists g1. split; [reflexivity|].
  exact (injection_overwrites get_workflow_template g1 "a.png" "first"
           (VInt 4) (VFloat 1%float) (VInt 7) "one" 0%N "b.png" "second"
           (VInt 8) (VFloat 3%float) VNone "two" 5%N Hfirst).
Defined.

Lemma no_placeholder_left_witness :
  exists g,
    create_workflow "in.png" "rotate left 45" (VInt 8) (VFloat 3%float) (VStr "42") "out" 5%N
    = Ok g
    /\ forall id key v,
         input_of g id key = Some v -> is_placeholder v = true ->
         v ∈ [VStr "in.png"; VStr "rotate left 45"; VInt 8; VFloat 3%float; VStr "out"].
Proof.
  assert (Hok : match create_workflow "in.png" "rotate left 45" (VInt 8) (VFloat 3%float)
                        (VStr "42") "out" 5%N with
                | Ok _ => true
                | Raise _ => false
                end = true) by (vm_compute; reflexivity).
  destruct (create_workflow "in.png" "rotate left 45" (VInt 8) (VFloat 3%float)
              (VStr "42") "out" 5%N) as [g|e] eqn:Hcreate; [|discriminate Hok].
  exists g. split; [reflexivity|].
  exact (no_placeholder_left sample_b64decode "in.png" "rotate left 45"
           (VInt 8) (VFloat 3%float) (VStr "42") "out" 5%N g Hcreate).
Defined.

Lemma references_resolve_witness :
  exists g,
    create_workflow "in.png" "rotate left 45" (VInt 8) (VFloat 3%float) VNone "out" 5%N
    = Ok g
    /\ forall id key producer slot,
         input_of g id key = Some (VList [VStr producer; VInt slot]) ->
         is_Some (g !! producer)
         /\ exists r r',
              template_rank producer = Some r /\ template_rank id = Some r'
              /\ (r < r')%nat.
Proof.
  assert (Hok : match create_workflow "in.png" "rotate left 45" (VInt 8) (VFloat 3%float)
                        VNone "out" 5%N with
                | Ok _ => true
                | Raise _ => false
                end = true) by (vm_compute; reflexivity).
  destruct (create_workflow "in.png" "rotate left 45" (VInt 8) (VFloat 3%float)
              VNone "out" 5%N) as [g|e] eqn:Hcreate; [|discriminate Hok].
  exists g. split; [reflexivity|].
  exact (references_resolve sample_b64decode "in.png" "rotate left 45"
           (VInt 8) (VFloat 3%float) VNone "out" 5%N g eq_refl eq_refl eq_refl Hcreate).
Defined.

(** A seed that [isdigit] accepts and [int] rejects: no graph is made. *)
Example superscript_seed_no_graph :
  create_workflow "in.png" "rotate left 45" (VInt 8) (VFloat 3%float) (VStr "²") "out" 5%N
  = Raise (Exn ValueError "invalid literal for int() with base 10: '²'").
Proof. vm_compute. reflexivity. Qed.

Lemma accepted_job_outcome_witness :
  (exists b k image_info,
      snd (_execute_workflow_via_api job_done get_workflow_template "ab12cd34" "qwen_0" 120)
      = Returned b
      /\ shows_image job_done k image_info
      /\ je_view job_done (filename image_info) (default "" (subfolder image_info)) = Ok b)
  \/ snd (_execute_workflow_via_api job_done get_workflow_template "ab12cd34" "qwen_0" 120)
     = Raised (Exn TimeoutError
                 ("Workflow execution timed out after " +:+ str_of_Z 120 +:+ " seconds")).
Proof.
  apply (accepted_job_outcome job_done get_workflow_template "ab12cd34" "qwen_0" 120
           (Some "p-1")).
  reflexivity.
Defined.

Lemma first_image_is_returned_witness :
  _execute_workflow_via_api job_done get_workflow_template "ab12cd34" "qwen_0" 120
  = ([EvPost "ab12cd34" get_workflow_template],
     Returned [Byte.x50; Byte.x4e; Byte.x47]).
Proof.
  apply (first_image_is_returned job_done get_workflow_template "ab12cd34" "qwen_0" 120
           (Some "p-1") 2 (ImageInfo (Some "qwen_00001_.png") (Some ""))).
  - reflexivity.
  - intros j Hj. destruct j as [|[|j]]; [reflexivity|reflexivity|lia].
  - eexists _, _. split; [reflexivity|]. split; [discriminate|reflexivity].
  - reflexivity.
  - vm_compute. reflexivity.
Defined.

Lemma deadline_is_final_witness :
  _execute_workflow_via_api job_stuck get_workflow_template "ef56ab78" "qwen_1" 2
  = ([EvPost "ef56ab78" get_workflow_template],
     Raised (Exn TimeoutError
               ("Workflow execution timed out after " +:+ str_of_Z 2 +:+ " seconds"))).
Proof.
  apply (deadline_is_final job_stuck get_workflow_template "ef56ab78" "qwen_1" 2
           (Some "p-2") 2).
  - reflexivity.
  - intros j Hj. reflexivity.
  - vm_compute. discriminate.
Defined.

Lemma success_is_complete_witness :
  exists resp images total_time original_image,
    snd (generate sample_b64decode sample_b64encode env_all_done request_single)
    = Returned resp
    /\ content resp = ImagesBody images total_time original_image
    /\ status_code resp = 200
    /\ original_image = req_image request_single
    /\ ge_healthy env_all_done = true
    /\ validated sample_b64decode request_single
    /\ length images = length (req_perspectives request_single)
    /\ forall k p, req_perspectives request_single !! k = Some p ->
         exists b,
           snd (job sample_b64decode env_all_done request_single k p) = Returned b
           /\ images !! k
              = Some (ImageEntry (perspective_id_of k p) (perspective_name_of k p)
                        (sample_b64encode b)
                        (reported_seed (req_seed request_single))).
Proof.
  assert (Hok : match snd (generate sample_b64decode sample_b64encode env_all_done
                             request_single) with
                | Returned (JSONResponse _ (ImagesBody _ _ _)) => true
                | _ => false
                end = true) by (vm_compute; reflexivity).
  destruct (generate sample_b64decode sample_b64encode env_all_done request_single)
    as [log o] eqn:Hrun.
  cbn [snd] in Hok |- *.
  destruct o as [[code [error message|images total_time original_image]]|e|];
    try discriminate Hok.
  exists (JSONResponse code (ImagesBody images total_time original_image)),
    images, total_time, original_image.
  split; [reflexivity|]. split; [reflexivity|].
  exact (success_is_complete sample_b64decode sample_b64encode env_all_done
           request_single log
           (JSONResponse code (ImagesBody images total_time original_image))
           images total_time original_image Hrun eq_refl).
Defined.

Lemma jobs_only_after_validation_witness :
  ge_healthy env_all_done = true /\ validated sample_b64decode request_single.
Proof.
  apply (jobs_only_after_validation sample_b64decode sample_b64encode env_all_done
           request_single).
  assert (Hok : match fst (generate sample_b64decode sample_b64encode env_all_done
                             request_single) with
                | [] => false
                | _ :: _ => true
                end = true) by (vm_compute; reflexivity).
  intros Hnil. rewrite Hnil in Hok. discriminate Hok.
Defined.

Lemma error_code_is_exact_witness :
  exists log resp message n p e,
    generate sample_b64decode sample_b64encode env_stuck request_single
    = (log, Returned resp)
    /\ content resp = ErrorBody "timeout" message
    /\ req_perspectives request_single !! n = Some p
    /\ (forall k q, (k < n)%nat -> req_perspectives request_single !! k = Some q ->
          exists b,
            snd (job sample_b64decode env_stuck request_single k q) = Returned b)
    /\ snd (job sample_b64decode env_stuck request_single n p) = Raised e
    /\ ("timeout" = "timeout" <-> exn_kind e = TimeoutError)
    /\ ("timeout" = "timeout" -> status_code resp = 504)
    /\ ("timeout" = "generation_error" -> status_code resp = 500)
    /\ jobs_started log = seq 0 (S n).
Proof.
  assert (Hok : match snd (generate sample_b64decode sample_b64encode env_stuck
                             request_single) with
                | Returned (JSONResponse _ (ErrorBody error _)) => String.eqb error "timeout"
                | _ => false
                end = true) by (vm_compute; reflexivity).
  destruct (generate sample_b64decode sample_b64encode env_stuck request_single)
    as [log o] eqn:Hrun.
  cbn [snd] in Hok.
  destruct o as [[code [error message|images total_time original_image]]|e|];
    try discriminate Hok.
  apply String.eqb_eq in Hok. subst error.
  destruct (error_code_is_exact sample_b64decode sample_b64encode env_stuck
              request_single log (JSONResponse code (ErrorBody "timeout" message))
              "timeout" message Hrun eq_refl (or_introl eq_refl))
    as (n & p & e & Hrest).
  exists log, (JSONResponse code (ErrorBody "timeout" message)), message, n, p, e.
  split; [reflexivity|]. split; [reflexivity|]. exact Hrest.
Defined.

Lemma posted_graph_fidelity_witness :
  exists g,
    posted (fst (generate sample_b64decode sample_b64encode env_all_done request_single))
      !! 0%nat = Some g
    /\ exists p,
         req_perspectives request_single !! 0%nat = Some p
         /\ input_of g "115" "text" = Some (VStr (prompt_of p))
         /\ input_of g "14" "steps" = Some (steps_of request_single)
         /\ input_of g "14" "cfg" = Some (cfg_scale_of request_single)
         /\ input_of g "31" "image"
            = Some (VStr ("input_" +:+ je_client_id (ge_job env_all_done 0) +:+ ".png"))
         /\ input_of g "80" "filename_prefix"
            = Some (VStr (("qwen_" +:+ perspective_id_of 0 p) +:+ "_"
                          +:+ je_client_id (ge_job env_all_done 0)))
         /\ dom g = dom get_workflow_template.
Proof.
  assert (Hok : match posted (fst (generate sample_b64decode sample_b64encode
                                     env_all_done request_single)) !! 0%nat with
                | Some _ => true
                | None => false
                end = true) by (vm_compute; reflexivity).
  destruct (posted (fst (generate sample_b64decode sample_b64encode env_all_done
                           request_single)) !! 0%nat) as [g|] eqn:Hposted;
    [|discriminate Hok].
  exists g. split; [reflexivity|].
  exact (posted_graph_fidelity sample_b64decode sample_b64encode env_all_done
           request_single 0 g Hposted).
Defined.

Lemma first_invalid_perspective_witness :
  generate sample_b64decode sample_b64encode env_all_done request_bad_second
  = ([], Returned (error_response 400 "validation_error"
                     ("perspective[" +:+ str_of_nat 1 +:+ "] must be an object"))).
Proof.
  apply (first_invalid_perspective sample_b64decode sample_b64encode env_all_done
           request_bad_second 1 PNotObject).
  - reflexivity.
  - exists sample_image, (map byte_of_ascii (list_ascii_of_string sample_image)).
    split; [reflexivity|]. split; [discriminate|]. split; [reflexivity|].
    vm_compute. lia.
  - reflexivity.
  - repeat constructor. eexists _, _, _. split; [reflexivity|discriminate].
  - intros (id & name & prompt & H & _). discriminate H.
Defined.

Lemma endpoint_status_matches_table_witness :
  exists log resp error message c,
    generate sample_b64decode sample_b64encode env_refused request_single
    = (log, Returned resp)
    /\ content resp = ErrorBody error message
    /\ error_code_value c = error
    /\ status_code resp = snd (ERROR_MESSAGES c).
Proof.
  assert (Hok : match snd (generate sample_b64decode sample_b64encode env_refused
                             request_single) with
                | Returned (JSONResponse _ (ErrorBody _ _)) => true
                | _ => false
                end = true) by (vm_compute; reflexivity).
  destruct (generate sample_b64decode sample_b64encode env_refused request_single)
    as [log o] eqn:Hrun.
  cbn [snd] in Hok.
  destruct o as [[code [error message|images total_time original_image]]|e|];
    try discriminate Hok.
  destruct (endpoint_status_matches_table sample_b64decode sample_b64encode env_refused
              request_single log (JSONResponse code (ErrorBody error message))
              error message Hrun eq_refl) as (c & Hrest).
  exists log, (JSONResponse code (ErrorBody error message)), error, message, c.
  split; [reflexivity|]. split; [reflexivity|]. exact Hrest.
Defined.

(** The answer to a refused submission, computed. *)
Example refused_single :
  snd (generate sample_b64decode sample_b64encode env_refused request_single)
  = Returned (error_response 500 "generation_error"
                ("视角 'A' 的图像生成失败: "
                 +:+ "Workflow execution failed: ComfyUI rejected workflow: invalid prompt")).
Proof. vm_compute. reflexivity. Qed.

Lemma handle_exception_classification_witness :
  app_status_code (handle_exception (Exn RuntimeError "Failed to LOAD the weights"))
  = snd (ERROR_MESSAGES
           (app_code (handle_exception (Exn RuntimeError "Failed to LOAD the weights"))))
  /\ app_code (handle_exception (Exn RuntimeError "Failed to LOAD the weights"))
     = (if contains "model" (lower "Failed to LOAD the weights")
           || contains "load" (lower "Failed to LOAD the weights")
        then MODEL_ERROR
        else if contains "comfyui" (lower "Failed to LOAD the weights")
                || contains "server" (lower "Failed to LOAD the weights")
        then SERVICE_UNAVAILABLE
        else GENERATION_ERROR)
  /\ app_code (handle_exception (Exn RuntimeError (upper "Failed to LOAD the weights")))
     = app_code (handle_exception (Exn RuntimeError "Failed to LOAD the weights"))
  /\ (RuntimeError = ValueError ->
      app_message (handle_exception (Exn RuntimeError "Failed to LOAD the weights"))
      = if String.eqb "Failed to LOAD the weights" "" then "请求参数验证失败"
        else "Failed to LOAD the weights")
  /\ (app_code (handle_exception (Exn RuntimeError "Failed to LOAD the weights"))
        ∈ [MODEL_ERROR; GENERATION_ERROR; SERVER_ERROR] ->
      app_details (handle_exception (Exn RuntimeError "Failed to LOAD the weights"))
      = Some "Failed to LOAD the weights")
  /\ (app_code (handle_exception (Exn RuntimeError "Failed to LOAD the weights"))
        ∈ [TIMEOUT; SERVICE_UNAVAILABLE; VALIDATION_ERROR] ->
      app_details (handle_exception (Exn RuntimeError "Failed to LOAD the weights")) = None).
Proof.
  apply (handle_exception_classification RuntimeError "Failed to LOAD the weights").
  reflexivity.
Defined.

Example load_failure_is_model_error :
  to_dict (handle_exception (Exn RuntimeError "Failed to LOAD the weights"))
  = [ ("error", "model_error");
      ("message", "AI 模型加载失败，服务暂时不可用");
      ("details", "Failed to LOAD the weights") ].
Proof. vm_compute. reflexivity. Qed.

Lemma missing_models_are_reported_witness :
  snd (_setup_model_symlinks sample_fs)
  = Ok (map missing_name (List.filter (fun m => negb (cached sample_fs m)) all_models)).
Proof.
  apply (missing_models_are_reported sample_fs).
  split; [|split]; intros; reflexivity.
Defined.

Lemma cached_models_are_linked_witness :
  List.filter is_mkdir (fst (_setup_model_symlinks sample_fs))
  = map (fun p => Mkdir (snd (snd p))) MODEL_PATHS
  /\ List.filter (fun a => negb (is_mkdir a)) (fst (_setup_model_symlinks sample_fs))
     = flat_map (replace_plan sample_fs) (List.filter (cached sample_fs) all_models).
Proof.
  apply (cached_models_are_linked sample_fs).
  split; [|split]; intros; reflexivity.
Defined.

(** The set-up on the sample file system, computed. *)
Example sample_setup :
  _setup_model_symlinks sample_fs
  = ([ Mkdir "/root/comfy/ComfyUI/models/vae";
       Unlink "/root/comfy/ComfyUI/models/vae/qwen_image_vae.safetensors";
       Symlink "/cache/models/vae/qwen_image_vae.safetensors"
               "/root/comfy/ComfyUI/models/vae/qwen_image_vae.safetensors";
       Mkdir "/root/comfy/ComfyUI/models/clip";
       Mkdir "/root/comfy/ComfyUI/models/diffusion_models";
       Symlink "/cache/models/unet/Qwen-Image-Edit-2511.safetensors"
               "/root/comfy/ComfyUI/models/diffusion_models/Qwen-Image-Edit-2511.safetensors";
       Mkdir "/root/comfy/ComfyUI/models/loras" ],
     Ok [ "clip/qwen_2.5_vl_7b.safetensors";
          "loras/Qwen-Image-Lightning-4steps-V1.0.safetensors";
          "loras/Qwen-Image-Lightning-8steps-V1.0.safetensors" ]).
Proof. vm_compute. reflexivity. Qed.

Lemma launch_failure_is_unavailable_witness :
  exn_kind (Exn RuntimeError "ComfyUI server failed to start after 120.0 seconds")
  = RuntimeError
  /\ app_status_code
       (handle_exception
          (Exn RuntimeError "ComfyUI server failed to start after 120.0 seconds")) = 503
  /\ (lt_command_run (fst (launch_comfy_background launch_silent)) = false ->
      app_code (handle_exception
                  (Exn RuntimeError "ComfyUI server failed to start after 120.0 seconds"))
      = MODEL_ERROR)
  /\ (le_returncode launch_silent = 0 ->
      lt_command_run (fst (launch_comfy_background launch_silent)) = true ->
      app_code (handle_exception
                  (Exn RuntimeError "ComfyUI server failed to start after 120.0 seconds"))
      = SERVICE_UNAVAILABLE).
Proof.
  apply (launch_failure_is_unavailable launch_silent
           (fst (launch_comfy_background launch_silent))
           (Exn RuntimeError "ComfyUI server failed to start after 120.0 seconds")).
  vm_compute. reflexivity.
Defined.

(** The server never answers: sixty waits, and the runtime error. *)
Example silent_server :
  lt_sleeps (fst (launch_comfy_background launch_silent)) = 60%nat
  /\ snd (launch_comfy_background launch_silent)
     = Raise (Exn RuntimeError "ComfyUI server failed to start after 120.0 seconds").
Proof. split; vm_compute; reflexivity. Qed.

